(** * Document ingestion, citation and theme clustering: a shallow embedding

    The Python sources modelled here are
    - [backend/app/core/document_processor.py]   (class [DocumentProcessor]),
    - [backend/app/core/vector_database.py]      (class [VectorDatabaseService]),
    - [backend/app/core/theme_processor.py]      (class [ThemeProcessor]),
    - [backend/app/core/query_processor.py]      (class [QueryProcessor]),
    - [backend/app/services/enhanced_citation.py] (class [EnhancedCitationService]),
    - [backend/app/api/endpoints/documents.py]   (the public document routes).

    Conventions.  Python [int] is [Z]; [//] is [Z.div] (both round towards
    minus infinity).  Python [float] scores are idealised as rationals [Q].
    Python [str] is [string], restricted to the ASCII range: the character
    classes [\s], [\d], [\w] and [str.strip] are the ASCII part of what Python
    uses for [str].  A Python [dict] keyed by identifiers is a [gmap string _];
    a dict whose iteration order matters is a list in insertion order.  Code
    that can raise returns a [result]; external collaborators (the vector
    index, the command line tools, the OCR engine, the clustering library) are
    parameters that give the outcome of each call. *)

From Stdlib Require Import ZArith QArith Qminmax Ascii DecimalString DecimalPos Lia.
From Stdlib Require String.
From stdpp Require Import base option list gmap strings sorting.

Local Open Scope Z_scope.

(** ** Python built-ins used by the sources *)

Module Py.

(** Outcome of code that may raise: the message is [str(e)]. *)
Inductive result (A : Type) : Type :=
| Ok (a : A)
| Raise (msg : string).
Arguments Ok {A} a.
Arguments Raise {A} msg.

Definition bind {A B} (r : result A) (k : A → result B) : result B :=
  match r with
  | Ok a => k a
  | Raise e => Raise e
  end.

(** [try: body  except Exception as e: handler(e)] *)
Definition try_except {A} (body : result A) (handler : string → result A) : result A :=
  match body with
  | Ok a => Ok a
  | Raise e => handler e
  end.

(** [str.isspace] on one ASCII character: tab, LF, VT, FF, CR, the four
    separators 0x1c-0x1f and the space. *)
Definition isspace (c : ascii) : bool :=
  match c with
  | "009" | "010" | "011" | "012" | "013"
  | "028" | "029" | "030" | "031" | " " => true
  | _ => false
  end%char.

Definition isdigit (c : ascii) : bool :=
  match Ascii.is_nat c with Some _ => true | None => false end.

Definition digit_val (c : ascii) : Z :=
  match Ascii.is_nat c with Some d => Z.of_nat d | None => 0 end.

Definition len (s : string) : Z := Z.of_nat (String.length s).

Fixpoint lstrip (s : string) : string :=
  match s with
  | String c r => if isspace c then lstrip r else s
  | EmptyString => EmptyString
  end.

Fixpoint rstrip (s : string) : string :=
  match s with
  | String c r =>
      match rstrip r with
      | EmptyString => if isspace c then EmptyString else String c EmptyString
      | t => String c t
      end
  | EmptyString => EmptyString
  end.

(** [s.strip()] *)
Definition strip (s : string) : string := rstrip (lstrip s).

(** Truth value of a string: [bool(s)], false exactly for the empty one. *)
Definition truthy (s : string) : bool :=
  match s with EmptyString => false | _ => true end.

(** [s.startswith(p)] *)
Definition startswith (s p : string) : bool := String.prefix p s.

(** [s.split(sep)] for a one-character separator: always at least one
    piece, empty pieces kept. *)
Fixpoint split_char (sep : ascii) (s : string) : list string :=
  match s with
  | EmptyString => [EmptyString]
  | String c r =>
      if Ascii.eqb c sep then EmptyString :: split_char sep r
      else match split_char sep r with
           | p :: ps => String c p :: ps
           | [] => [String c EmptyString]
           end
  end.

(** [s.replace(old, new)] for a non-empty [old]: occurrences are replaced
    from the left and do not overlap.  [skip] counts the characters of the
    occurrence just replaced that are still to be dropped. *)
Fixpoint replace_go (old new : string) (skip : nat) (s : string) : string :=
  match s with
  | EmptyString => EmptyString
  | String c r =>
      match skip with
      | S k => replace_go old new k r
      | O =>
          if String.prefix old s
          then new +:+ replace_go old new (Nat.pred (String.length old)) r
          else String c (replace_go old new O r)
      end
  end.
Definition replace (s old new : string) : string := replace_go old new O s.

(** Decimal digits with PEP 515 underscores: an underscore may only stand
    between two digits. *)
Fixpoint digits_go (acc : Z) (after_digit : bool) (s : string) : option Z :=
  match s with
  | EmptyString => if after_digit then Some acc else None
  | String c r =>
      if isdigit c then digits_go (10 * acc + digit_val c) true r
      else if Ascii.eqb c "_" then
             if after_digit then digits_go acc false r else None
      else None
  end.

(** The whitespace [int] skips in an ASCII string: the C [isspace] set. *)
Definition isspace_c (c : ascii) : bool :=
  match c with
  | "009" | "010" | "011" | "012" | "013" | " " => true
  | _ => false
  end%char.

Fixpoint lstrip_c (s : string) : string :=
  match s with
  | String c r => if isspace_c c then lstrip_c r else s
  | EmptyString => EmptyString
  end.

Fixpoint rstrip_c (s : string) : string :=
  match s with
  | String c r =>
      match rstrip_c r with
      | EmptyString => if isspace_c c then EmptyString else String c EmptyString
      | t => String c t
      end
  | EmptyString => EmptyString
  end.

(** [int(s)] on a string, base 10: surrounding whitespace is dropped, one
    sign is allowed; [None] stands for [ValueError].  The interpreter's limit
    on the number of digits is not modelled. *)
Definition int (s : string) : option Z :=
  match rstrip_c (lstrip_c s) with
  | String "-" r => Z.opp <$> digits_go 0 false r
  | String "+" r => digits_go 0 false r
  | t => digits_go 0 false t
  end.

(** Strings of decimal digits only. *)
Fixpoint all_digits (s : string) : bool :=
  match s with
  | EmptyString => true
  | String c r => isdigit c && all_digits r
  end.

(** [str(n)] for an integer. *)
Definition str (n : Z) : string := NilEmpty.string_of_int (Z.to_int n).

(** [sep.join(parts)] *)
Fixpoint join (sep : string) (parts : list string) : string :=
  match parts with
  | [] => EmptyString
  | [p] => p
  | p :: ps => p +:+ sep +:+ join sep ps
  end.

(** [c.lower()] on one ASCII character. *)
Definition lower_char (c : ascii) : ascii :=
  let n := nat_of_ascii c in
  if (65 <=? n)%nat && (n <=? 90)%nat then ascii_of_nat (n + 32) else c.

Fixpoint lower (s : string) : string :=
  match s with
  | EmptyString => EmptyString
  | String c r => String (lower_char c) (lower r)
  end.

(** [min(a, b)] on numbers: Python returns [a] unless [b < a]. *)
Definition minZ (a b : Z) : Z := if b <? a then b else a.
Definition maxZ (a b : Z) : Z := if a <? b then b else a.
Definition minQ (a b : Q) : Q := if Qlt_le_dec b a then b else a.

End Py.

Import Py.

(** ** The file system and the monad of the services

    Every service method runs in [IO]: it reads and changes a [World] (the
    part of the file system the sources touch) and either returns or raises.
    Effects performed before a raise stay in the world. *)

Module Sys.

Inductive FsOp : Type :=
| OpMakedirs (p : string)
| OpWrite (p : string)
| OpRemove (p : string)
| OpRmtree (p : string).

Record World : Type := {
  files : gmap string string;   (* regular files with their contents *)
  dirs : gset string;           (* directories *)
  locked : gset string;         (* paths on which a change raises OSError *)
  fs_log : list FsOp            (* the changes attempted so far, newest first *)
}.

(** State passing with exceptions over a state [S]. *)
Definition ST (S A : Type) : Type := S → Py.result A * S.

Definition ret {S A} (a : A) : ST S A := λ s, (Py.Ok a, s).
Definition raise {S A} (msg : string) : ST S A := λ s, (Py.Raise msg, s).
Definition bind {S A B} (m : ST S A) (k : A → ST S B) : ST S B :=
  λ s, match m s with
       | (Py.Ok a, s') => k a s'
       | (Py.Raise e, s') => (Py.Raise e, s')
       end.

(** [try: body  except Exception as e: handler(e)] *)
Definition try_except {S A} (body : ST S A) (handler : string → ST S A) : ST S A :=
  λ s, match body s with
       | (Py.Ok a, s') => (Py.Ok a, s')
       | (Py.Raise e, s') => handler e s'
       end.

(** An external call whose outcome is fixed by the environment. *)
Definition lift {S A} (r : Py.result A) : ST S A := λ s, (r, s).

(** Run a computation on a component [T] of the state [S]. *)
Definition zoom {S T A} (get : S → T) (set : T → S → S) (m : ST T A) : ST S A :=
  λ s, let '(r, t) := m (get s) in (r, set t s).

#[global] Instance st_ret {S} : MRet (ST S) := λ A, @ret S A.
#[global] Instance st_bind {S} : MBind (ST S) := λ A B k m, bind m k.

Abbreviation IO := (ST World).

Definition log (op : FsOp) (w : World) : World :=
  {| files := files w; dirs := dirs w; locked := locked w; fs_log := op :: fs_log w |}.

(** [os.path.join(a, b)] for two components. *)
Definition path_join (a b : string) : string :=
  if String.prefix "/" b then b
  else if bool_decide (a = "") || bool_decide (String.substring (String.length a - 1) 1 a = "/")
       then a +:+ b
       else a +:+ "/" +:+ b.

(** [q] lies inside directory [p]. *)
Definition under (p q : string) : bool := String.prefix (p +:+ "/") q.

(** [os.path.exists(p)] *)
Definition path_exists (p : string) : IO bool :=
  λ w, (Py.Ok (bool_decide (is_Some (files w !! p)) || bool_decide (p ∈ dirs w)), w).

(** [os.makedirs(p, exist_ok=True)] *)
Definition makedirs (p : string) : IO unit :=
  λ w, let w := log (OpMakedirs p) w in
       if bool_decide (p ∈ locked w) then (Py.Raise "Permission denied", w)
       else (Py.Ok (),
             {| files := files w; dirs := {[p]} ∪ dirs w;
                locked := locked w; fs_log := fs_log w |}).

(** [with open(p, 'w') as f: f.write(text)] *)
Definition write_file (p text : string) : IO unit :=
  λ w, let w := log (OpWrite p) w in
       if bool_decide (p ∈ locked w) then (Py.Raise "Permission denied", w)
       else (Py.Ok (),
             {| files := <[p := text]> (files w); dirs := dirs w;
                locked := locked w; fs_log := fs_log w |}).

(** [with open(p, 'r') as f: f.read()]: the content as it is stored.  The
    text mode of Python turns a carriage return into a newline; the read is
    exact for a content without carriage returns. *)
Definition read_file (p : string) : IO string :=
  λ w, match files w !! p with
       | Some text => (Py.Ok text, w)
       | None => (Py.Raise "No such file or directory", w)
       end.

(** [os.remove(p)] *)
Definition remove (p : string) : IO unit :=
  λ w, let w := log (OpRemove p) w in
       if bool_decide (p ∈ locked w) then (Py.Raise "Permission denied", w)
       else match files w !! p with
            | Some _ => (Py.Ok (),
                         {| files := delete p (files w); dirs := dirs w;
                            locked := locked w; fs_log := fs_log w |})
            | None => (Py.Raise "No such file or directory", w)
            end.

(** [shutil.rmtree(p)]: the directory and everything inside it. *)
Definition rmtree (p : string) : IO unit :=
  λ w, let w := log (OpRmtree p) w in
       if bool_decide (p ∈ locked w) then (Py.Raise "Permission denied", w)
       else if bool_decide (p ∈ dirs w) then
         (Py.Ok (),
          {| files := filter (λ kv, negb (under p kv.1)) (files w);
             dirs := filter (λ q, q ≠ p ∧ negb (under p q)) (dirs w);
             locked := locked w; fs_log := fs_log w |})
       else (Py.Raise "Not a directory", w).

End Sys.

(** ** Application settings ([backend/app/config.py]) *)

Module config.
(** [BASE_DIR] is the installation directory; it depends on the host, a
    fixed value stands for it. *)
Definition BASE_DIR : string := "/srv/app".
Definition DATA_DIR : string := Sys.path_join BASE_DIR "data".
Definition UPLOAD_DIR : string := Sys.path_join DATA_DIR "uploads".
Definition PROCESSED_DIR : string := Sys.path_join DATA_DIR "processed".
Definition OCR_ENGINE : string := "tesseract".
Definition OCR_LANGUAGE : string := "eng".
Definition ALLOWED_EXTENSIONS : list string :=
  ["pdf"; "png"; "jpg"; "jpeg"; "tiff"; "bmp"; "doc"; "docx"; "txt"; "rtf"; "odt"].
Definition MIN_THEME_DOCUMENTS : Z := 2.
Definition THEME_SIMILARITY_THRESHOLD : Q := 3 # 4.
End config.

(** ** Document records and the external tools *)

Module Doc.

(** A dictionary entry that may be missing, hold [None], or hold a string. *)
Inductive field : Type :=
| Absent
| PyNone
| PyStr (s : string).

(** The document metadata dictionary. *)
Record Document : Type := mkDocument {
  id : string;
  title : option string;
  original_filename : string;
  file_path : field;
  file_type : string;
  status : option string;
  page_count : option Z;
  processed_path : field;
  processed_time : option string;
  text_length : option Z;
  error_message : option string;
  tags : list string
}.

(** The assignments made when processing succeeds. *)
Definition set_processed (d : Document) (dir : string) (pages : Z)
    (time : string) (length : Z) : Document :=
  {| id := id d; title := title d; original_filename := original_filename d;
     file_path := file_path d; file_type := file_type d;
     status := Some "processed"; page_count := Some pages;
     processed_path := PyStr dir; processed_time := Some time;
     text_length := Some length; error_message := error_message d;
     tags := tags d |}.

(** The assignments made by the exception handler of [process_document]. *)
Definition set_error (d : Document) (msg : string) : Document :=
  {| id := id d; title := title d; original_filename := original_filename d;
     file_path := file_path d; file_type := file_type d;
     status := Some "error"; page_count := page_count d;
     processed_path := processed_path d; processed_time := processed_time d;
     text_length := text_length d; error_message := Some msg;
     tags := tags d |}.

(** Outcomes of the external programs and libraries for the files of a run.
    An image is named by a string. *)
Record Tools : Type := {
  pdftotext : string → Py.result string;          (* text written by [pdftotext -layout] *)
  pdfinfo : string → Py.result string;            (* standard output of [pdfinfo] *)
  convert_from_path : string → Py.result (list string);  (* pdf2image: one image per page *)
  image_to_string : string → Py.result string;    (* pytesseract on an image *)
  paddle_ocr : string → Py.result (list string);  (* PaddleOCR: recognised lines of a file *)
  image_open : string → Py.result string;         (* PIL [Image.open] *)
  docx2txt_importable : bool;
  docx2txt_process : string → Py.result string;
  docx2txt_cli : string → Py.result string;       (* text written by the [docx2txt] program *)
  antiword : string → Py.result string;
  libreoffice_convert : string → string → Py.result unit;
  now : string                                    (* [datetime.now().isoformat()] *)
}.

End Doc.

(** ** [DocumentProcessor] ([backend/app/core/document_processor.py]) *)

Module DocumentProcessor.
Import Sys Doc.

Definition nl : string := String "010" EmptyString.

(** The processor: its registry [self.documents], the registry as last
    written to [document_metadata.json], and the file system. *)
Record State : Type := {
  documents : gmap string Document;
  saved : gmap string Document;
  world : World
}.

Definition metadata_file : string := path_join config.DATA_DIR "document_metadata.json".

Definition set_world (w : World) (s : State) : State :=
  {| documents := documents s; saved := saved s; world := w |}.
Definition set_documents (m : gmap string Document) (s : State) : State :=
  {| documents := m; saved := saved s; world := world s |}.

Definition io {A} (m : IO A) : ST State A := zoom world set_world m.

(** [_save_documents]: a failed write is logged and swallowed.  What the
    metadata file holds is kept in [saved]; [files] and [fs_log] do not
    follow this write. *)
Definition _save_documents : ST State unit :=
  λ s, if bool_decide (metadata_file ∈ locked (world s)) then (Py.Ok (), s)
       else (Py.Ok (), {| documents := documents s; saved := documents s; world := world s |}).

(** [self.documents[doc_id] = document] *)
Definition store_document (doc_id : string) (d : Document) : ST State unit :=
  λ s, (Py.Ok (), set_documents (<[doc_id := d]> (documents s)) s).

Section Extraction.
Variable tools : Tools.

(** The OCR of one page, by the configured engine. *)
Definition ocr_page (image image_path : string) : IO string :=
  if bool_decide (config.OCR_ENGINE = "tesseract") then
    lift (image_to_string tools image)
  else if bool_decide (config.OCR_ENGINE = "paddleocr") then
    lines ← lift (paddle_ocr tools image_path); mret (Py.join nl lines)
  else raise ("Unsupported OCR engine: " +:+ config.OCR_ENGINE).

(** [f"--- Page {n} ---\n{page_text}\n"] *)
Definition page_entry (n : Z) (page_text : string) : string :=
  "--- Page " +:+ Py.str n +:+ " ---" +:+ nl +:+ page_text +:+ nl.

(** The loop [for i, image in enumerate(images)] of [_process_pdf_with_ocr],
    entered at index [i]; it returns the entries appended to [all_text]. *)
Fixpoint ocr_pages (images_dir : string) (i : Z) (images : list string) : IO (list string) :=
  match images with
  | [] => mret []
  | image :: rest =>
      let image_path := path_join images_dir ("page_" +:+ Py.str (i + 1) +:+ ".png") in
      _ ← write_file image_path image;
      page_text ← ocr_page image image_path;
      more ← ocr_pages images_dir (i + 1) rest;
      mret (page_entry (i + 1) page_text :: more)
  end.

Definition _process_pdf_with_ocr (file_path output_dir : string) : IO (string * Z) :=
  images ← lift (convert_from_path tools file_path);
  let page_count := Z.of_nat (length images) in
  let images_dir := path_join output_dir "page_images" in
  _ ← makedirs images_dir;
  all_text ← ocr_pages images_dir 0 images;
  let full_text := Py.join nl all_text in
  mret (full_text, page_count).

(** The loop over the lines of the [pdfinfo] output: the count of the first
    line that starts with [Pages:], 0 when there is none; [int] may raise. *)
Fixpoint pages_of_info (lines : list string) : Py.result Z :=
  match lines with
  | [] => Py.Ok 0
  | line :: rest =>
      if Py.startswith line "Pages:" then
        match Py.int (Py.strip (default "" (Py.split_char ":" line !! 1%nat))) with
        | Some n => Py.Ok n
        | None => Py.Raise "invalid literal for int() with base 10"
        end
      else pages_of_info rest
  end.

Definition _process_pdf (file_path output_dir : string) : IO (string * Z) :=
  try_except
    (let text_file := path_join output_dir "pdftotext_output.txt" in
     out ← lift (pdftotext tools file_path);
     _ ← write_file text_file out;
     text ← read_file text_file;
     if Py.len (Py.strip text) <? 100 then
       _process_pdf_with_ocr file_path output_dir
     else
       info_output ← lift (pdfinfo tools file_path);
       page_count ← lift (pages_of_info (Py.split_char "010" info_output));
       mret (text, page_count))
    (λ e, _process_pdf_with_ocr file_path output_dir).

Definition _process_image (file_path output_dir : string) : IO (string * Z) :=
  image ← lift (image_open tools file_path);
  text ← (if bool_decide (config.OCR_ENGINE = "tesseract") then
            lift (image_to_string tools image)
          else if bool_decide (config.OCR_ENGINE = "paddleocr") then
            lines ← lift (paddle_ocr tools file_path); mret (Py.join nl lines)
          else raise ("Unsupported OCR engine: " +:+ config.OCR_ENGINE));
  mret (text, 1).

Definition endswith (s suffix : string) : bool :=
  String.prefix (String.rev suffix) (String.rev s).

Definition _process_word (file_path output_dir : string) : IO (string * Z) :=
  try_except
    (text ← (if endswith file_path ".docx" then
               if docx2txt_importable tools then lift (docx2txt_process tools file_path)
               else
                 let text_file := path_join output_dir "word_text.txt" in
                 out ← lift (docx2txt_cli tools file_path);
                 _ ← write_file text_file out;
                 read_file text_file
             else lift (antiword tools file_path));
     let page_count := Py.maxZ 1 (Py.len text / 3000) in
     mret (text, page_count))
    (λ e,
       try_except
         (let pdf_path := path_join output_dir "converted.pdf" in
          _ ← lift (libreoffice_convert tools file_path output_dir);
          _process_pdf pdf_path output_dir)
         (λ e2, raise ("Failed to process Word document: " +:+ e +:+
                       " and conversion failed: " +:+ e2))).

Definition _process_text (file_path output_dir : string) : IO (string * Z) :=
  text ← read_file file_path;
  let page_count := Py.maxZ 1 (Py.len text / 3000) in
  mret (text, page_count).

Definition in_list (x : string) (l : list string) : bool := bool_decide (x ∈ l).

(** The [try] block of [process_document]; [fp] is [document["file_path"]]. *)
Definition process_body (document : Document) (fp : field) : ST State bool :=
  let doc_id := id document in
  let file_type := Py.lower (Doc.file_type document) in
  let processed_dir := path_join config.PROCESSED_DIR doc_id in
  _ ← io (makedirs processed_dir);
  file_path ← match fp with
              | PyStr p => mret p
              | _ => raise "expected str, bytes or os.PathLike object, not NoneType"
              end;
  '(text, page_count) ←
    io (if bool_decide (file_type = "pdf") then _process_pdf file_path processed_dir
        else if in_list file_type ["png"; "jpg"; "jpeg"; "tiff"; "bmp"] then
               _process_image file_path processed_dir
        else if in_list file_type ["doc"; "docx"] then
               _process_word file_path processed_dir
        else _process_text file_path processed_dir);
  let text_file := path_join processed_dir "extracted_text.txt" in
  _ ← io (write_file text_file text);
  let document :=
    set_processed document processed_dir page_count (now tools) (Py.len text) in
  _ ← store_document doc_id document;
  _ ← _save_documents;
  mret true.

(** The [except Exception as e] block of [process_document]. *)
Definition process_failed (document : Document) (e : string) : ST State bool :=
  let document := set_error document e in
  _ ← store_document (id document) document;
  _ ← _save_documents;
  mret false.

(** [process_document(self, document)].  A missing ["file_path"] key raises
    before the [try]; everything else that raises is handled. *)
Definition process_document (document : Document) : ST State bool :=
  match file_path document with
  | Absent => raise "KeyError: 'file_path'"
  | fp => try_except (process_body document fp) (process_failed document)
  end.

End Extraction.

(** [get_document(self, document_id)] *)
Definition get_document (document_id : string) (s : State) : option Document :=
  documents s !! document_id.

(** [delete_document(self, document_id)].  [os.path.exists(None)] raises
    [TypeError], which the handler turns into [False]. *)
Definition exists_field (f : field) : IO bool :=
  match f with
  | PyStr p => path_exists p
  | _ => raise "stat: path should be string, bytes, os.PathLike or integer, not NoneType"
  end.

(** [if key in document and os.path.exists(document[key]): delete(document[key])] *)
Definition delete_if_exists (f : field) (delete_path : string → IO unit) : IO unit :=
  match f with
  | Absent => ret ()
  | f =>
      bind (exists_field f) (λ e : bool,
        if e then delete_path (match f with PyStr p => p | _ => "" end)
        else ret ())
  end.

(** [del self.documents[document_id]] *)
Definition forget_document (document_id : string) : ST State unit :=
  λ s, (Py.Ok (), set_documents (delete document_id (documents s)) s).

Definition delete_document (document_id : string) : ST State bool :=
  λ s,
    match documents s !! document_id with
    | None => (Py.Ok false, s)
    | Some document =>
        try_except
          (_ ← io (delete_if_exists (file_path document) remove);
           _ ← io (delete_if_exists (processed_path document) rmtree);
           _ ← forget_document document_id;
           _ ← _save_documents;
           mret true)
          (λ e, ret false) s
    end.

End DocumentProcessor.

(** ** [VectorDatabaseService] ([backend/app/core/vector_database.py])

    The Chroma collection is a list of entries in insertion order.  The
    calls the service makes on it are taken as the langchain wrapper answers
    them: [add_documents] appends a batch and refuses an empty one;
    [get(filter=...)] and [delete(filter=...)] name a keyword the wrapper
    does not have, so both raise; the ranking of a similarity search is a
    parameter. *)

Module VectorDatabase.
Import Sys Doc.

(** The metadata dictionary stored with a chunk. *)
Record Metadata : Type := {
  md_chunk_id : option string;
  md_document_id : option string;
  md_document_title : option string;
  md_page : option Z;
  md_chunk_index : option Z;
  md_source : option string;
  md_file_type : option string
}.

Record LangchainDocument : Type := {
  page_content : string;
  metadata : Metadata
}.

(** A stored entry: the document and the embedding of its text. *)
Record Entry : Type := {
  entry_doc : LangchainDocument;
  entry_embedding : list Q
}.

(** The service: the collection and [self.chunk_metadata]. *)
Record State : Type := {
  vector_db : list Entry;
  chunk_metadata : gmap string (list string)
}.

(** One formatted search result (a dictionary in the source). *)
Record SearchResult : Type := {
  document_id : string;
  document_title : string;
  chunk_id : string;
  extracted_answer : string;
  citation : string;
  relevance_score : Q;
  result_metadata : Metadata
}.

(** [self.vector_db.get(filter={"chunk_id": cid})]: [Chroma.get] takes
    [ids], [where], [limit], [offset], [where_document] and [include]; the
    keyword [filter] is a [TypeError]. *)
Definition db_get (db : list Entry) (cid : string) : Py.result (list Entry) :=
  Py.Raise "get() got an unexpected keyword argument 'filter'".

(** [self.vector_db.delete(filter={"chunk_id": cid})]: [Chroma.delete]
    selects by [ids]; called without ids and with a keyword [filter] that
    the collection does not know, it raises and removes nothing. *)
Definition db_delete (db : list Entry) (cid : string) : Py.result (list Entry) :=
  Py.Raise "delete() called without ids".

(** The loop over the lines of a chunk: the number of the first line that
    starts with the marker prefix and parses; a line that does not parse is
    passed over. *)
Fixpoint marker_page (lines : list string) : option Z :=
  match lines with
  | [] => None
  | line :: rest =>
      if Py.startswith line "--- Page " then
        match Py.int (Py.replace (Py.replace line "--- Page " "") " ---" "") with
        | Some n => Some n
        | None => marker_page rest
        end
      else marker_page rest
  end.

(** Truth value of [document.get("page_count")]. *)
Definition known_page_count (d : Document) : option Z :=
  match page_count d with
  | Some pc => if pc =? 0 then None else Some pc
  | None => None
  end.

(** [page_info] of chunk [i] out of [total] chunks. *)
Definition page_info (d : Document) (total : Z) (i : Z) (chunk_text : string) : option Z :=
  match marker_page (Py.split_char "010" chunk_text) with
  | Some n => Some n
  | None =>
      match known_page_count d with
      | Some pc => Some (Py.minZ (1 + (i * pc) / total) pc)
      | None => None
      end
  end.

(** [page_info or 1] *)
Definition or_one (p : option Z) : Z :=
  match p with
  | Some n => if n =? 0 then 1 else n
  | None => 1
  end.

Definition make_chunk (d : Document) (total : Z) (i : nat) (chunk_text : string)
    : LangchainDocument :=
  {| page_content := chunk_text;
     metadata :=
       {| md_chunk_id := Some (id d +:+ "_chunk_" +:+ Py.str (Z.of_nat i));
          md_document_id := Some (id d);
          md_document_title := Some (default "" (title d));
          md_page := Some (or_one (page_info d total (Z.of_nat i) chunk_text));
          md_chunk_index := Some (Z.of_nat i);
          md_source := Some (original_filename d);
          md_file_type := Some (file_type d) |} |}.

Section Service.
(** [RecursiveCharacterTextSplitter.split_text], the embedding model and the
    similarity search of the index. *)
Variable split_text : string → list string.
Variable embed : string → list Q.
Variable similarity_search_with_score :
  list Entry → string → Z → option (list string) → Py.result (list (LangchainDocument * Q)).

(** The chunks [add_document] builds from the extracted text. *)
Definition chunks_of (d : Document) (text : string) : list LangchainDocument :=
  let chunks := split_text text in
  imap (make_chunk d (Z.of_nat (length chunks))) chunks.

(** [self.vector_db.add_documents(docs)]: the batch is embedded and
    appended; an empty batch is refused with a [ValueError]. *)
Definition db_add_documents (db : list Entry) (docs : list LangchainDocument)
    : Py.result (list Entry) :=
  match docs with
  | [] => Py.Raise "add_documents() called with an empty list"
  | _ =>
      Py.Ok (db ++
             map (λ c, {| entry_doc := c; entry_embedding := embed (page_content c) |}) docs)
  end.

(** [add_document(self, document)]: the file system is only read; every
    exception is caught and gives [False]. *)
Definition add_document (w : World) (d : Document) (s : State) : bool * State :=
  if negb (bool_decide (status d = Some "processed")) then (false, s)
  else
    match processed_path d with
    | Absent => (false, s)
    | PyNone => (false, s)           (* [os.path.join(None, ...)] raises, handled *)
    | PyStr dir =>
        let text_file := path_join dir "extracted_text.txt" in
        match files w !! text_file with
        | None =>
            (false, s)               (* missing, or a directory the read of which raises *)
        | Some text =>
            let docs := chunks_of d text in
            let chunk_ids := omap (λ c, md_chunk_id (metadata c)) docs in
            match db_add_documents (vector_db s) docs with
            | Py.Raise _ => (false, s)
            | Py.Ok db =>
                (true,
                 {| vector_db := db;
                    chunk_metadata := <[id d := chunk_ids]> (chunk_metadata s) |})
            end
        end
    end.

(** The formatting of one raw hit. *)
Definition format_hit (hit : LangchainDocument * Q) : SearchResult :=
  let '(doc, score) := hit in
  let relevance_score := (1 - Py.minQ score 1)%Q in
  let citation := "Page " +:+ Py.str (default 1 (md_page (metadata doc))) in
  {| document_id := default "" (md_document_id (metadata doc));
     document_title := default "" (md_document_title (metadata doc));
     chunk_id := default "" (md_chunk_id (metadata doc));
     extracted_answer := page_content doc;
     citation := citation;
     relevance_score := relevance_score;
     result_metadata := metadata doc |}.

(** [{"document_id": {"$in": document_ids}}], or no filter when
    [document_ids] is [None] or empty. *)
Definition filter_dict (document_ids : option (list string)) : option (list string) :=
  match document_ids with
  | Some (x :: l) => Some (x :: l)
  | _ => None
  end.

(** [search(self, query, document_ids, max_results)] *)
Definition search (s : State) (query : string) (document_ids : option (list string))
    (max_results : Z) : list SearchResult :=
  match similarity_search_with_score (vector_db s) query max_results
          (filter_dict document_ids) with
  | Py.Ok results => map format_hit results
  | Py.Raise _ => []
  end.

(** The loop [for chunk_id in chunk_ids: self.vector_db.delete(...)]: the
    collection as the loop leaves it, with the exception that ended it. *)
Fixpoint delete_chunks (db : list Entry) (chunk_ids : list string) {struct chunk_ids}
    : Py.result unit * list Entry :=
  match chunk_ids with
  | [] => (Py.Ok (), db)
  | chunk_id :: rest =>
      match db_delete db chunk_id with
      | Py.Ok db' => delete_chunks db' rest
      | Py.Raise e => (Py.Raise e, db)
      end
  end.

(** [delete_document(self, document_id)]: the listing of the document is
    dropped only after every deletion went through; an exception gives
    [False]. *)
Definition delete_document (document_id : string) (s : State) : bool * State :=
  let chunk_ids := default [] (chunk_metadata s !! document_id) in
  match chunk_ids with
  | [] => (false, s)
  | _ =>
      match delete_chunks (vector_db s) chunk_ids with
      | (Py.Ok _, db) =>
          (true,
           {| vector_db := db;
              chunk_metadata := delete document_id (chunk_metadata s) |})
      | (Py.Raise _, db) =>
          (false, {| vector_db := db; chunk_metadata := chunk_metadata s |})
      end
  end.

(** The loop of [get_document_embeddings]: a chunk that is not found, or
    whose embedding is empty, is passed over. *)
Fixpoint embeddings_of (db : list Entry) (chunk_ids : list string) {struct chunk_ids}
    : Py.result (list (string * list Q)) :=
  match chunk_ids with
  | [] => Py.Ok []
  | chunk_id :: rest =>
      Py.bind (db_get db chunk_id) (λ results,
        Py.bind (embeddings_of db rest) (λ more,
          Py.Ok (match results with
                 | e :: _ =>
                     match entry_embedding e with
                     | [] => more
                     | embedding => (chunk_id, embedding) :: more
                     end
                 | [] => more
                 end)))
  end.

(** [get_document_embeddings(self, document_id)]: an exception gives the
    empty list. *)
Definition get_document_embeddings (s : State) (document_id : string)
    : list (string * list Q) :=
  let chunk_ids := default [] (chunk_metadata s !! document_id) in
  match chunk_ids with
  | [] => []
  | _ =>
      match embeddings_of (vector_db s) chunk_ids with
      | Py.Ok embeddings => embeddings
      | Py.Raise _ => []
      end
  end.

End Service.
End VectorDatabase.

(** ** The public document routes ([backend/app/api/endpoints/documents.py])

    The module owns one [DocumentProcessor]; FastAPI's background tasks are a
    queue of documents waiting for [process_document]. *)

Module Endpoints.
Import Sys Doc.

Inductive Http (A : Type) : Type :=
| Response (a : A)
| HTTPException (status_code : Z) (detail : string).
Arguments Response {A} a.
Arguments HTTPException {A} status_code detail.

Record App : Type := {
  document_processor : DocumentProcessor.State;
  background_tasks : list Document
}.

Definition set_processor (p : DocumentProcessor.State) (a : App) : App :=
  {| document_processor := p; background_tasks := background_tasks a |}.

(** [os.path.splitext(name)[1]]: the text from the last dot of the last path
    component, empty when that component has no dot after its leading dots. *)
Fixpoint ext_go (seen_name : bool) (s : string) : option string :=
  match s with
  | EmptyString => None
  | String c r =>
      if Ascii.eqb c "/" then ext_go false r
      else if Ascii.eqb c "." then
             match ext_go seen_name r with
             | Some e => Some e
             | None =>
                 if seen_name && negb (bool_decide (String.index 0 "/" r ≠ None))
                 then Some s else None
             end
      else ext_go true r
  end.
Definition splitext_ext (name : string) : string := default "" (ext_go false name).
Definition splitext_root (name : string) : string :=
  String.substring 0 (String.length name - String.length (splitext_ext name)) name.

Record UploadResponse : Type := {
  resp_id : string;
  resp_title : string;
  resp_filename : string;
  resp_file_type : string;
  resp_upload_time : string;
  resp_status : string;
  resp_message : string
}.

(** [upload_document]: [doc_id], [timestamp] and [upload_time] come from
    [uuid.uuid4()] and the clock. *)
Definition upload_document (doc_id timestamp upload_time : string)
    (filename content : string) (title : option string) (tags : option string)
    (a : App) : Http UploadResponse * App :=
  let file_ext := Py.replace (Py.lower (splitext_ext filename)) "." "" in
  if negb (bool_decide (file_ext ∈ config.ALLOWED_EXTENSIONS)) then
    (HTTPException 400 "File type not supported", a)
  else
    let safe_filename := timestamp +:+ "_" +:+ doc_id +:+ "." +:+ file_ext in
    let file_path := path_join config.UPLOAD_DIR safe_filename in
    match write_file file_path content (DocumentProcessor.world (document_processor a)) with
    | (Py.Raise e, w) =>
        (HTTPException 500 ("Failed to save file: " +:+ e),
         set_processor (DocumentProcessor.set_world w (document_processor a)) a)
    | (Py.Ok _, w) =>
        let doc_title :=
          match title with
          | Some t => if Py.truthy t then t else splitext_root filename
          | None => splitext_root filename
          end in
        let doc_tags :=
          match tags with
          | Some t => if Py.truthy t then Py.split_char "," t else []
          | None => []
          end in
        let document :=
          {| id := doc_id; title := Some doc_title; original_filename := filename;
             file_path := PyStr file_path; file_type := file_ext;
             status := Some "processing"; page_count := None;
             processed_path := PyNone; processed_time := None;
             text_length := None; error_message := None; tags := doc_tags |} in
        (Response
           {| resp_id := doc_id; resp_title := doc_title; resp_filename := filename;
              resp_file_type := file_ext; resp_upload_time := upload_time;
              resp_status := "processing";
              resp_message := "Document uploaded and queued for processing" |},
         {| document_processor := DocumentProcessor.set_world w (document_processor a);
            background_tasks := background_tasks a ++ [document] |})
    end.

(** One step of the background queue: the oldest task runs
    [process_document]; its return value and any exception are dropped. *)
Definition run_background_task (tools : Tools) (a : App) : App :=
  match background_tasks a with
  | [] => a
  | document :: rest =>
      let '(_, p) := DocumentProcessor.process_document tools document (document_processor a) in
      {| document_processor := p; background_tasks := rest |}
  end.

(** [GET /{document_id}] *)
Definition get_document (document_id : string) (a : App) : Http Document :=
  match DocumentProcessor.get_document document_id (document_processor a) with
  | Some document => Response document
  | None => HTTPException 404 "Document not found"
  end.

(** [DELETE /{document_id}] *)
Definition delete_document (document_id : string) (a : App) : Http string * App :=
  let '(success, p) := DocumentProcessor.delete_document document_id (document_processor a) in
  match success with
  | Py.Ok true => (Response "Document deleted successfully", set_processor p a)
  | _ => (HTTPException 404 "Document not found", set_processor p a)
  end.

End Endpoints.

(** ** Theme clustering ([theme_processor.py], [query_processor.py])

    [DBSCAN(eps, min_samples, metric='precomputed').fit(1 - cosine_similarity(X)).labels_]
    is the parameter [dbscan]: it maps the embeddings to one label per row,
    [-1] for noise.  Theme identifiers come from [uuid4], descriptions from
    the NLTK word count; both are parameters. *)

Module Themes.
Import Doc VectorDatabase.

Record ThemeCitation : Type := {
  tc_document_id : string;
  tc_document_title : string;
  tc_citation : string;
  tc_relevance_score : Q
}.

Record Theme : Type := {
  theme_id : string;
  theme_name : string;
  theme_description : string;
  document_count : Z;
  citations : list ThemeCitation
}.

(** [d[k] = v] on a dictionary kept in insertion order. *)
Fixpoint dict_set {V} (k : string) (v : V) (d : list (string * V)) : list (string * V) :=
  match d with
  | [] => [(k, v)]
  | (k', v') :: r => if bool_decide (k = k') then (k, v) :: r else (k', v') :: dict_set k v r
  end.

Fixpoint dict_get {V} (k : string) (d : list (string * V)) : option V :=
  match d with
  | [] => None
  | (k', v) :: r => if bool_decide (k = k') then Some v else dict_get k r
  end.

(** [if label not in clusters: clusters[label] = []] then
    [clusters[label].append(i)] *)
Fixpoint cluster_append (label : Z) (i : nat) (clusters : list (Z * list nat))
    : list (Z * list nat) :=
  match clusters with
  | [] => [(label, [i])]
  | (l, members) :: r =>
      if l =? label then (l, members ++ [i]) :: r
      else (l, members) :: cluster_append label i r
  end.

(** The loop [for i, label in enumerate(labels)], noise skipped. *)
Definition group_clusters (labels : list Z) : list (Z * list nat) :=
  foldl (λ clusters il, if il.2 =? -1 then clusters else cluster_append il.2 il.1 clusters)
        [] (imap pair labels).

(** [len(set(ids))] *)
Definition count_distinct (ids : list string) : Z := Z.of_nat (length (remove_dups ids)).

Section Clustering.
Variable dbscan : Q → Z → list (list Q) → list Z.
Variable uuid4 : nat → string.
Variable describe : list string → string.

(** *** [ThemeProcessor.identify_themes] *)

(** [registry] is what a fresh [DocumentProcessor()] loads, in file order. *)
Definition list_documents (registry : list (string * Document)) : list Document :=
  take 100 (map snd registry).

(** The dictionary [document_chunks]. *)
Definition collect_chunks (vdb : State) (ids : list string)
    : list (string * list (string * list Q)) :=
  foldl (λ acc doc_id,
           match get_document_embeddings vdb doc_id with
           | [] => acc
           | embeddings => dict_set doc_id embeddings acc
           end) [] ids.

(** [chunk_map] as a list indexed by chunk index, with the embeddings. *)
Definition flatten_chunks (document_chunks : list (string * list (string * list Q)))
    : list (string * string * list Q) :=
  concat (map (λ dc, map (λ ce, (dc.1, ce.1, ce.2)) dc.2) document_chunks).

(** One step of the citation loop of a cluster: a member whose document is
    not in the registry or whose chunk is not found is skipped, a repeated
    (document, citation) pair is not added; [None] is an exception of the
    lookup in the collection. *)
Definition add_citation (registry : list (string * Document)) (vdb : State)
    (acc : list ThemeCitation) (member : string * string) : option (list ThemeCitation) :=
  let '(doc_id, chunk_id) := member in
  match dict_get doc_id registry with
  | None => Some acc
  | Some doc_metadata =>
      match db_get (vector_db vdb) chunk_id with
      | Py.Raise _ => None
      | Py.Ok [] => Some acc
      | Py.Ok (e :: _) =>
          let citation :=
            {| tc_document_id := doc_id;
               tc_document_title := default "Unknown" (title doc_metadata);
               tc_citation := "Page " +:+ Py.str (default 1 (md_page (metadata (entry_doc e))));
               tc_relevance_score := 9 # 10 |} in
          if existsb (λ c, bool_decide (tc_document_id c = tc_document_id citation)
                           && bool_decide (tc_citation c = tc_citation citation)) acc
          then Some acc else Some (acc ++ [citation])
      end
  end.

Fixpoint cluster_citations (registry : list (string * Document)) (vdb : State)
    (acc : list ThemeCitation) (members : list (string * string))
    : option (list ThemeCitation) :=
  match members with
  | [] => Some acc
  | member :: rest =>
      acc' ← add_citation registry vdb acc member;
      cluster_citations registry vdb acc' rest
  end.

(** The texts of the chunks of a cluster; [None] is an exception of the
    lookup in the collection. *)
Fixpoint chunk_texts (vdb : State) (members : list (string * string))
    : option (list string) :=
  match members with
  | [] => Some []
  | member :: rest =>
      match db_get (vector_db vdb) member.2 with
      | Py.Raise _ => None
      | Py.Ok results =>
          more ← chunk_texts vdb rest;
          Some (match results with
                | e :: _ => page_content (entry_doc e) :: more
                | [] => more
                end)
      end
  end.

(** The body of [for cluster_id, chunk_indices in clusters.items()]: [None]
    is an exception, a [KeyError] of [chunk_map[idx]] or a failed lookup in
    the collection. *)
Definition theme_of_cluster (registry : list (string * Document)) (vdb : State)
    (chunk_map : list (string * string * list Q)) (min_documents : Z)
    (made : nat) (cluster : Z * list nat) : option (option Theme) :=
  let '(cluster_id, chunk_indices) := cluster in
  members ← mapM (λ idx, (λ c : string * string * list Q, c.1) <$> chunk_map !! idx) chunk_indices;
  let doc_ids := map fst members in
  if count_distinct doc_ids >=? min_documents then
    citations ← cluster_citations registry vdb [] members;
    texts ← chunk_texts vdb members;
    Some (Some {| theme_id := uuid4 made;
                  theme_name := "Theme " +:+ Py.str (cluster_id + 1);
                  theme_description := describe texts;
                  document_count := count_distinct doc_ids;
                  citations := citations |})
  else Some None.

Fixpoint themes_of_clusters (registry : list (string * Document)) (vdb : State)
    (chunk_map : list (string * string * list Q)) (min_documents : Z)
    (made : nat) (clusters : list (Z * list nat)) : option (list Theme) :=
  match clusters with
  | [] => Some []
  | cluster :: rest =>
      t ← theme_of_cluster registry vdb chunk_map min_documents made cluster;
      match t with
      | Some theme =>
          more ← themes_of_clusters registry vdb chunk_map min_documents (S made) rest;
          Some (theme :: more)
      | None => themes_of_clusters registry vdb chunk_map min_documents made rest
      end
  end.

(** The documents a run looks at: [document_ids] when given and non-empty,
    the registry otherwise. *)
Definition analysed_ids (registry : list (string * Document))
    (document_ids : option (list string)) : list string :=
  match document_ids with
  | Some (x :: l) => x :: l
  | _ => map id (list_documents registry)
  end.

(** [ThemeProcessor.identify_themes(document_ids, min_documents,
    similarity_threshold)]: the themes of the response; any exception gives
    the empty list. *)
Definition theme_processor_identify_themes (registry : list (string * Document))
    (vdb : State) (document_ids : option (list string)) (min_documents : Z)
    (similarity_threshold : Q) : list Theme :=
  let document_chunks := collect_chunks vdb (analysed_ids registry document_ids) in
  if Z.of_nat (length document_chunks) <? min_documents then []
  else
    let chunk_map := flatten_chunks document_chunks in
    match chunk_map with
    | [] => []                       (* [cosine_similarity] rejects an empty array *)
    | _ =>
        let labels := dbscan (1 - similarity_threshold)%Q min_documents (map snd chunk_map) in
        let clusters := group_clusters labels in
        default [] (themes_of_clusters registry vdb chunk_map min_documents 0 clusters)
    end.

(** *** [QueryProcessor.identify_themes] *)

Variable embed_documents : list string → list (list Q).

Definition query_theme (search_results : list SearchResult) (cluster : Z * list nat)
    : option Theme :=
  let '(cluster_id, result_indices) := cluster in
  cluster_results ← mapM (λ i, search_results !! i) result_indices;
  let doc_ids := remove_dups (map VectorDatabase.document_id cluster_results) in
  Some {| theme_id := "theme_" +:+ Py.str cluster_id;
          theme_name := "Theme " +:+ Py.str (cluster_id + 1);
          theme_description := describe (map extracted_answer cluster_results);
          document_count := Z.of_nat (length doc_ids);
          citations :=
            map (λ r, {| tc_document_id := VectorDatabase.document_id r;
                         tc_document_title := VectorDatabase.document_title r;
                         tc_citation := citation r;
                         tc_relevance_score := relevance_score r |}) cluster_results |}.

(** [QueryProcessor.identify_themes]: the themes of the response, computed
    from the results of [VectorDatabaseService.search]. *)
Definition query_processor_identify_themes (search_results : list SearchResult)
    : list Theme :=
  if Z.of_nat (length search_results) >=? config.MIN_THEME_DOCUMENTS then
    let texts := map extracted_answer search_results in
    let labels := dbscan (1 - config.THEME_SIMILARITY_THRESHOLD)%Q
                         config.MIN_THEME_DOCUMENTS (embed_documents texts) in
    default [] (mapM (query_theme search_results) (group_clusters labels))
  else [].

(** [QueryProcessor.identify_themes(query, document_ids, max_results)] on
    top of the search of the vector service. *)
Definition query_processor_run
    (similarity_search_with_score :
       list Entry → string → Z → option (list string) → Py.result (list (LangchainDocument * Q)))
    (vdb : State) (query : string) (document_ids : option (list string))
    (max_results : Z) : list SearchResult * list Theme :=
  let search_results := search similarity_search_with_score vdb query document_ids max_results in
  (search_results, query_processor_identify_themes search_results).

End Clustering.
End Themes.

(** ** [EnhancedCitationService] ([backend/app/services/enhanced_citation.py])

    The three regular expressions of the service are written out as
    matchers: a matcher looks at the text from the current position (and at
    the character before it) and gives the length of the match there. *)

Module EnhancedCitation.
Import Sys Doc.

Definition nl : string := String "010" EmptyString.

(** Longest prefix of digits, and the rest. *)
Fixpoint take_digits (s : string) : string * string :=
  match s with
  | String c r =>
      if Py.isdigit c then let '(d, rest) := take_digits r in (String c d, rest)
      else (EmptyString, s)
  | EmptyString => (EmptyString, EmptyString)
  end.

Definition drop_prefix (p s : string) : option string :=
  if String.prefix p s
  then Some (String.substring (String.length p) (String.length s - String.length p) s)
  else None.

(** [--- Page \d+ ---] at the start of [s]: the digits and the length of the
    match. *)
Definition marker_at (s : string) : option (string * nat) :=
  rest ← drop_prefix "--- Page " s;
  let '(digits, rest') := take_digits rest in
  if Py.truthy digits && String.prefix " ---" rest'
  then Some (digits, (9 + String.length digits + 4)%nat)
  else None.

(** [re.sub(r'--- Page \d+ ---', lambda m: "\n" + m.group(0) + "\n", text)]:
    [inside] counts the characters of the current match still to be copied. *)
Definition close_marker (k : nat) : string :=
  match k with O => nl | S _ => EmptyString end.

Fixpoint wrap_markers_go (inside : nat) (s : string) : string :=
  match s with
  | EmptyString => EmptyString
  | String c r =>
      match inside with
      | S k => String c (close_marker k +:+ wrap_markers_go k r)
      | O =>
          match marker_at s with
          | Some (_, S k) => nl +:+ String c (close_marker k +:+ wrap_markers_go k r)
          | _ => String c (wrap_markers_go O r)
          end
      end
  end.
Definition wrap_markers (text : string) : string := wrap_markers_go O text.

(** [re.split(pattern, text)] for a pattern without groups that matches no
    empty string: [skip] counts the characters of the current separator
    still to be dropped, [prev] is the character before the position. *)
Fixpoint re_split_go (matcher : option ascii → string → option nat)
    (prev : option ascii) (skip : nat) (s : string) : list string :=
  match s with
  | EmptyString => [EmptyString]
  | String c r =>
      match skip with
      | S k => re_split_go matcher (Some c) k r
      | O =>
          match matcher prev s with
          | Some (S k) => EmptyString :: re_split_go matcher (Some c) k r
          | _ =>
              match re_split_go matcher (Some c) O r with
              | p :: ps => String c p :: ps
              | [] => [String c EmptyString]
              end
          end
      end
  end.
Definition re_split (matcher : option ascii → string → option nat) (s : string)
    : list string := re_split_go matcher None O s.

(** In the run of whitespace at the start of [s], the position after its
    last newline, counted from [n]. *)
Fixpoint last_newline_end (n : nat) (s : string) : option nat :=
  match s with
  | String c r =>
      if Py.isspace c then
        match last_newline_end (S n) r with
        | Some m => Some m
        | None => if Ascii.eqb c "010" then Some (S n) else None
        end
      else None
  | EmptyString => None
  end.

(** [\n\s*\n] *)
Definition blank_line_at (prev : option ascii) (s : string) : option nat :=
  match s with
  | String c r => if Ascii.eqb c "010" then last_newline_end 1 r else None
  | EmptyString => None
  end.

Fixpoint space_run (s : string) : nat :=
  match s with
  | String c r => if Py.isspace c then S (space_run r) else O
  | EmptyString => O
  end.

(** [(?<=[.!?])\s+] *)
Definition sentence_gap_at (prev : option ascii) (s : string) : option nat :=
  match prev with
  | Some c =>
      if Ascii.eqb c "." || Ascii.eqb c "!" || Ascii.eqb c "?" then
        match space_run s with O => None | n => Some n end
      else None
  | None => None
  end.

(** [[p.strip() for p in pieces if p.strip()]] *)
Definition strip_nonempty (pieces : list string) : list string :=
  omap (λ p, if Py.truthy (Py.strip p) then Some (Py.strip p) else None) pieces.

(** [_split_into_paragraphs(self, text)] *)
Definition _split_into_paragraphs (text : string) : list string :=
  let text := wrap_markers text in
  let paragraphs := re_split blank_line_at text in
  strip_nonempty paragraphs.

(** [_split_into_sentences(self, paragraph)] *)
Definition _split_into_sentences (paragraph : string) : list string :=
  let sentences := re_split sentence_gap_at paragraph in
  strip_nonempty sentences.

(** [_extract_page_number(self, text)]: the number of the first marker. *)
Fixpoint _extract_page_number (text : string) : option Z :=
  match marker_at text with
  | Some (digits, _) => Py.int digits
  | None =>
      match text with
      | String _ r => _extract_page_number r
      | EmptyString => None
      end
  end.

(** [_estimate_page_number(self, paragraph_index, total_paragraphs, total_pages)] *)
Definition _estimate_page_number
    (paragraph_index total_paragraphs total_pages : Z) : Z :=
  if total_paragraphs <=? 1 then 1
  else
    let page := 1 + (paragraph_index * total_pages) / total_paragraphs in
    Py.minZ page total_pages.

(** The estimate in the words of the specification: one plus the floor of
    [paragraph_index * total_pages / total_paragraphs], clamped to
    [[1, total_pages]]. *)
Definition clamp (lo hi x : Z) : Z := Z.max lo (Z.min x hi).
Definition estimate_page_spec (paragraph_index total_paragraphs total_pages : Z) : Z :=
  clamp 1 total_pages (1 + (paragraph_index * total_pages) / total_paragraphs).

(** *** The citation index *)

Record Sentence : Type := {
  s_index : Z;
  s_text : string
}.

Record Paragraph : Type := {
  p_index : Z;
  p_page : Z;
  p_text : string;
  p_sentence_count : Z;
  p_sentences : list (string * Sentence)     (* keyed by [str(j)], in order *)
}.

Record CitationData : Type := {
  cd_document_id : string;
  cd_document_title : string;
  cd_paragraph_count : Z;
  cd_paragraphs : list (string * Paragraph)  (* keyed by [str(i)], in order *)
}.

(** [self.citation_metadata] *)
Record State : Type := {
  citation_metadata : gmap string CitationData
}.

(** [_extract_page_number(paragraph) or _estimate_page_number(i, n,
    document.get("page_count", 1))]; the product with a [None] page count
    raises. *)
Definition resolve_page (d : Document) (total : Z) (i : Z) (paragraph : string)
    : Py.result Z :=
  let estimate :=
    match page_count d with
    | Some pc => Py.Ok (_estimate_page_number i total pc)
    | None =>
        if total <=? 1 then Py.Ok 1
        else Py.Raise "unsupported operand type(s) for *: 'int' and 'NoneType'"
    end in
  match _extract_page_number paragraph with
  | Some n => if n =? 0 then estimate else Py.Ok n
  | None => estimate
  end.

Definition sentence_entries (sentences : list string) : list (string * Sentence) :=
  omap (λ js : nat * string,
          if Py.truthy (Py.strip js.2)
          then Some (Py.str (Z.of_nat js.1), {| s_index := Z.of_nat js.1; s_text := js.2 |})
          else None)
       (imap pair sentences).

(** The body of [for i, paragraph in enumerate(paragraphs)]. *)
Definition paragraph_entry (d : Document) (total : Z) (i : nat) (paragraph : string)
    : Py.result (option (string * Paragraph)) :=
  if negb (Py.truthy (Py.strip paragraph)) then Py.Ok None
  else
    Py.bind (resolve_page d total (Z.of_nat i) paragraph) (λ page_num,
      let sentences := _split_into_sentences paragraph in
      Py.Ok (Some (Py.str (Z.of_nat i),
                   {| p_index := Z.of_nat i; p_page := page_num; p_text := paragraph;
                      p_sentence_count := Z.of_nat (length sentences);
                      p_sentences := sentence_entries sentences |}))).

Fixpoint paragraph_entries (d : Document) (total : Z) (i : nat) (paragraphs : list string)
    : Py.result (list (string * Paragraph)) :=
  match paragraphs with
  | [] => Py.Ok []
  | paragraph :: rest =>
      Py.bind (paragraph_entry d total i paragraph) (λ e,
        Py.bind (paragraph_entries d total (S i) rest) (λ more,
          Py.Ok (match e with Some x => x :: more | None => more end)))
  end.

(** The index built from a text: [citation_data] of [process_document]. *)
Definition build_index (d : Document) (text : string) : Py.result CitationData :=
  let paragraphs := _split_into_paragraphs text in
  Py.bind (paragraph_entries d (Z.of_nat (length paragraphs)) 0 paragraphs) (λ entries,
    Py.Ok {| cd_document_id := id d;
             cd_document_title := default "" (title d);
             cd_paragraph_count := Z.of_nat (length paragraphs);
             cd_paragraphs := entries |}).

(** [process_document(self, document)]: the file system is only read. *)
Definition process_document (w : World) (d : Document) (s : State) : bool * State :=
  if negb (bool_decide (status d = Some "processed")) then (false, s)
  else
    match processed_path d with
    | PyStr dir =>
        match files w !! path_join dir "extracted_text.txt" with
        | Some text =>
            match build_index d text with
            | Py.Ok citation_data =>
                (true, {| citation_metadata := <[id d := citation_data]> (citation_metadata s) |})
            | Py.Raise _ => (false, s)
            end
        | None => (false, s)
        end
    | _ => (false, s)
    end.

(** *** Citation lookup *)

Definition isword (c : ascii) : bool :=
  let n := nat_of_ascii c in
  ((48 <=? n)%nat && (n <=? 57)%nat) || ((65 <=? n)%nat && (n <=? 90)%nat)
  || ((97 <=? n)%nat && (n <=? 122)%nat) || (n =? 95)%nat.

Definition flush (cur : string) : list string :=
  match cur with EmptyString => [] | _ => [String.rev cur] end.

(** [re.findall(r'\b\w+\b', s)]: the maximal runs of word characters;
    [cur] is the run being read, reversed. *)
Fixpoint findall_words (cur : string) (s : string) : list string :=
  match s with
  | EmptyString => flush cur
  | String c r =>
      if isword c then findall_words (String c cur) r
      else flush cur ++ findall_words EmptyString r
  end.

Definition word_set (text : string) : list string :=
  remove_dups (findall_words EmptyString (Py.lower text)).

(** [_similarity_score(self, text1, text2)] *)
Definition _similarity_score (text1 text2 : string) : Q :=
  let words1 := word_set text1 in
  let words2 := word_set text2 in
  match words1, words2 with
  | [], _ | _, [] => 0
  | _, _ =>
      let intersection := length (List.filter (λ w, bool_decide (w ∈ words2)) words1) in
      let union := length (remove_dups (words1 ++ words2)) in
      if (0 <? union)%nat then Z.of_nat intersection # Pos.of_nat union else 0
  end.

(** The four [best_*] variables of [get_citation]. *)
Record Best : Type := {
  best_match : option Paragraph;
  best_score : Q;
  best_paragraph_idx : option string;
  best_sentence_idx : option string
}.

Definition no_match : Best :=
  {| best_match := None; best_score := 0; best_paragraph_idx := None;
     best_sentence_idx := None |}.

Definition visit_sentence (chunk_text : string) (p : string * Paragraph)
    (b : Best) (s : string * Sentence) : Best :=
  let s_score := _similarity_score chunk_text (s_text s.2) in
  if Qlt_le_dec (best_score b) s_score then
    {| best_match := Some p.2; best_score := s_score;
       best_paragraph_idx := Some p.1; best_sentence_idx := Some s.1 |}
  else b.

Definition visit_paragraph (chunk_text granularity : string)
    (b : Best) (p : string * Paragraph) : Best :=
  let p_score := _similarity_score chunk_text (p_text p.2) in
  let b :=
    if Qlt_le_dec (best_score b) p_score then
      {| best_match := Some p.2; best_score := p_score;
         best_paragraph_idx := Some p.1; best_sentence_idx := None |}
    else b in
  if bool_decide (granularity = "sentence")
  then foldl (visit_sentence chunk_text p) b (p_sentences p.2)
  else b.

(** [int(idx) + 1] as text; a key that is no number raises. *)
Definition one_based (idx : option string) : option string :=
  k ← idx; n ← Py.int k; Some (Py.str (n + 1)).

(** The citation text for the best match, after the loop. *)
Definition render (document_id granularity : string) (b : Best) (m : Paragraph) : string :=
  let page := "Page " +:+ Py.str (p_page m) in
  if bool_decide (granularity = "page") then page
  else
    match one_based (best_paragraph_idx b) with
    | None => "Document " +:+ document_id
    | Some q =>
        let paragraph := page +:+ ", Paragraph " +:+ q in
        if bool_decide (granularity = "paragraph") then paragraph
        else if bool_decide (granularity = "sentence") then
          match best_sentence_idx b with
          | Some s_idx =>
              match one_based (Some s_idx) with
              | Some s => paragraph +:+ ", Sentence " +:+ s
              | None => "Document " +:+ document_id
              end
          | None => paragraph
          end
        else paragraph
    end.

(** [get_citation(self, document_id, chunk_text, granularity)] *)
Definition get_citation (st : State) (document_id chunk_text granularity : string)
    : string :=
  match citation_metadata st !! document_id with
  | None => "Document " +:+ document_id
  | Some citation_data =>
      if bool_decide (granularity = "document")
      then "Document: " +:+ cd_document_title citation_data
      else
        let b := foldl (visit_paragraph chunk_text granularity) no_match
                       (cd_paragraphs citation_data) in
        match best_match b with
        | None => "Document: " +:+ cd_document_title citation_data
        | Some m => render document_id granularity b m
        end
  end.

End EnhancedCitation.

(** ** The citation lookup as a search over candidates

    [get_citation] visits, in order, each paragraph and, at sentence
    granularity, each of its sentences after it.  A candidate is one such
    visit. *)

Module CitationSearch.
Import EnhancedCitation.

Record Candidate : Type := {
  cand_paragraph : string * Paragraph;
  cand_sentence : option (string * Sentence)
}.

Definition cand_score (chunk_text : string) (c : Candidate) : Q :=
  match cand_sentence c with
  | Some s => _similarity_score chunk_text (s_text s.2)
  | None => _similarity_score chunk_text (p_text (cand_paragraph c).2)
  end.

(** The candidates of one paragraph, in the order of the visits. *)
Definition paragraph_candidates (granularity : string) (p : string * Paragraph)
    : list Candidate :=
  {| cand_paragraph := p; cand_sentence := None |}
  :: (if bool_decide (granularity = "sentence")
      then map (λ s, {| cand_paragraph := p; cand_sentence := Some s |}) (p_sentences p.2)
      else []).

Definition candidates (granularity : string) (data : CitationData) : list Candidate :=
  concat (map (paragraph_candidates granularity) (cd_paragraphs data)).

(** The values of the [best_*] variables when [c] is the best match. *)
Definition best_of (chunk_text : string) (c : Candidate) : Best :=
  {| best_match := Some (cand_paragraph c).2;
     best_score := cand_score chunk_text c;
     best_paragraph_idx := Some (cand_paragraph c).1;
     best_sentence_idx := fst <$> cand_sentence c |}.

Definition visit (chunk_text : string) (b : Best) (c : Candidate) : Best :=
  if Qlt_le_dec (best_score b) (cand_score chunk_text c) then best_of chunk_text c else b.

(** [c], at position [k] of [cs], is the first candidate of highest score. *)
Definition first_best (chunk_text : string) (cs : list Candidate) (k : nat) (c : Candidate)
    : Prop :=
  cs !! k = Some c
  ∧ (∀ c', c' ∈ cs → (cand_score chunk_text c' <= cand_score chunk_text c)%Q)
  ∧ (∀ j c', (j < k)%nat → cs !! j = Some c' →
             (cand_score chunk_text c' < cand_score chunk_text c)%Q).

(** A decision procedure for [first_best] on a given list. *)
Definition first_best_check (chunk_text : string) (cs : list Candidate) (k : nat)
    (c : Candidate) : bool :=
  forallb (λ c', Qle_bool (cand_score chunk_text c') (cand_score chunk_text c)) cs
  && forallb (λ c', negb (Qle_bool (cand_score chunk_text c) (cand_score chunk_text c')))
       (take k cs).

(** An entry of the index whose keys are the decimal texts of the indices,
    as [process_document] writes them. *)
Definition keyed (e : string * Paragraph) : Prop :=
  e.1 = Py.str (p_index e.2) ∧ 0 <= p_index e.2
  ∧ ∀ key s, (key, s) ∈ p_sentences e.2 → key = Py.str (s_index s) ∧ 0 <= s_index s.

(** The citation text for paragraph [paragraph] (0-based) on page [page],
    and for sentence [sentence] of it when one is given. *)
Definition citation_text (granularity : string) (page paragraph : Z) (sentence : option Z)
    : string :=
  let page_text := "Page " +:+ Py.str page in
  let paragraph_text := page_text +:+ ", Paragraph " +:+ Py.str (paragraph + 1) in
  if bool_decide (granularity = "page") then page_text
  else
    match sentence with
    | Some j =>
        if bool_decide (granularity = "sentence")
        then paragraph_text +:+ ", Sentence " +:+ Py.str (j + 1)
        else paragraph_text
    | None => paragraph_text
    end.

(** Modelled from the spec: the lookup as the specification words it.  The
    paragraph of highest overlap is found first, the earliest on a tie; with
    no overlap the citation is the document; at sentence granularity the
    sentence of highest overlap within that paragraph is cited, the earliest
    on a tie, and the paragraph form is used when no sentence overlaps. *)
Fixpoint argmax_first {A} (score : A → Q) (best : option A) (l : list A) : option A :=
  match l with
  | [] => best
  | x :: r =>
      match best with
      | Some b => if Qlt_le_dec (score b) (score x)
                  then argmax_first score (Some x) r else argmax_first score best r
      | None => if Qlt_le_dec 0 (score x)
                then argmax_first score (Some x) r else argmax_first score None r
      end
  end.

Definition locate_spec (data : CitationData) (chunk_text granularity : string) : string :=
  if bool_decide (granularity = "document") then "Document: " +:+ cd_document_title data
  else
    match argmax_first (λ p : string * Paragraph, _similarity_score chunk_text (p_text p.2))
            None (cd_paragraphs data) with
    | None => "Document: " +:+ cd_document_title data
    | Some p =>
        let sentence :=
          if bool_decide (granularity = "sentence")
          then argmax_first (λ s : string * Sentence, _similarity_score chunk_text (s_text s.2))
                 None (p_sentences p.2)
          else None in
        citation_text granularity (p_page p.2) (p_index p.2) (s_index <$> (snd <$> sentence))
    end.

End CitationSearch.

(** ** The running system

    The document routes own the processor; the query and theme routes own
    the vector service.  Both see the same file system. *)

Module System.
Import Doc.

Record System : Type := {
  app : Endpoints.App;
  vector_service : VectorDatabase.State
}.

(** [DELETE /documents/{document_id}] *)
Definition delete_document (document_id : string) (sys : System)
    : Endpoints.Http string * System :=
  let '(r, a) := Endpoints.delete_document document_id (app sys) in
  (r, {| app := a; vector_service := vector_service sys |}).

(** [VectorDatabaseService.search] of the running system. *)
Definition search
    (index : list VectorDatabase.Entry → string → Z → option (list string) →
             Py.result (list (VectorDatabase.LangchainDocument * Q)))
    (sys : System) (query : string) (document_ids : option (list string))
    (max_results : Z) : list VectorDatabase.SearchResult :=
  VectorDatabase.search index (vector_service sys) query document_ids max_results.

(** [VectorDatabaseService.add_document(document)] for the registry entry of
    [document_id]. *)
Definition add_document (split_text : string → list string) (embed : string → list Q)
    (document_id : string) (sys : System) : bool * System :=
  match DocumentProcessor.get_document document_id (Endpoints.document_processor (app sys)) with
  | Some document =>
      let '(ok, v) :=
        VectorDatabase.add_document split_text embed
          (DocumentProcessor.world (Endpoints.document_processor (app sys)))
          document (vector_service sys) in
      (ok, {| app := app sys; vector_service := v |})
  | None => (false, sys)
  end.

End System.

(** ** Listing the registry ([DocumentProcessor.list_documents] and the
    [GET /documents/] route) *)

Module Listing.
Import Doc.

(** A slice bound [i] on a sequence of length [n], as [seq[i:j]] reads it. *)
Definition slice_bound (n i : Z) : Z :=
  if i <? 0 then Py.maxZ (i + n) 0 else Py.minZ i n.

(** [l[start:stop]] *)
Definition slice {A} (l : list A) (start stop : Z) : list A :=
  let n := Z.of_nat (length l) in
  let a := slice_bound n start in
  let b := slice_bound n stop in
  take (Z.to_nat (b - a)) (drop (Z.to_nat a) l).

(** [status and doc.get("status") != status] *)
Definition status_rejects (status : option string) (doc : Document) : bool :=
  match status with
  | Some s => Py.truthy s && negb (bool_decide (Doc.status doc = Some s))
  | None => false
  end.

(** [tag and tag not in doc.get("tags", [])] *)
Definition tag_rejects (tag : option string) (doc : Document) : bool :=
  match tag with
  | Some t => Py.truthy t && negb (bool_decide (t ∈ tags doc))
  | None => false
  end.

(** [list_documents(self, skip, limit, status, tag)]; [registry] is
    [self.documents] in insertion order. *)
Definition list_documents (registry : list (string * Document)) (skip limit : Z)
    (status tag : option string) : list Document :=
  let filtered_docs :=
    List.filter (λ doc, negb (status_rejects status doc) && negb (tag_rejects tag doc))
      (map snd registry) in
  slice filtered_docs skip (skip + limit).

(** The [DocumentList] response. *)
Record DocumentList : Type := {
  total : Z;
  listed_documents : list Document
}.

(** [GET /documents/] *)
Definition list_endpoint (registry : list (string * Document)) (skip limit : Z)
    (status tag : option string) : DocumentList :=
  let documents := list_documents registry skip limit status tag in
  {| total := Z.of_nat (length documents); listed_documents := documents |}.

End Listing.

(** ** Grouping by an integer key

    Both clustering loops and [get_document_structure] fill a dictionary of
    lists: [if k not in d: d[k] = []] followed by [d[k].append(v)]. *)

Module Grouping.

Fixpoint group_append {V} (k : Z) (v : V) (d : list (Z * list V)) : list (Z * list V) :=
  match d with
  | [] => [(k, [v])]
  | (k', vs) :: r =>
      if k' =? k then (k', vs ++ [v]) :: r else (k', vs) :: group_append k v r
  end.

(** [d.get(k, [])] *)
Fixpoint group_get {V} (k : Z) (d : list (Z * list V)) : list V :=
  match d with
  | [] => []
  | (k', vs) :: r => if k' =? k then vs else group_get k r
  end.

(** Keys are distinct and satisfy [P], and no group is empty. *)
Definition grouped {V} (P : Z → Prop) (d : list (Z * list V)) : Prop :=
  NoDup (map fst d) ∧ Forall (λ c, P c.1 ∧ c.2 ≠ []) d.

(** The rows that carry [label], in increasing order. *)
Definition rows_labelled (labels : list Z) (label : Z) : list nat :=
  List.filter (λ i, bool_decide (labels !! i = Some label)) (seq 0 (length labels)).

End Grouping.

(** ** The document structure ([EnhancedCitationService.get_document_structure]) *)

Module DocumentStructure.
Import EnhancedCitation Grouping.

Record SentenceNode : Type := {
  sn_id : string;
  sn_index : Z;
  sn_text : string
}.

Record ParagraphNode : Type := {
  pn_id : string;
  pn_index : Z;
  pn_text : string;
  pn_sentences : list SentenceNode
}.

Record PageNode : Type := {
  pg_id : string;
  pg_number : Z;
  pg_paragraphs : list ParagraphNode
}.

Record Structure : Type := {
  ds_document_id : string;
  ds_document_title : string;
  ds_structure : list PageNode
}.

(** [text[:100] + "..." if len(text) > 100 else text] *)
Definition preview (text : string) : string :=
  if 100 <? Py.len text then String.substring 0 100 text +:+ "..." else text.

(** One entry of the [sentences] list; [int(s_idx)] may raise. *)
Definition sentence_node (p_idx : string) (s : string * Sentence) : option SentenceNode :=
  j ← Py.int s.1;
  Some {| sn_id := "p" +:+ p_idx +:+ "s" +:+ s.1; sn_index := j; sn_text := s_text s.2 |}.

(** The dictionary appended for one paragraph; [int(p_idx)] may raise. *)
Definition paragraph_node (p : string * Paragraph) : option ParagraphNode :=
  i ← Py.int p.1;
  sentences ← mapM (sentence_node p.1) (p_sentences p.2);
  Some {| pn_id := "p" +:+ p.1; pn_index := i; pn_text := preview (p_text p.2);
          pn_sentences := sentences |}.

(** The loop that fills [pages]; [None] stands for an exception. *)
Fixpoint group_pages (paragraphs : list (string * Paragraph))
    (pages : list (Z * list ParagraphNode)) : option (list (Z * list ParagraphNode)) :=
  match paragraphs with
  | [] => Some pages
  | p :: rest =>
      node ← paragraph_node p;
      group_pages rest (group_append (p_page p.2) node pages)
  end.

Definition page_node (pages : list (Z * list ParagraphNode)) (page_num : Z) : PageNode :=
  {| pg_id := "page" +:+ Py.str page_num; pg_number := page_num;
     pg_paragraphs := group_get page_num pages |}.

(** The answer for an unknown document and for any exception. *)
Definition unknown_structure (document_id : string) : Structure :=
  {| ds_document_id := document_id; ds_document_title := "Unknown"; ds_structure := [] |}.

(** [get_document_structure(self, document_id)]; [sorted(pages.keys())] is
    the merge sort of the page numbers. *)
Definition get_document_structure (st : State) (document_id : string) : Structure :=
  match citation_metadata st !! document_id with
  | None => unknown_structure document_id
  | Some citation_data =>
      match group_pages (cd_paragraphs citation_data) [] with
      | None => unknown_structure document_id
      | Some pages =>
          {| ds_document_id := document_id;
             ds_document_title := cd_document_title citation_data;
             ds_structure := map (page_node pages) (merge_sort Z.le (map fst pages)) |}
      end
  end.

(** The node of a paragraph whose keys are the decimal texts of the
    indices. *)
Definition node_of (p : string * Paragraph) : ParagraphNode :=
  {| pn_id := "p" +:+ p.1; pn_index := p_index p.2; pn_text := preview (p_text p.2);
     pn_sentences :=
       map (λ s : string * Sentence,
              {| sn_id := "p" +:+ p.1 +:+ "s" +:+ s.1; sn_index := s_index s.2;
                 sn_text := s_text s.2 |}) (p_sentences p.2) |}.

(** The paragraphs of the index that lie on page [n], in index order. *)
Definition on_page (data : CitationData) (n : Z) : list (string * Paragraph) :=
  List.filter (λ p, p_page p.2 =? n) (cd_paragraphs data).

End DocumentStructure.

(** ** Notions used to state the properties *)

Module Derived.
Import Sys Doc.

(** A string that is empty or starts with a character that is no white
    space. *)
Definition no_leading_space (s : string) : Prop :=
  match s with
  | EmptyString => True
  | String c _ => Py.isspace c = false
  end.

(** The entry [process_document] stores for sentence [j]. *)
Definition sentence_at (j : nat) (s : string) : string * EnhancedCitation.Sentence :=
  (Py.str (Z.of_nat j),
   {| EnhancedCitation.s_index := Z.of_nat j; EnhancedCitation.s_text := s |}).

(** [words1.intersection(words2)] and [words1.union(words2)] of
    [_similarity_score]. *)
Definition common_words (text1 text2 : string) : list string :=
  List.filter (λ w, bool_decide (w ∈ EnhancedCitation.word_set text2))
    (EnhancedCitation.word_set text1).
Definition all_words (text1 text2 : string) : list string :=
  remove_dups (EnhancedCitation.word_set text1 ++ EnhancedCitation.word_set text2).

(** The line [--- Page n ---] that the OCR path writes before the text of
    page [n]. *)
Definition marker_line (n : Z) : string := "--- Page " +:+ Py.str n +:+ " ---".

(** A text without a newline. *)
Fixpoint no_newline (s : string) : bool :=
  match s with
  | EmptyString => true
  | String c r => negb (Ascii.eqb c "010") && no_newline r
  end.

(** A text of ASCII characters without a carriage return: opened in text
    mode ([open(p, 'r', encoding='utf-8')]), a file with this content is
    read as it is, with no newline translated and no byte replaced. *)
Fixpoint plain_text (s : string) : bool :=
  match s with
  | EmptyString => true
  | String c r =>
      (nat_of_ascii c <? 128)%nat && negb (Ascii.eqb c "013") && plain_text r
  end.

(** [f"{doc_id}_chunk_{i}"] *)
Definition chunk_id_of (d : Document) (i : nat) : string :=
  id d +:+ "_chunk_" +:+ Py.str (Z.of_nat i).

(** The entry [add_document] stores for chunk [i]. *)
Definition stored_entry (embed : string → list Q) (d : Document) (total : Z)
    (i : nat) (chunk_text : string) : VectorDatabase.Entry :=
  {| VectorDatabase.entry_doc := VectorDatabase.make_chunk d total i chunk_text;
     VectorDatabase.entry_embedding := embed chunk_text |}.

(** The extraction [process_document] runs for a lower-cased file type. *)
Definition extraction (tools : Tools) (file_type file_path processed_dir : string)
    : IO (string * Z) :=
  if bool_decide (file_type = "pdf") then
    DocumentProcessor._process_pdf tools file_path processed_dir
  else if DocumentProcessor.in_list file_type ["png"; "jpg"; "jpeg"; "tiff"; "bmp"] then
         DocumentProcessor._process_image tools file_path processed_dir
  else if DocumentProcessor.in_list file_type ["doc"; "docx"] then
         DocumentProcessor._process_word tools file_path processed_dir
  else DocumentProcessor._process_text file_path processed_dir.

Definition processed_dir_of (document : Document) : string :=
  path_join config.PROCESSED_DIR (id document).
Definition text_file_of (document : Document) : string :=
  path_join (processed_dir_of document) "extracted_text.txt".

(** Every registered document is processed or in error. *)
Definition settled (st : DocumentProcessor.State) : Prop :=
  ∀ doc_id d, DocumentProcessor.documents st !! doc_id = Some d →
    status d = Some "processed" ∨ status d = Some "error".

(** The saved copy of the registry after a call that ends with
    [_save_documents]: the registry when the metadata file can be written,
    the copy from before the call when it cannot. *)
Definition persisted (st st' : DocumentProcessor.State) : Prop :=
  (DocumentProcessor.metadata_file ∉ locked (DocumentProcessor.world st') →
   DocumentProcessor.saved st' = DocumentProcessor.documents st')
  ∧ (DocumentProcessor.metadata_file ∈ locked (DocumentProcessor.world st') →
     DocumentProcessor.saved st' = DocumentProcessor.saved st).

(** The citation [QueryProcessor] builds from a search result. *)
Definition citation_of_result (r : VectorDatabase.SearchResult) : Themes.ThemeCitation :=
  {| Themes.tc_document_id := VectorDatabase.document_id r;
     Themes.tc_document_title := VectorDatabase.document_title r;
     Themes.tc_citation := VectorDatabase.citation r;
     Themes.tc_relevance_score := VectorDatabase.relevance_score r |}.

(** The search results at the given positions. *)
Definition results_at (search_results : list VectorDatabase.SearchResult)
    (rows : list nat) : list VectorDatabase.SearchResult :=
  omap (λ i, search_results !! i) rows.

(** The theme [QueryProcessor] builds for the cluster of label [l]. *)
Definition theme_of_label (describe : list string → string)
    (search_results : list VectorDatabase.SearchResult) (labels : list Z) (l : Z)
    : Themes.Theme :=
  let cluster_results := results_at search_results (Grouping.rows_labelled labels l) in
  {| Themes.theme_id := "theme_" +:+ Py.str l;
     Themes.theme_name := "Theme " +:+ Py.str (l + 1);
     Themes.theme_description :=
       describe (map VectorDatabase.extracted_answer cluster_results);
     Themes.document_count :=
       Themes.count_distinct (map VectorDatabase.document_id cluster_results);
     Themes.citations := map citation_of_result cluster_results |}.

End Derived.

(** ** Sample data for the worked examples *)

Module Sample.
Import Sys Doc VectorDatabase.

Definition chunk (doc_id cid text : string) (page : Z) : LangchainDocument :=
  {| page_content := text;
     metadata := {| md_chunk_id := Some cid; md_document_id := Some doc_id;
                    md_document_title := Some ("Document " +:+ doc_id);
                    md_page := Some page; md_chunk_index := Some 0;
                    md_source := Some ""; md_file_type := Some "pdf" |} |}.

(** The two hits of [test_search]: distances 0.2 and 0.5. *)
Definition two_hits : list (LangchainDocument * Q) :=
  [(chunk "doc1" "chunk1" "Result 1 content" 1, 1 # 5);
   (chunk "doc2" "chunk2" "Result 2 content" 2, 1 # 2)].

(** A hit at a distance below zero. *)
Definition negative_hit : LangchainDocument * Q :=
  (chunk "doc1" "chunk1" "Result 1 content" 1, -1 # 2).

Definition fixed_index (hits : list (LangchainDocument * Q))
    : list Entry → string → Z → option (list string) →
      Py.result (list (LangchainDocument * Q)) :=
  λ _ _ _ _, Py.Ok hits.

Definition empty_service : State := {| vector_db := []; chunk_metadata := ∅ |}.

(** Tools none of which is available. *)
Definition no_tools : Tools :=
  {| pdftotext := λ _, Py.Raise "pdftotext: command not found";
     pdfinfo := λ _, Py.Raise "pdfinfo: command not found";
     convert_from_path := λ _, Py.Raise "Unable to get page count";
     image_to_string := λ _, Py.Raise "tesseract is not installed";
     paddle_ocr := λ _, Py.Raise "No module named 'paddleocr'";
     image_open := λ _, Py.Raise "cannot identify image file";
     docx2txt_importable := false;
     docx2txt_process := λ _, Py.Raise "No module named 'docx2txt'";
     docx2txt_cli := λ _, Py.Raise "docx2txt: command not found";
     antiword := λ _, Py.Raise "antiword: command not found";
     libreoffice_convert := λ _ _, Py.Raise "libreoffice: command not found";
     now := "2024-01-01T00:00:00" |}.

Definition uploaded (doc_id ext : string) : Document :=
  {| id := doc_id; title := Some ("Document " +:+ doc_id);
     original_filename := doc_id +:+ "." +:+ ext;
     file_path := PyStr (path_join config.UPLOAD_DIR (doc_id +:+ "." +:+ ext));
     file_type := ext; status := Some "processing"; page_count := None;
     processed_path := PyNone; processed_time := None; text_length := None;
     error_message := None; tags := [] |}.

(** A processor whose upload directory holds one file. *)
Definition processor_with (name content : string) : DocumentProcessor.State :=
  {| DocumentProcessor.documents := ∅;
     DocumentProcessor.saved := ∅;
     DocumentProcessor.world :=
       {| files := {[ path_join config.UPLOAD_DIR name := content ]};
          dirs := {[ config.UPLOAD_DIR ]}; locked := ∅; fs_log := [] |} |}.

(** A short text file that carries a page marker of its own. *)
Definition marker_text : string := "--- Page 7 ---" +:+ DocumentProcessor.nl +:+ "hello".

Definition marker_processed : DocumentProcessor.State :=
  (DocumentProcessor.process_document no_tools (uploaded "d" "txt")
     (processor_with "d.txt" marker_text)).2.

Definition marker_document : Document :=
  default (uploaded "d" "txt") (DocumentProcessor.documents marker_processed !! "d").

(** A text below the chunk size stays one chunk. *)
Definition one_chunk (text : string) : list string := [text].
Definition no_embedding (text : string) : list Q := [1%Q].

Definition marker_indexed : State :=
  (add_document one_chunk no_embedding (DocumentProcessor.world marker_processed)
     marker_document empty_service).2.

(** A PDF whose text layer is [direct], whose [pdfinfo] outcome is [info]
    and which rasterises to two pages. *)
Definition pdf_tools (direct : string) (info : Py.result string) : Tools :=
  {| pdftotext := λ _, Py.Ok direct;
     pdfinfo := λ _, info;
     convert_from_path := λ _, Py.Ok ["page-1.ppm"; "page-2.ppm"];
     image_to_string := λ image, Py.Ok ("text of " +:+ image);
     paddle_ocr := paddle_ocr no_tools;
     image_open := image_open no_tools;
     docx2txt_importable := false;
     docx2txt_process := docx2txt_process no_tools;
     docx2txt_cli := docx2txt_cli no_tools;
     antiword := antiword no_tools;
     libreoffice_convert := libreoffice_convert no_tools;
     now := now no_tools |}.

Fixpoint repeat_string (n : nat) (s : string) : string :=
  match n with
  | O => EmptyString
  | S k => s +:+ repeat_string k s
  end.

(** 900 characters of text. *)
Definition long_text : string := repeat_string 75 "lorem ipsum ".

(** A text layer of 131 characters, ten of them text: the layout padding of
    [pdftotext -layout] around the words and the final form feed. *)
Definition padded_text : string :=
  repeat_string 60 " " +:+ "Cover page" +:+ repeat_string 60 " " +:+ String "012" EmptyString.

Definition pdfinfo_output : string :=
  "Title:          Report" +:+ DocumentProcessor.nl +:+
  "Pages:          3" +:+ DocumentProcessor.nl.

Definition empty_world : World :=
  {| files := ∅; dirs := ∅; locked := ∅; fs_log := [] |}.

Definition ocr_text : string :=
  Py.join DocumentProcessor.nl
    [DocumentProcessor.page_entry 1 "text of page-1.ppm";
     DocumentProcessor.page_entry 2 "text of page-2.ppm"].

(** An index that returns the first [k] stored chunks that pass the filter,
    each at distance 1/4. *)
Definition scan_index : list Entry → string → Z → option (list string) →
                        Py.result (list (LangchainDocument * Q)) :=
  λ db _ k ids,
    Py.Ok (take (Z.to_nat k)
             (map (λ e, (entry_doc e, 1 # 4))
                (List.filter
                   (λ e, match ids with
                         | None => true
                         | Some l =>
                             bool_decide (default "" (md_document_id (metadata (entry_doc e))) ∈ l)
                         end) db))).

Definition fresh_app : Endpoints.App :=
  {| Endpoints.document_processor :=
       {| DocumentProcessor.documents := ∅; DocumentProcessor.saved := ∅;
          DocumentProcessor.world := empty_world |};
     Endpoints.background_tasks := [] |}.

(** Upload of [name] with identifier [doc_id], then the background task. *)
Definition ingest (doc_id name content : string) (a : Endpoints.App) : Endpoints.App :=
  Endpoints.run_background_task no_tools
    (Endpoints.upload_document doc_id "20240101_000000" "2024-01-01T00:00:00"
       name content None None a).2.

(** Two text documents, uploaded, processed and indexed. *)
Definition indexed_system : System.System :=
  let a := ingest "B" "b.txt" "shared topic from b" (ingest "A" "a.txt" "shared topic from a" fresh_app) in
  let s0 := {| System.app := a; System.vector_service := empty_service |} in
  (System.add_document one_chunk no_embedding "B"
     (System.add_document one_chunk no_embedding "A" s0).2).2.

(** The same system after [DELETE /documents/B]. *)
Definition after_delete : System.System := (System.delete_document "B" indexed_system).2.

(** Clustering that puts all rows into cluster 0, and a fixed description. *)
Definition one_cluster : Q → Z → list (list Q) → list Z := λ _ _ rows, map (λ _, 0) rows.
Definition topics (texts : list string) : string := "Common topics: shared, topic, from".
Definition unit_embeddings (texts : list string) : list (list Q) := map no_embedding texts.

(** What a fresh [DocumentProcessor()] loads from the metadata file. *)
Definition registry_of (sys : System.System) : list (string * Document) :=
  map_to_list (DocumentProcessor.saved (Endpoints.document_processor (System.app sys))).

(** Two search results that are chunks of one document. *)
Definition same_document_results : list SearchResult :=
  map format_hit
    [(chunk "A" "A_chunk_0" "shared topic from a" 1, 1 # 10);
     (chunk "A" "A_chunk_1" "shared topic from a again" 1, 1 # 5)].

(** Two text documents for the citation service: uploaded, processed, and
    indexed by [EnhancedCitationService.process_document]. *)
Definition animals_text : string :=
  "Cats purr. Dogs bark loudly." +:+ DocumentProcessor.nl +:+ DocumentProcessor.nl +:+
  "Birds sing.".

Definition greeting_text : string := "hello world.".

Definition citation_app : Endpoints.App :=
  ingest "G" "greeting.txt" greeting_text (ingest "Z" "zoo.txt" animals_text fresh_app).

Definition registered (doc_id : string) : Document :=
  default (uploaded doc_id "txt")
    (DocumentProcessor.get_document doc_id (Endpoints.document_processor citation_app)).

Definition citation_service : EnhancedCitation.State :=
  let w := DocumentProcessor.world (Endpoints.document_processor citation_app) in
  (EnhancedCitation.process_document w (registered "G")
     (EnhancedCitation.process_document w (registered "Z")
        {| EnhancedCitation.citation_metadata := ∅ |}).2).2.

Definition no_index : EnhancedCitation.CitationData :=
  {| EnhancedCitation.cd_document_id := ""; EnhancedCitation.cd_document_title := "";
     EnhancedCitation.cd_paragraph_count := 0; EnhancedCitation.cd_paragraphs := [] |}.

Definition index_of (doc_id : string) : EnhancedCitation.CitationData :=
  default no_index (EnhancedCitation.citation_metadata citation_service !! doc_id).

(** A scanned PDF of two pages: no text layer; the OCR reads one paragraph on
    page 1 and five on page 2. *)
Definition scanned_page_2 : string :=
  Py.join (DocumentProcessor.nl +:+ DocumentProcessor.nl)
    ["Alpha."; "Beta."; "Gamma."; "Delta."; "Epsilon."].

Definition scan_tools : Tools :=
  {| pdftotext := λ _, Py.Ok "";
     pdfinfo := pdfinfo no_tools;
     convert_from_path := λ _, Py.Ok ["page-1.ppm"; "page-2.ppm"];
     image_to_string :=
       λ image, Py.Ok (if bool_decide (image = "page-1.ppm") then "Intro." else scanned_page_2);
     paddle_ocr := paddle_ocr no_tools;
     image_open := image_open no_tools;
     docx2txt_importable := false;
     docx2txt_process := docx2txt_process no_tools;
     docx2txt_cli := docx2txt_cli no_tools;
     antiword := antiword no_tools;
     libreoffice_convert := libreoffice_convert no_tools;
     now := now no_tools |}.

Definition scan_app : Endpoints.App :=
  Endpoints.run_background_task scan_tools
    (Endpoints.upload_document "S" "20240101_000000" "2024-01-01T00:00:00"
       "scan.pdf" "%PDF-1.4" None None fresh_app).2.

Definition scan_document : Document :=
  default (uploaded "S" "pdf")
    (DocumentProcessor.get_document "S" (Endpoints.document_processor scan_app)).

Definition scanned_index : EnhancedCitation.CitationData :=
  default no_index
    (EnhancedCitation.citation_metadata
       (EnhancedCitation.process_document
          (DocumentProcessor.world (Endpoints.document_processor scan_app))
          scan_document {| EnhancedCitation.citation_metadata := ∅ |}).2 !! "S").

(** The resolved pages of the paragraphs, in paragraph order. *)
Definition scan_pages : list Z :=
  map (λ e : string * EnhancedCitation.Paragraph, EnhancedCitation.p_page e.2)
      (EnhancedCitation.cd_paragraphs scanned_index).

(** A processor after the processing of an image has failed. *)
Definition failed_processed : DocumentProcessor.State :=
  (DocumentProcessor.process_document no_tools (uploaded "d2" "png")
     (processor_with "d2.png" "PNG")).2.

Definition failed_document : Document :=
  default (uploaded "d2" "png") (DocumentProcessor.documents failed_processed !! "d2").

(** Tools that can open and read an image. *)
Definition image_tools : Tools :=
  {| pdftotext := pdftotext no_tools;
     pdfinfo := pdfinfo no_tools;
     convert_from_path := convert_from_path no_tools;
     image_to_string := λ image, Py.Ok ("text of " +:+ image);
     paddle_ocr := paddle_ocr no_tools;
     image_open := λ p, Py.Ok ("image " +:+ p);
     docx2txt_importable := false;
     docx2txt_process := docx2txt_process no_tools;
     docx2txt_cli := docx2txt_cli no_tools;
     antiword := antiword no_tools;
     libreoffice_convert := libreoffice_convert no_tools;
     now := now no_tools |}.

Definition image_processed : DocumentProcessor.State :=
  (DocumentProcessor.process_document image_tools (uploaded "d2" "png")
     (processor_with "d2.png" "PNG")).2.

(** A processed PDF whose page count is 0, and its citation index. *)
Definition zero_pages_document : Document :=
  set_processed (uploaded "P" "pdf") (path_join config.PROCESSED_DIR "P") 0
    "2024-01-01T00:00:00" (Py.len animals_text).

Definition zero_pages_index : EnhancedCitation.CitationData :=
  match EnhancedCitation.build_index zero_pages_document animals_text with
  | Py.Ok data => data
  | Py.Raise _ => no_index
  end.

End Sample.

(** * Properties *)

(** ** Minimum and maximum *)

Lemma minZ_min (a b : Z) : Py.minZ a b = Z.min a b.
Proof. unfold Py.minZ. destruct (Z.ltb_spec b a); lia. Qed.

Lemma maxZ_max (a b : Z) : Py.maxZ a b = Z.max a b.
Proof. unfold Py.maxZ. destruct (Z.ltb_spec a b); lia. Qed.

Lemma minQ_le_l (a b : Q) : (Py.minQ a b <= a)%Q.
Proof.
  unfold Py.minQ. destruct (Qlt_le_dec b a) as [H|H].
  - now apply Qlt_le_weak.
  - apply Qle_refl.
Qed.

Lemma minQ_le_r (a b : Q) : (Py.minQ a b <= b)%Q.
Proof.
  unfold Py.minQ. destruct (Qlt_le_dec b a) as [H|H]; [apply Qle_refl | exact H].
Qed.

Lemma minQ_mono (a b c : Q) : (a <= b)%Q → (Py.minQ a c <= Py.minQ b c)%Q.
Proof.
  intros Hab. unfold Py.minQ.
  destruct (Qlt_le_dec c a) as [Ha|Ha], (Qlt_le_dec c b) as [Hb|Hb].
  - apply Qle_refl.
  - exfalso. apply (Qlt_irrefl c).
    eapply Qlt_le_trans; [exact Ha|]. eapply Qle_trans; [exact Hab | exact Hb].
  - exact Ha.
  - exact Hab.
Qed.

Lemma minQ_Qmin (a b : Q) : (Py.minQ a b == Qmin a b)%Q.
Proof.
  unfold Py.minQ. destruct (Qlt_le_dec b a) as [H|H].
  - symmetry. apply Q.min_r. now apply Qlt_le_weak.
  - symmetry. now apply Q.min_l.
Qed.

(** ** Properties of the page estimate *)

Section EstimateFacts.
Import EnhancedCitation.

Lemma estimate_quotient_nonneg (i n tp : Z) :
  0 <= i → 0 <= tp → 1 < n → 0 <= (i * tp) / n.
Proof. intros Hi Htp Hn. apply Z.div_pos; nia. Qed.

Lemma estimate_quotient_mono (i j n tp : Z) :
  i <= j → 0 <= tp → 1 < n → (i * tp) / n <= (j * tp) / n.
Proof. intros Hij Htp Hn. apply Z.div_le_mono; nia. Qed.

End EstimateFacts.

(** C7, as the code has it.  For a paragraph without a page marker the
    page is estimated as one plus the floor of
    [paragraph_index * total_pages / total_paragraphs], clamped to
    [[1, total_pages]]; for [total_pages >= 1] the estimate lies in
    [[1, total_pages]] and does not decrease when the paragraph index grows,
    so the resolved pages of two paragraphs without markers are in order. *)
Theorem estimate_page_number_bounded_monotone (i j n tp : Z) :
  0 <= i → i <= j → 1 <= tp →
  (i < n →
     EnhancedCitation._estimate_page_number i n tp
     = EnhancedCitation.estimate_page_spec i n tp)
  ∧ 1 <= EnhancedCitation._estimate_page_number i n tp <= tp
  ∧ EnhancedCitation._estimate_page_number i n tp
    <= EnhancedCitation._estimate_page_number j n tp
  ∧ (∀ (d : Doc.Document) (paragraph_i paragraph_j : string),
       Doc.page_count d = Some tp →
       EnhancedCitation._extract_page_number paragraph_i = None →
       EnhancedCitation._extract_page_number paragraph_j = None →
       ∃ page_i page_j,
         EnhancedCitation.resolve_page d n i paragraph_i = Py.Ok page_i
         ∧ EnhancedCitation.resolve_page d n j paragraph_j = Py.Ok page_j
         ∧ page_i <= page_j).
Proof.
  intros Hi Hij Htp.
  assert (EnhancedCitation._estimate_page_number i n tp
          <= EnhancedCitation._estimate_page_number j n tp) as Hmono.
  { unfold EnhancedCitation._estimate_page_number. rewrite !minZ_min.
    destruct (Z.leb_spec n 1) as [Hn|Hn]; [lia|].
    pose proof (estimate_quotient_mono i j n tp Hij ltac:(lia) Hn). lia. }
  split; [|split; [|split; [exact Hmono|]]].
  - unfold EnhancedCitation._estimate_page_number,
      EnhancedCitation.estimate_page_spec, EnhancedCitation.clamp.
    rewrite !minZ_min. intros Hlt.
    destruct (Z.leb_spec n 1) as [Hn|Hn].
    + assert (i = 0) by lia. assert (n = 1) by lia. subst.
      rewrite Z.mul_0_l, Z.div_1_r. lia.
    + pose proof (estimate_quotient_nonneg i n tp Hi ltac:(lia) Hn). lia.
  - unfold EnhancedCitation._estimate_page_number. rewrite !minZ_min.
    destruct (Z.leb_spec n 1) as [Hn|Hn]; [lia|].
    pose proof (estimate_quotient_nonneg i n tp Hi ltac:(lia) Hn). lia.
  - intros d paragraph_i paragraph_j Hpc Hpi Hpj.
    exists (EnhancedCitation._estimate_page_number i n tp),
           (EnhancedCitation._estimate_page_number j n tp).
    unfold EnhancedCitation.resolve_page. rewrite Hpi, Hpj, Hpc. auto.
Qed.

Lemma estimate_page_number_bounded_monotone_witness :
  (0 <= 3 ∧ 3 <= 7 ∧ 1 <= 4)
  ∧ EnhancedCitation._estimate_page_number 3 10 4 = 2
  ∧ EnhancedCitation._estimate_page_number 7 10 4 = 3
  ∧ 1 <= EnhancedCitation._estimate_page_number 3 10 4 <= 4
  ∧ EnhancedCitation._estimate_page_number 3 10 4
    <= EnhancedCitation._estimate_page_number 7 10 4.
Proof.
  split; [lia|]. split; [reflexivity|]. split; [reflexivity|].
  destruct (estimate_page_number_bounded_monotone 3 7 10 4
              ltac:(lia) ltac:(lia) ltac:(lia)) as (_ & Hrange & Hmono & _).
  exact (conj Hrange Hmono).
Defined.

(** C7 as stated fails for resolved pages: in the index of a scanned PDF of
    two pages the paragraph that is the marker of page 2 has page 2, and the
    paragraph after it, which has no marker, has the estimate 1. *)
Lemma resolved_pages_decrease_after_marker :
  Sample.scan_pages = [1; 1; 2; 1; 2; 2; 2; 2]
  ∧ ∃ (i j : nat) (page_i page_j : Z),
      (i <= j)%nat
      ∧ Sample.scan_pages !! i = Some page_i
      ∧ Sample.scan_pages !! j = Some page_j
      ∧ page_j < page_i.
Proof.
  assert (Sample.scan_pages = [1; 1; 2; 1; 2; 2; 2; 2]) as H by (vm_compute; reflexivity).
  split; [exact H|]. rewrite H. exists 2%nat, 3%nat, 2, 1.
  split; [lia|]. split; [reflexivity|]. split; [reflexivity | lia].
Qed.

(** ** The retrieval formatter *)

Section SearchFacts.
Import VectorDatabase.

Lemma format_hit_score (doc : LangchainDocument) (d : Q) :
  (relevance_score (format_hit (doc, d)) == 1 - Qmin d 1)%Q.
Proof.
  change (1 + - Py.minQ d 1 == 1 + - Qmin d 1)%Q. now rewrite minQ_Qmin.
Qed.

Lemma format_hit_score_nonneg (doc : LangchainDocument) (d : Q) :
  (0 <= relevance_score (format_hit (doc, d)))%Q.
Proof.
  change (0 <= 1 + - Py.minQ d 1)%Q.
  apply (proj1 (Qle_minus_iff (Py.minQ d 1) 1)), minQ_le_r.
Qed.

Lemma format_hit_score_le_one (doc : LangchainDocument) (d : Q) :
  (0 <= d)%Q → (relevance_score (format_hit (doc, d)) <= 1)%Q.
Proof.
  intros Hd.
  assert (0 <= Py.minQ d 1)%Q as H.
  { unfold Py.minQ. destruct (Qlt_le_dec 1 d); [discriminate | exact Hd]. }
  change (1 + - Py.minQ d 1 <= 1)%Q.
  apply Qle_trans with (1 + - 0)%Q; [|discriminate].
  apply Qplus_le_r. now apply Qopp_le_compat.
Qed.

Lemma format_hit_score_antitone (doc1 doc2 : LangchainDocument) (d1 d2 : Q) :
  (d1 <= d2)%Q →
  (relevance_score (format_hit (doc2, d2)) <= relevance_score (format_hit (doc1, d1)))%Q.
Proof.
  intros H.
  change (1 + - Py.minQ d2 1 <= 1 + - Py.minQ d1 1)%Q.
  apply Qplus_le_r, Qopp_le_compat. now apply minQ_mono.
Qed.

End SearchFacts.

(** C5, as the code has it.  When the index returns the raw hits [hits],
    the formatted list is
    the list of the formatted hits in the same order; the relevance score of
    a hit at distance [d] is [1 - min(d, 1)]; scores do not increase when the
    distance grows; every score is at least 0 and, the distance being
    non-negative, at most 1. *)
Theorem search_relevance_score_order
    (index : list VectorDatabase.Entry → string → Z → option (list string) →
             Py.result (list (VectorDatabase.LangchainDocument * Q)))
    (s : VectorDatabase.State) (query : string) (document_ids : option (list string))
    (max_results : Z) (hits : list (VectorDatabase.LangchainDocument * Q)) :
  index (VectorDatabase.vector_db s) query max_results
        (VectorDatabase.filter_dict document_ids) = Py.Ok hits →
  VectorDatabase.search index s query document_ids max_results
    = map VectorDatabase.format_hit hits
  ∧ (∀ doc d, (VectorDatabase.relevance_score (VectorDatabase.format_hit (doc, d))
               == 1 - Qmin d 1)%Q)
  ∧ (∀ doc1 doc2 d1 d2, (d1 <= d2)%Q →
       (VectorDatabase.relevance_score (VectorDatabase.format_hit (doc2, d2))
        <= VectorDatabase.relevance_score (VectorDatabase.format_hit (doc1, d1)))%Q)
  ∧ (∀ i doc d, hits !! i = Some (doc, d) →
       ∃ r, VectorDatabase.search index s query document_ids max_results !! i = Some r
            ∧ VectorDatabase.extracted_answer r = VectorDatabase.page_content doc
            ∧ (VectorDatabase.relevance_score r == 1 - Qmin d 1)%Q
            ∧ (0 <= VectorDatabase.relevance_score r)%Q
            ∧ ((0 <= d)%Q → (VectorDatabase.relevance_score r <= 1)%Q)).
Proof.
  intros Hidx.
  assert (VectorDatabase.search index s query document_ids max_results
          = map VectorDatabase.format_hit hits) as Hs.
  { unfold VectorDatabase.search. now rewrite Hidx. }
  split; [exact Hs|]. split; [apply format_hit_score|].
  split; [apply format_hit_score_antitone|].
  intros i doc d Hi. exists (VectorDatabase.format_hit (doc, d)).
  rewrite Hs, list_lookup_fmap, Hi. split; [reflexivity|].
  split; [reflexivity|]. split; [apply format_hit_score|].
  split; [apply format_hit_score_nonneg | apply format_hit_score_le_one].
Qed.

Lemma search_relevance_score_order_witness :
  VectorDatabase.search (Sample.fixed_index Sample.two_hits) Sample.empty_service
    "test query" None 2
  = map VectorDatabase.format_hit Sample.two_hits.
Proof.
  exact (proj1 (search_relevance_score_order (Sample.fixed_index Sample.two_hits)
                  Sample.empty_service "test query" None 2 Sample.two_hits eq_refl)).
Defined.

(** C5 as stated fails for a hit at a distance below zero: the distance is
    clamped from above only, and the score at distance -1/2 is 3/2, outside
    [[0, 1]]. *)
Lemma search_score_above_one :
  ∃ r, VectorDatabase.search (Sample.fixed_index [Sample.negative_hit]) Sample.empty_service
         "test query" None 1 = [r]
       ∧ (VectorDatabase.relevance_score r == 3 # 2)%Q
       ∧ ¬ (VectorDatabase.relevance_score r <= 1)%Q.
Proof.
  eexists. split; [reflexivity|]. split; [reflexivity|].
  vm_compute. intros H. apply H. reflexivity.
Qed.

(** ** Pages of the chunks built by [add_document] *)

Section ChunkFacts.
Import Doc VectorDatabase.

Lemma known_page_count_pos (d : Document) (pc : Z) :
  page_count d = Some pc → 1 <= pc → known_page_count d = Some pc.
Proof.
  intros H Hpc. unfold known_page_count. rewrite H.
  destruct (Z.eqb_spec pc 0); [lia | reflexivity].
Qed.

Lemma chunk_estimate_in_range (i total pc : Z) :
  0 <= i → 0 < total → 1 <= pc → 1 <= Z.min (1 + (i * pc) / total) pc <= pc.
Proof.
  intros Hi Ht Hpc.
  assert (0 <= (i * pc) / total) by (apply Z.div_pos; nia). lia.
Qed.

Lemma add_document_true (split_text : string → list string) (embed : string → list Q)
    (w : Sys.World) (d : Document) (s s' : State) :
  add_document split_text embed w d s = (true, s') →
  ∃ dir text,
    status d = Some "processed" ∧ processed_path d = PyStr dir
    ∧ Sys.files w !! Sys.path_join dir "extracted_text.txt" = Some text
    ∧ vector_db s' =
        vector_db s ++
        map (λ c, {| entry_doc := c; entry_embedding := embed (page_content c) |})
            (chunks_of split_text d text).
Proof.
  unfold add_document. intros H.
  destruct (bool_decide (status d = Some "processed")) eqn:Hst; simpl in H; [|congruence].
  apply bool_decide_eq_true in Hst.
  destruct (processed_path d) as [| |dir]; try congruence.
  destruct (Sys.files w !! Sys.path_join dir "extracted_text.txt") as [text|] eqn:Hf;
    [|congruence].
  exists dir, text. unfold db_add_documents in H.
  destruct (chunks_of split_text d text) as [|c docs]; [congruence|].
  inversion H; subst; clear H. simpl. auto.
Qed.

End ChunkFacts.

(** C2, as the code has it.  For a processed document with page count
    [pc >= 1], every chunk that [add_document] stores has a page [p]: when no
    line of the chunk is a page marker, [p] is the position estimate
    [min(1 + i * pc // total, pc)] and lies in [[1, pc]]; when a line of the
    chunk is a marker with number [n], [p] is [n] (1 for [n = 0]), whatever
    the page count. *)
Theorem add_document_chunk_pages
    (split_text : string → list string) (embed : string → list Q)
    (w : Sys.World) (d : Doc.Document) (s s' : VectorDatabase.State) (pc : Z) :
  VectorDatabase.add_document split_text embed w d s = (true, s') →
  Doc.page_count d = Some pc → 1 <= pc →
  ∃ text,
    Doc.status d = Some "processed"
    ∧ VectorDatabase.vector_db s' =
        VectorDatabase.vector_db s ++
        map (λ c, {| VectorDatabase.entry_doc := c;
                     VectorDatabase.entry_embedding := embed (VectorDatabase.page_content c) |})
            (VectorDatabase.chunks_of split_text d text)
    ∧ ∀ i c, VectorDatabase.chunks_of split_text d text !! i = Some c →
        ∃ chunk_text p,
          split_text text !! i = Some chunk_text
          ∧ VectorDatabase.md_page (VectorDatabase.metadata c) = Some p
          ∧ match VectorDatabase.marker_page (Py.split_char "010" chunk_text) with
            | Some n => p = (if n =? 0 then 1 else n)
            | None =>
                p = Z.min (1 + (Z.of_nat i * pc) / Z.of_nat (length (split_text text))) pc
                ∧ 1 <= p <= pc
            end.
Proof.
  intros Hadd Hpc Hpos.
  destruct (add_document_true _ _ _ _ _ _ Hadd) as (dir & text & Hst & _ & _ & Hdb).
  exists text. split; [exact Hst|]. split; [exact Hdb|].
  intros i c Hc. unfold VectorDatabase.chunks_of in Hc.
  rewrite list_lookup_imap in Hc.
  destruct (split_text text !! i) as [chunk_text|] eqn:Hi; [|discriminate].
  simpl in Hc. inversion Hc; subst c; clear Hc.
  exists chunk_text. eexists. split; [reflexivity|]. split; [reflexivity|].
  unfold VectorDatabase.page_info.
  destruct (VectorDatabase.marker_page (Py.split_char "010" chunk_text)) as [n|].
  - reflexivity.
  - rewrite (known_page_count_pos d pc Hpc Hpos), minZ_min.
    apply lookup_lt_Some in Hi.
    pose proof (chunk_estimate_in_range (Z.of_nat i)
                  (Z.of_nat (length (split_text text))) pc
                  ltac:(lia) ltac:(lia) Hpos) as Hr.
    unfold VectorDatabase.or_one.
    destruct (Z.eqb_spec (Z.min (1 + Z.of_nat i * pc / Z.of_nat (length (split_text text))) pc) 0);
      [lia|]. split; [reflexivity | exact Hr].
Qed.

Lemma add_document_chunk_pages_witness :
  ∃ text,
    Doc.status Sample.marker_document = Some "processed"
    ∧ VectorDatabase.vector_db Sample.marker_indexed =
        VectorDatabase.vector_db Sample.empty_service ++
        map (λ c, {| VectorDatabase.entry_doc := c;
                     VectorDatabase.entry_embedding :=
                       Sample.no_embedding (VectorDatabase.page_content c) |})
            (VectorDatabase.chunks_of Sample.one_chunk Sample.marker_document text)
    ∧ ∀ i c, VectorDatabase.chunks_of Sample.one_chunk Sample.marker_document text !! i
             = Some c →
        ∃ chunk_text p,
          Sample.one_chunk text !! i = Some chunk_text
          ∧ VectorDatabase.md_page (VectorDatabase.metadata c) = Some p
          ∧ match VectorDatabase.marker_page (Py.split_char "010" chunk_text) with
            | Some n => p = (if n =? 0 then 1 else n)
            | None =>
                p = Z.min (1 + (Z.of_nat i * 1) / Z.of_nat (length (Sample.one_chunk text))) 1
                ∧ 1 <= p <= 1
            end.
Proof.
  apply (add_document_chunk_pages Sample.one_chunk Sample.no_embedding
           (DocumentProcessor.world Sample.marker_processed)
           Sample.marker_document Sample.empty_service Sample.marker_indexed 1).
  - vm_compute. reflexivity.
  - vm_compute. reflexivity.
  - lia.
Defined.

(** C2 as stated fails: a text file of one page that contains the line
    [--- Page 7 ---] is processed, and the chunk stored for it has page 7. *)
Lemma add_document_marker_page_out_of_range :
  (DocumentProcessor.process_document Sample.no_tools (Sample.uploaded "d" "txt")
     (Sample.processor_with "d.txt" Sample.marker_text)).1 = Py.Ok true
  ∧ Doc.status Sample.marker_document = Some "processed"
  ∧ Doc.page_count Sample.marker_document = Some 1
  ∧ (VectorDatabase.add_document Sample.one_chunk Sample.no_embedding
       (DocumentProcessor.world Sample.marker_processed)
       Sample.marker_document Sample.empty_service).1 = true
  ∧ ¬ (∀ e p, e ∈ VectorDatabase.vector_db Sample.marker_indexed →
         VectorDatabase.md_page (VectorDatabase.metadata (VectorDatabase.entry_doc e)) = Some p →
         1 <= p <= 1).
Proof.
  split; [vm_compute; reflexivity|]. split; [vm_compute; reflexivity|].
  split; [vm_compute; reflexivity|]. split; [vm_compute; reflexivity|].
  intros H.
  assert (VectorDatabase.vector_db Sample.marker_indexed <> []) as Hne
    by (vm_compute; discriminate).
  destruct (VectorDatabase.vector_db Sample.marker_indexed) as [|e l] eqn:Hdb;
    [congruence|].
  assert (VectorDatabase.md_page (VectorDatabase.metadata (VectorDatabase.entry_doc e))
          = Some 7) as Hp.
  { assert (head (VectorDatabase.vector_db Sample.marker_indexed) = Some e) as Hh
      by (rewrite Hdb; reflexivity).
    vm_compute in Hh. inversion Hh. reflexivity. }
  specialize (H e 7 ltac:(left) Hp). lia.
Qed.

(** ** The state monad *)

Section MonadFacts.
Import Sys.
Context {S : Type}.

Lemma bind_inv {A B} (m : ST S A) (k : A → ST S B) (s s' : S) (r : Py.result B) :
  (m ≫= k) s = (r, s') →
  (∃ a s1, m s = (Py.Ok a, s1) ∧ k a s1 = (r, s'))
  ∨ (∃ e, m s = (Py.Raise e, s') ∧ r = Py.Raise e).
Proof.
  unfold mbind, st_bind, bind. destruct (m s) as [[a|e] s1]; intros H.
  - left. eauto.
  - right. inversion H; subst. eauto.
Qed.

Lemma bind_Ok {A B} (m : ST S A) (k : A → ST S B) (s s' : S) (b : B) :
  (m ≫= k) s = (Py.Ok b, s') →
  ∃ a s1, m s = (Py.Ok a, s1) ∧ k a s1 = (Py.Ok b, s').
Proof.
  intros H. destruct (bind_inv _ _ _ _ _ H) as [?|(e & _ & ?)]; [assumption|discriminate].
Qed.

Lemma bind_run_Ok {A B} (m : ST S A) (k : A → ST S B) (s s1 : S) (a : A) :
  m s = (Py.Ok a, s1) → (m ≫= k) s = k a s1.
Proof. intros H. unfold mbind, st_bind, bind. now rewrite H. Qed.

Lemma bind_run_Raise {A B} (m : ST S A) (k : A → ST S B) (s s1 : S) (e : string) :
  m s = (Py.Raise e, s1) → (m ≫= k) s = (Py.Raise e, s1).
Proof. intros H. unfold mbind, st_bind, bind. now rewrite H. Qed.

Lemma try_except_Ok {A} (body : ST S A) (handler : string → ST S A) (s s1 : S) (a : A) :
  body s = (Py.Ok a, s1) → try_except body handler s = (Py.Ok a, s1).
Proof. intros H. unfold try_except. now rewrite H. Qed.

Lemma try_except_Raise {A} (body : ST S A) (handler : string → ST S A) (s s1 : S) (e : string) :
  body s = (Py.Raise e, s1) → try_except body handler s = handler e s1.
Proof. intros H. unfold try_except. now rewrite H. Qed.

End MonadFacts.

(** ** The document registry *)

Section ProcessorFacts.
Import Sys Doc DocumentProcessor.

Lemma io_inv {A} (m : IO A) (s s' : State) (r : Py.result A) :
  io m s = (r, s') → ∃ w', m (world s) = (r, w') ∧ s' = set_world w' s.
Proof.
  unfold io, zoom. destruct (m (world s)) as [r' w']. intros H. inversion H; subst. eauto.
Qed.

Lemma io_run {A} (m : IO A) (s : State) (r : Py.result A) (w' : World) :
  m (world s) = (r, w') → io m s = (r, set_world w' s).
Proof. unfold io, zoom. now intros ->. Qed.

Lemma save_documents_run (s : State) :
  ∃ s', _save_documents s = (Py.Ok (), s') ∧ documents s' = documents s ∧ world s' = world s.
Proof.
  unfold _save_documents. destruct (bool_decide _); eexists; split; try reflexivity; auto.
Qed.

Lemma delete_document_true (document_id : string) (st st' : State) :
  delete_document document_id st = (Py.Ok true, st') →
  documents st' = delete document_id (documents st).
Proof.
  unfold delete_document.
  destruct (documents st !! document_id) as [document|]; [|congruence].
  unfold try_except.
  match goal with |- context [let (_, _) := ?b st in _] => destruct (b st) as [[a|e] s1] eqn:Hb end.
  2:{ unfold ret. congruence. }
  intros H; inversion H; subst; clear H.
  apply bind_Ok in Hb as ([] & s2 & H1 & Hb).
  apply bind_Ok in Hb as ([] & s3 & H2 & Hb).
  apply bind_Ok in Hb as ([] & s4 & H3 & Hb).
  apply bind_Ok in Hb as ([] & s5 & H4 & Hb).
  apply io_inv in H1 as (w1 & _ & ->). apply io_inv in H2 as (w2 & _ & ->).
  match type of H4 with
  | _save_documents ?x = _ => destruct (save_documents_run x) as (s' & Hs & Hd & _)
  end.
  rewrite Hs in H4. inversion H4; subst s'; clear H4.
  unfold forget_document in H3. inversion H3; subst s4; clear H3.
  inversion Hb; subst. rewrite Hd. reflexivity.
Qed.

Lemma process_failed_run (document : Document) (e : string) (s1 : State) :
  ∃ st', process_failed document e s1 = (Py.Ok false, st')
         ∧ documents st' = <[id document := set_error document e]> (documents s1)
         ∧ world st' = world s1.
Proof.
  unfold process_failed.
  match goal with
  | |- context [_save_documents] =>
      destruct (save_documents_run
                  (set_documents (<[id (set_error document e) := set_error document e]> (documents s1)) s1))
        as (s' & Hs & Hd & Hw)
  end.
  exists s'. split; [|split; [exact Hd | exact Hw]].
  erewrite bind_run_Ok by reflexivity.
  erewrite bind_run_Ok by exact Hs. reflexivity.
Qed.

Lemma process_body_not_false (tools : Tools) (document : Document) (fp : field) (s s' : State) :
  process_body tools document fp s ≠ (Py.Ok false, s').
Proof.
  unfold process_body. intros H.
  apply bind_Ok in H as ([] & s1 & _ & H).
  apply bind_Ok in H as (p & s2 & _ & H).
  apply bind_Ok in H as ([text pc] & s3 & _ & H).
  apply bind_Ok in H as ([] & s4 & _ & H).
  apply bind_Ok in H as ([] & s5 & _ & H).
  apply bind_Ok in H as ([] & s6 & _ & H).
  inversion H.
Qed.

End ProcessorFacts.

(** C10. Deleting an identifier that is not in the registry returns [False]
    and changes nothing: the registry, the files and the log of attempted
    file operations are the same; after a call that returns [True],
    [get_document] on that identifier returns [None]. *)
Theorem delete_document_unknown_or_gone (document_id : string)
    (st : DocumentProcessor.State) :
  (DocumentProcessor.documents st !! document_id = None →
     DocumentProcessor.delete_document document_id st = (Py.Ok false, st))
  ∧ (∀ st', DocumentProcessor.delete_document document_id st = (Py.Ok true, st') →
       DocumentProcessor.get_document document_id st' = None).
Proof.
  split.
  - intros H. unfold DocumentProcessor.delete_document. now rewrite H.
  - intros st' H. unfold DocumentProcessor.get_document.
    rewrite (delete_document_true _ _ _ H). apply lookup_delete_eq.
Qed.

Lemma delete_document_unknown_or_gone_witness :
  DocumentProcessor.delete_document "nonexistent" Sample.marker_processed
  = (Py.Ok false, Sample.marker_processed)
  ∧ DocumentProcessor.get_document "d"
      (DocumentProcessor.delete_document "d" Sample.marker_processed).2 = None.
Proof.
  split.
  - apply (proj1 (delete_document_unknown_or_gone "nonexistent" Sample.marker_processed)).
    vm_compute. reflexivity.
  - apply (proj2 (delete_document_unknown_or_gone "d" Sample.marker_processed)).
    vm_compute. reflexivity.
Defined.

(** C3, as the code has it.  When the [try] block of [process_document]
    raises with message [e], the call returns [False], the registry holds
    the document with status ["error"] and error message [e], and the
    background task is gone from the queue: nothing schedules the document
    again. *)
Theorem process_document_failure_recorded (tools : Doc.Tools) (document : Doc.Document)
    (st s1 : DocumentProcessor.State) (e : string) :
  Doc.file_path document ≠ Doc.Absent →
  DocumentProcessor.process_body tools document (Doc.file_path document) st
    = (Py.Raise e, s1) →
  ∃ st' recorded,
    DocumentProcessor.process_document tools document st = (Py.Ok false, st')
    ∧ DocumentProcessor.documents st' !! Doc.id document = Some recorded
    ∧ Doc.status recorded = Some "error"
    ∧ Doc.error_message recorded = Some e
    ∧ ∀ rest,
        Endpoints.run_background_task tools
          {| Endpoints.document_processor := st;
             Endpoints.background_tasks := document :: rest |}
        = {| Endpoints.document_processor := st';
             Endpoints.background_tasks := rest |}.
Proof.
  intros Hfp Hbody.
  destruct (process_failed_run document e s1) as (st' & Hrun & Hdocs & _).
  assert (DocumentProcessor.process_document tools document st = (Py.Ok false, st')) as H.
  { unfold DocumentProcessor.process_document.
    destruct (Doc.file_path document); [congruence| |];
      (erewrite try_except_Raise by exact Hbody; exact Hrun). }
  exists st', (Doc.set_error document e).
  split; [exact H|]. split; [rewrite Hdocs; apply lookup_insert_eq|].
  split; [reflexivity|]. split; [reflexivity|].
  intros rest. unfold Endpoints.run_background_task. simpl. now rewrite H.
Qed.

(** The converse: [process_document] returns [False] only when its [try]
    block raised. *)
Lemma process_document_false_inv (tools : Doc.Tools) (document : Doc.Document)
    (st st' : DocumentProcessor.State) :
  DocumentProcessor.process_document tools document st = (Py.Ok false, st') →
  ∃ e s1, DocumentProcessor.process_body tools document (Doc.file_path document) st
          = (Py.Raise e, s1).
Proof.
  intros H. unfold DocumentProcessor.process_document in H.
  assert (Sys.try_except
            (DocumentProcessor.process_body tools document (Doc.file_path document))
            (DocumentProcessor.process_failed document) st = (Py.Ok false, st')) as H'.
  { destruct (Doc.file_path document); [discriminate H | exact H | exact H]. }
  clear H. unfold Sys.try_except in H'.
  destruct (DocumentProcessor.process_body tools document (Doc.file_path document) st)
    as [[b|e] s1] eqn:Hb.
  - inversion H'; subst. exfalso. eapply process_body_not_false; exact Hb.
  - eauto.
Qed.

Lemma process_document_failure_recorded_witness :
  ∃ st' recorded,
    DocumentProcessor.process_document Sample.no_tools (Sample.uploaded "d2" "png")
      (Sample.processor_with "d2.png" "PNG") = (Py.Ok false, st')
    ∧ DocumentProcessor.documents st' !! "d2" = Some recorded
    ∧ Doc.status recorded = Some "error"
    ∧ Doc.error_message recorded = Some "cannot identify image file"
    ∧ ∀ rest,
        Endpoints.run_background_task Sample.no_tools
          {| Endpoints.document_processor := Sample.processor_with "d2.png" "PNG";
             Endpoints.background_tasks := Sample.uploaded "d2" "png" :: rest |}
        = {| Endpoints.document_processor := st';
             Endpoints.background_tasks := rest |}.
Proof.
  eapply (process_document_failure_recorded Sample.no_tools (Sample.uploaded "d2" "png")
            (Sample.processor_with "d2.png" "PNG")).
  - discriminate.
  - vm_compute. reflexivity.
Defined.

(** C3 as stated fails: after a terminal failure the recorded status is
    the literal ["error"], not ["failed"]. *)
Lemma process_document_failure_status_not_failed :
  (DocumentProcessor.process_document Sample.no_tools (Sample.uploaded "d2" "png")
     (Sample.processor_with "d2.png" "PNG")).1 = Py.Ok false
  ∧ Doc.status <$>
      (DocumentProcessor.documents
         (DocumentProcessor.process_document Sample.no_tools (Sample.uploaded "d2" "png")
            (Sample.processor_with "d2.png" "PNG")).2 !! "d2")
    = Some (Some "error")
  ∧ Doc.status <$>
      (DocumentProcessor.documents
         (DocumentProcessor.process_document Sample.no_tools (Sample.uploaded "d2" "png")
            (Sample.processor_with "d2.png" "PNG")).2 !! "d2")
    ≠ Some (Some "failed").
Proof.
  split; [vm_compute; reflexivity|].
  assert (Doc.status <$>
      (DocumentProcessor.documents
         (DocumentProcessor.process_document Sample.no_tools (Sample.uploaded "d2" "png")
            (Sample.processor_with "d2.png" "PNG")).2 !! "d2")
    = Some (Some "error")) as H by (vm_compute; reflexivity).
  split; [exact H|]. rewrite H. discriminate.
Qed.

(** ** PDF extraction *)

Section PdfFacts.
Import Sys Doc DocumentProcessor.
Variable tools : Tools.


Lemma write_file_unlocked (p text : string) (w : World) :
  locked w = ∅ →
  ∃ w', write_file p text w = (Py.Ok (), w') ∧ locked w' = ∅
        ∧ files w' = <[p := text]> (files w).
Proof.
  intros H. unfold write_file. simpl. rewrite H.
  rewrite bool_decide_eq_false_2 by set_solver.
  eexists. split; [reflexivity|]. simpl. auto.
Qed.

Lemma makedirs_unlocked (p : string) (w : World) :
  locked w = ∅ → ∃ w', makedirs p w = (Py.Ok (), w') ∧ locked w' = ∅.
Proof.
  intros H. unfold makedirs. simpl. rewrite H.
  rewrite bool_decide_eq_false_2 by set_solver.
  eexists. split; [reflexivity|]. simpl. auto.
Qed.

Lemma ocr_page_tesseract (image image_path : string) :
  ocr_page tools image image_path = lift (image_to_string tools image).
Proof. reflexivity. Qed.

Lemma ocr_pages_run (images_dir : string) (images texts : list string) :
  Forall2 (λ image t, image_to_string tools image = Py.Ok t) images texts →
  ∀ (i : Z) (w : World), locked w = ∅ →
  ∃ w', ocr_pages tools images_dir i images w
        = (Py.Ok (imap (λ k t, page_entry (i + Z.of_nat k + 1) t) texts), w')
        ∧ locked w' = ∅.
Proof.
  induction 1 as [|image t images texts Hocr _ IH]; intros i w Hw.
  - exists w. split; [reflexivity | exact Hw].
  - cbn [ocr_pages].
    destruct (write_file_unlocked
                (path_join images_dir ("page_" +:+ Py.str (i + 1) +:+ ".png")) image w Hw)
      as (w1 & Hwr & Hw1 & _).
    destruct (IH (i + 1) w1 Hw1) as (w2 & Hrest & Hw2).
    exists w2. split; [|exact Hw2].
    cbv zeta.
    rewrite (bind_run_Ok _ _ _ _ _ Hwr).
    erewrite bind_run_Ok by (rewrite ocr_page_tesseract; unfold lift; rewrite Hocr; reflexivity).
    erewrite bind_run_Ok by exact Hrest.
    unfold mret, st_ret, ret. rewrite imap_cons.
    replace (i + Z.of_nat 0 + 1) with (i + 1) by lia.
    match goal with
    | |- context [imap (?f ∘ S) texts] =>
        rewrite (imap_ext (f ∘ S) (λ k t, page_entry (i + 1 + Z.of_nat k + 1) t) texts)
    end.
    + reflexivity.
    + intros k x _. simpl. f_equal. lia.
Qed.

Lemma process_pdf_with_ocr_run (file_path output_dir : string) (images texts : list string) (w : World) :
  locked w = ∅ →
  convert_from_path tools file_path = Py.Ok images →
  Forall2 (λ image t, image_to_string tools image = Py.Ok t) images texts →
  ∃ w', _process_pdf_with_ocr tools file_path output_dir w
        = (Py.Ok (Py.join nl (imap (λ k t, page_entry (Z.of_nat k + 1) t) texts),
                  Z.of_nat (length images)), w').
Proof.
  intros Hw Hconv Hocr. unfold _process_pdf_with_ocr.
  destruct (makedirs_unlocked (path_join output_dir "page_images") w Hw) as (w1 & Hmk & Hw1).
  destruct (ocr_pages_run (path_join output_dir "page_images") images texts Hocr 0 w1 Hw1)
    as (w2 & Hpages & _).
  exists w2.
  erewrite bind_run_Ok by (unfold lift; rewrite Hconv; reflexivity).
  erewrite bind_run_Ok by exact Hmk.
  erewrite bind_run_Ok by exact Hpages.
  reflexivity.
Qed.


Lemma process_pdf_direct_prefix (file_path output_dir text : string) (w : World)
    (k : string → IO (string * Z)) :
  locked w = ∅ →
  pdftotext tools file_path = Py.Ok text →
  ∃ w1, locked w1 = ∅ ∧
    (out ← lift (pdftotext tools file_path);
     _ ← write_file (path_join output_dir "pdftotext_output.txt") out;
     text ← read_file (path_join output_dir "pdftotext_output.txt");
     k text) w = k text w1.
Proof.
  intros Hw Htool.
  destruct (write_file_unlocked (path_join output_dir "pdftotext_output.txt") text w Hw)
    as (w1 & Hwr & Hw1 & Hfiles).
  exists w1. split; [exact Hw1|].
  erewrite bind_run_Ok by (unfold lift; rewrite Htool; reflexivity).
  erewrite bind_run_Ok by exact Hwr.
  erewrite bind_run_Ok; [reflexivity|].
  unfold read_file. rewrite Hfiles, lookup_insert_eq. reflexivity.
Qed.

(** The PDF chain is exhausted when the text tool and the rasteriser both
    fail: the exception of the rasteriser leaves [_process_pdf]. *)
Lemma process_pdf_chain_exhausted (file_path output_dir e1 e2 : string) (w : World) :
  pdftotext tools file_path = Py.Raise e1 →
  convert_from_path tools file_path = Py.Raise e2 →
  _process_pdf tools file_path output_dir w = (Py.Raise e2, w).
Proof.
  intros Htext Hconv. unfold _process_pdf. cbv zeta.
  erewrite try_except_Raise.
  - unfold _process_pdf_with_ocr.
    erewrite bind_run_Raise by (unfold lift; rewrite Hconv; reflexivity). reflexivity.
  - erewrite bind_run_Raise by (unfold lift; rewrite Htext; reflexivity). reflexivity.
Qed.

End PdfFacts.

Section PdfClaim.
Import Sys Doc DocumentProcessor.



End PdfClaim.



(** ** Deletion *)

Section DeleteFacts.
Import VectorDatabase.

(** The public route does not touch the vector service: every search gives
    the same hits after the deletion as before. *)
Lemma public_delete_keeps_vector_service (document_id : string) (sys : System.System)
    (index : list Entry → string → Z → option (list string) →
             Py.result (list (LangchainDocument * Q)))
    (query : string) (document_ids : option (list string)) (max_results : Z) :
  System.vector_service (System.delete_document document_id sys).2
  = System.vector_service sys
  ∧ System.search index (System.delete_document document_id sys).2 query document_ids
      max_results
    = System.search index sys query document_ids max_results.
Proof.
  unfold System.delete_document, System.search.
  destruct (Endpoints.delete_document document_id (System.app sys)) as [r a].
  split; reflexivity.
Qed.

End DeleteFacts.

(** C4, evaluated on the running system with documents [A] and [B]
    indexed: before the deletion a search returns a hit for [B]; the public
    delete of [B] succeeds and the registry forgets [B]; the vector store is
    the same as before, and the same search still returns the hit that
    references [B]. *)
Theorem public_delete_leaves_chunks_searchable :
  (∃ hit, hit ∈ System.search Sample.scan_index Sample.indexed_system "topic" None 10
          ∧ VectorDatabase.document_id hit = "B")
  ∧ (System.delete_document "B" Sample.indexed_system).1
    = Endpoints.Response "Document deleted successfully"
  ∧ Endpoints.get_document "B" (System.app Sample.after_delete)
    = Endpoints.HTTPException 404 "Document not found"
  ∧ System.vector_service Sample.after_delete
    = System.vector_service Sample.indexed_system
  ∧ (∃ hit, hit ∈ System.search Sample.scan_index Sample.after_delete "topic" None 10
            ∧ VectorDatabase.document_id hit = "B"
            ∧ VectorDatabase.chunk_id hit = "B_chunk_0").
Proof.
  split.
  { eexists. split; [apply (list_elem_of_lookup_2 _ 1%nat); vm_compute; reflexivity|].
    reflexivity. }
  split; [vm_compute; reflexivity|]. split; [vm_compute; reflexivity|].
  split; [vm_compute; reflexivity|].
  eexists. split; [apply (list_elem_of_lookup_2 _ 1%nat); vm_compute; reflexivity|].
  split; reflexivity.
Qed.

(** ** Theme clustering *)

Section ThemeFacts.
Import Doc VectorDatabase Themes.

Section Run.
Variable uuid4 : nat → string.
Variable describe : list string → string.

Lemma query_theme_inv (search_results : list SearchResult) (cluster : Z * list nat)
    (theme : Theme) :
  query_theme describe search_results cluster = Some theme →
  document_count theme = count_distinct (map tc_document_id (citations theme)).
Proof.
  destruct cluster as [cluster_id result_indices]. unfold query_theme.
  destruct (mapM _ result_indices) as [cluster_results|]; [|discriminate].
  simpl. intros H. inversion H; subst; clear H. simpl.
  unfold count_distinct. do 3 f_equal.
  rewrite <- list_fmap_compose. reflexivity.
Qed.

End Run.
End ThemeFacts.


(** C1, evaluated on a search that returns two chunks of one document.
    [QueryProcessor.identify_themes] makes a theme of every cluster: it has
    no test on the number of documents of a cluster, where
    [ThemeProcessor.identify_themes] has [len(doc_ids) >= min_documents].
    The two results form a theme that counts one document, below
    [MIN_THEME_DOCUMENTS]. *)
Theorem query_processor_single_document_theme :
  ∃ theme,
    theme ∈ Themes.query_processor_identify_themes Sample.one_cluster Sample.topics
              Sample.unit_embeddings Sample.same_document_results
    ∧ Themes.document_count theme = 1
    ∧ Themes.document_count theme < config.MIN_THEME_DOCUMENTS.
Proof.
  eexists. split; [apply (list_elem_of_lookup_2 _ 0%nat); vm_compute; reflexivity|].
  split; [reflexivity|]. vm_compute. reflexivity.
Qed.

(** ** Decimal text of integers *)

Section DecimalFacts.

Lemma string_of_uint_digits (d : Decimal.uint) :
  Py.all_digits (NilEmpty.string_of_uint d) = true.
Proof. induction d; simpl; auto. Qed.

Lemma isdigit_not_space (c : ascii) : Py.isdigit c = true → Py.isspace_c c = false.
Proof.
  destruct c as [[] [] [] [] [] [] [] []]; vm_compute; congruence.
Qed.

Lemma lstrip_c_digits (s : string) : Py.all_digits s = true → Py.lstrip_c s = s.
Proof.
  destruct s as [|c r]; [reflexivity|]. simpl. intros H.
  apply andb_true_iff in H as [H _]. now rewrite (isdigit_not_space c H).
Qed.

Lemma rstrip_c_digits (s : string) : Py.all_digits s = true → Py.rstrip_c s = s.
Proof.
  induction s as [|c r IH]; [reflexivity|]. simpl. intros H.
  apply andb_true_iff in H as [Hc Hr]. rewrite (IH Hr).
  destruct r; [now rewrite (isdigit_not_space c Hc) | reflexivity].
Qed.

Lemma digits_go_acc (d : Decimal.uint) (acc : positive) :
  Py.digits_go (Z.pos acc) true (NilEmpty.string_of_uint d)
  = Some (Z.pos (Pos.of_uint_acc d acc)).
Proof.
  revert acc. induction d; intros acc; [reflexivity|..];
    cbn [NilEmpty.string_of_uint Py.digits_go Pos.of_uint_acc];
    unfold Py.isdigit, Py.digit_val; cbn [Ascii.is_nat];
    rewrite <- IHd; f_equal; lia.
Qed.

Lemma digits_go_zero (d : Decimal.uint) (b : bool) :
  d ≠ Decimal.Nil ∨ b = true →
  Py.digits_go 0 b (NilEmpty.string_of_uint d) = Some (Z.of_N (Pos.of_uint d)).
Proof.
  revert b. induction d; intros b Hb; simpl.
  - destruct Hb as [Hb| ->]; [congruence | reflexivity].
  - apply IHd. now right.
  - apply (digits_go_acc d 1).
  - apply (digits_go_acc d 2).
  - apply (digits_go_acc d 3).
  - apply (digits_go_acc d 4).
  - apply (digits_go_acc d 5).
  - apply (digits_go_acc d 6).
  - apply (digits_go_acc d 7).
  - apply (digits_go_acc d 8).
  - apply (digits_go_acc d 9).
Qed.

Lemma int_digits (d : Decimal.uint) :
  d ≠ Decimal.Nil →
  Py.int (NilEmpty.string_of_uint d) = Some (Z.of_N (Pos.of_uint d)).
Proof.
  intros Hd. unfold Py.int.
  rewrite (lstrip_c_digits _ (string_of_uint_digits d)).
  rewrite (rstrip_c_digits _ (string_of_uint_digits d)).
  pose proof (digits_go_zero d false (or_introl Hd)) as H.
  destruct d; try congruence; exact H.
Qed.

(** [int(str(n)) == n] for a natural number. *)
Lemma int_str (n : Z) : 0 <= n → Py.int (Py.str n) = Some n.
Proof.
  intros Hn. unfold Py.str. destruct n as [|p|p]; [reflexivity| |lia].
  simpl. rewrite int_digits.
  - now rewrite DecimalPos.Unsigned.of_to.
  - intros H. pose proof (DecimalPos.Unsigned.of_to p) as E. rewrite H in E. discriminate.
Qed.

End DecimalFacts.

(** ** Citation lookup *)

Section CitationFacts.
Import EnhancedCitation CitationSearch.
Variable chunk_text : string.

Lemma visit_sentences (p : string * Paragraph) (sentences : list (string * Sentence)) (b : Best) :
  foldl (visit_sentence chunk_text p) b sentences
  = foldl (visit chunk_text) b
      (map (λ s, {| cand_paragraph := p; cand_sentence := Some s |}) sentences).
Proof.
  revert b. induction sentences as [|s sentences IH]; intros b; [reflexivity|].
  simpl. rewrite <- IH. reflexivity.
Qed.

Lemma visit_paragraph_candidates (granularity : string) (b : Best) (p : string * Paragraph) :
  visit_paragraph chunk_text granularity b p
  = foldl (visit chunk_text) b (paragraph_candidates granularity p).
Proof.
  unfold visit_paragraph, paragraph_candidates.
  destruct (bool_decide (granularity = "sentence")); simpl.
  - rewrite visit_sentences. reflexivity.
  - reflexivity.
Qed.

Lemma loop_as_candidates (granularity : string) (ps : list (string * Paragraph)) (b : Best) :
  foldl (visit_paragraph chunk_text granularity) b ps
  = foldl (visit chunk_text) b (concat (map (paragraph_candidates granularity) ps)).
Proof.
  revert b. induction ps as [|p ps IH]; intros b; [reflexivity|].
  cbn [map concat foldl]. rewrite foldl_app, <- visit_paragraph_candidates. apply IH.
Qed.

Lemma visit_score (b : Best) (c : Candidate) :
  (best_score b <= best_score (visit chunk_text b c))%Q
  ∧ (cand_score chunk_text c <= best_score (visit chunk_text b c))%Q.
Proof.
  unfold visit. destruct (Qlt_le_dec (best_score b) (cand_score chunk_text c)) as [H|H]; simpl.
  - split; [now apply Qlt_le_weak | apply Qle_refl].
  - split; [apply Qle_refl | exact H].
Qed.

(** After the loop either nothing beat the starting score, or the best
    match is the first candidate of highest score, and it beat it. *)
Lemma loop_first_best (cs : list Candidate) (b0 : Best) :
  (foldl (visit chunk_text) b0 cs = b0
   ∧ ∀ c, c ∈ cs → (cand_score chunk_text c <= best_score b0)%Q)
  ∨ (∃ k c, first_best chunk_text cs k c
            ∧ foldl (visit chunk_text) b0 cs = best_of chunk_text c
            ∧ (best_score b0 < cand_score chunk_text c)%Q).
Proof.
  revert b0. induction cs as [|c0 cs IH]; intros b0.
  - left. split; [reflexivity|]. intros c Hc. inversion Hc.
  - simpl. destruct (visit_score b0 c0) as [Hmono Hc0].
    destruct (IH (visit chunk_text b0 c0)) as [[Hsame Hle]|(k & c & (Hk & Hmax & Hearly) & Hb & Hlt)].
    + rewrite Hsame. unfold visit in *.
      destruct (Qlt_le_dec (best_score b0) (cand_score chunk_text c0)) as [H|H].
      * right. exists 0%nat, c0. split; [|split; [reflexivity | exact H]].
        split; [reflexivity|]. split.
        -- intros c' Hc'. apply elem_of_cons in Hc' as [->|Hc']; [apply Qle_refl|].
           now apply Hle.
        -- intros j c' Hj. lia.
      * left. split; [reflexivity|]. intros c Hc.
        apply elem_of_cons in Hc as [->|Hc]; [exact H | now apply Hle].
    + right. exists (S k), c. split; [|split; [exact Hb|]].
      * split; [exact Hk|]. split.
        -- intros c' Hc'. apply elem_of_cons in Hc' as [->|Hc']; [|now apply Hmax].
           apply Qlt_le_weak. eapply Qle_lt_trans; [exact Hc0 | exact Hlt].
        -- intros j c' Hj Hlook. destruct j as [|j]; simpl in Hlook.
           ++ inversion Hlook; subst. eapply Qle_lt_trans; [exact Hc0 | exact Hlt].
           ++ eapply Hearly; [|exact Hlook]. lia.
      * eapply Qle_lt_trans; [exact Hmono | exact Hlt].
Qed.

Lemma first_best_unique (cs : list Candidate) (k k' : nat) (c c' : Candidate) :
  first_best chunk_text cs k c → first_best chunk_text cs k' c' → k = k' ∧ c = c'.
Proof.
  intros (Hk & Hmax & Hearly) (Hk' & Hmax' & Hearly').
  assert (k = k') as ->.
  { destruct (Nat.lt_trichotomy k k') as [Hlt|[Heq|Hgt]]; [|exact Heq|].
    - exfalso. apply (Qlt_irrefl (cand_score chunk_text c')).
      eapply Qle_lt_trans; [|exact (Hearly' k c Hlt Hk)].
      apply Hmax. eapply list_elem_of_lookup_2, Hk'.
    - exfalso. apply (Qlt_irrefl (cand_score chunk_text c)).
      eapply Qle_lt_trans; [|exact (Hearly k' c' Hgt Hk')].
      apply Hmax'. eapply list_elem_of_lookup_2, Hk. }
  split; [reflexivity|]. congruence.
Qed.

Lemma render_text (document_id granularity : string) (c : Candidate) (i : Z) :
  Py.int (cand_paragraph c).1 = Some i →
  match cand_sentence c with
  | None =>
      render document_id granularity (best_of chunk_text c) (cand_paragraph c).2
      = citation_text granularity (p_page (cand_paragraph c).2) i None
  | Some s =>
      ∀ j, Py.int s.1 = Some j →
      render document_id granularity (best_of chunk_text c) (cand_paragraph c).2
      = citation_text granularity (p_page (cand_paragraph c).2) i (Some j)
  end.
Proof.
  intros Hi. unfold render, citation_text, one_based, best_of. simpl. rewrite Hi. simpl.
  destruct (cand_sentence c) as [s|]; simpl.
  - intros j Hj. rewrite Hj. simpl.
    destruct (bool_decide (granularity = "page")); [reflexivity|].
    destruct (bool_decide (granularity = "paragraph")) eqn:Hp.
    + apply bool_decide_eq_true in Hp. subst. reflexivity.
    + reflexivity.
  - destruct (bool_decide (granularity = "page")); [reflexivity|].
    destruct (bool_decide (granularity = "paragraph")); [reflexivity|].
    destruct (bool_decide (granularity = "sentence")); reflexivity.
Qed.

End CitationFacts.

Section Claim.
Import EnhancedCitation CitationSearch.

Lemma get_citation_loop (st : State) (document_id chunk_text granularity : string)
    (data : CitationData) :
  citation_metadata st !! document_id = Some data →
  granularity ≠ "document" →
  ((∀ c, c ∈ candidates granularity data → (cand_score chunk_text c == 0)%Q) →
     get_citation st document_id chunk_text granularity
     = "Document: " +:+ cd_document_title data)
  ∧ (∀ k c i,
       first_best chunk_text (candidates granularity data) k c →
       (0 < cand_score chunk_text c)%Q →
       Py.int (cand_paragraph c).1 = Some i →
       match cand_sentence c with
       | None =>
           get_citation st document_id chunk_text granularity
           = citation_text granularity (p_page (cand_paragraph c).2) i None
       | Some s =>
           ∀ j, Py.int s.1 = Some j →
           get_citation st document_id chunk_text granularity
           = citation_text granularity (p_page (cand_paragraph c).2) i (Some j)
       end).
Proof.
  intros Hdata Hg.
  assert (get_citation st document_id chunk_text granularity
          = match best_match (foldl (visit chunk_text) no_match (candidates granularity data)) with
            | None => "Document: " +:+ cd_document_title data
            | Some m => render document_id granularity
                          (foldl (visit chunk_text) no_match (candidates granularity data)) m
            end) as Hget.
  { unfold get_citation. rewrite Hdata.
    rewrite bool_decide_eq_false_2 by exact Hg.
    rewrite loop_as_candidates. reflexivity. }
  destruct (loop_first_best chunk_text (candidates granularity data) no_match)
    as [[Hsame Hle]|(k' & c' & Hfirst & Hb & Hlt)].
  - split.
    + intros _. rewrite Hget, Hsame. reflexivity.
    + intros k c i (Hk & _) Hpos _. exfalso.
      apply (Qlt_irrefl 0). eapply Qlt_le_trans; [exact Hpos|].
      apply (Hle c). eapply list_elem_of_lookup_2, Hk.
  - split.
    + intros Hzero. exfalso. destruct Hfirst as (Hk' & _).
      apply (Qlt_irrefl 0). eapply Qlt_le_trans; [exact Hlt|].
      rewrite (Hzero c'); [apply Qle_refl|]. eapply list_elem_of_lookup_2, Hk'.
    + intros k c i Hc Hpos Hi.
      destruct (first_best_unique chunk_text _ _ _ _ _ Hc Hfirst) as [_ <-].
      rewrite Hget, Hb. simpl.
      exact (render_text chunk_text document_id granularity c i Hi).
Qed.

(** *** Keys of a built index *)

Lemma sentence_entries_keys (sentences : list string) (key : string) (s : Sentence) :
  (key, s) ∈ sentence_entries sentences → key = Py.str (s_index s) ∧ 0 <= s_index s.
Proof.
  unfold sentence_entries. rewrite list_elem_of_omap. intros ([j x] & _ & H). simpl in H.
  destruct (Py.truthy (Py.strip x)); [|discriminate]. inversion H; subst. simpl.
  split; [reflexivity | lia].
Qed.

Lemma paragraph_entry_keyed (d : Doc.Document) (total : Z) (i : nat) (paragraph : string)
    (e : string * Paragraph) :
  paragraph_entry d total i paragraph = Py.Ok (Some e) → keyed e.
Proof.
  unfold paragraph_entry. destruct (negb _); [discriminate|].
  destruct (resolve_page d total (Z.of_nat i) paragraph) as [page|msg]; simpl; [|discriminate].
  intros H. inversion H; subst; clear H. unfold keyed. simpl.
  split; [reflexivity|]. split; [lia|]. apply sentence_entries_keys.
Qed.

Lemma paragraph_entries_keyed (d : Doc.Document) (total : Z) (paragraphs : list string)
    (i : nat) (entries : list (string * Paragraph)) :
  paragraph_entries d total i paragraphs = Py.Ok entries → Forall keyed entries.
Proof.
  revert i entries. induction paragraphs as [|p ps IH]; intros i entries H; simpl in H.
  - inversion H. constructor.
  - destruct (paragraph_entry d total i p) as [e|msg] eqn:He; simpl in H; [|discriminate].
    destruct (paragraph_entries d total (S i) ps) as [more|msg] eqn:Hm; simpl in H;
      [|discriminate].
    inversion H; subst; clear H. destruct e as [e|].
    + constructor; [eapply paragraph_entry_keyed, He | eapply IH, Hm].
    + eapply IH, Hm.
Qed.

Lemma build_index_keyed (d : Doc.Document) (text : string) (data : CitationData) :
  build_index d text = Py.Ok data → Forall keyed (cd_paragraphs data).
Proof.
  unfold build_index.
  destruct (paragraph_entries d _ 0 (_split_into_paragraphs text)) as [entries|msg] eqn:H;
    simpl; [|discriminate].
  intros E. inversion E; subst; clear E. simpl. eapply paragraph_entries_keyed, H.
Qed.

Lemma candidate_keys (granularity : string) (data : CitationData) (c : Candidate) :
  Forall keyed (cd_paragraphs data) →
  c ∈ candidates granularity data →
  Py.int (cand_paragraph c).1 = Some (p_index (cand_paragraph c).2)
  ∧ ∀ s, cand_sentence c = Some s → Py.int s.1 = Some (s_index s.2).
Proof.
  intros Hk Hc. unfold candidates in Hc.
  apply list_elem_of_In, in_concat in Hc as (l & Hl & Hc).
  apply list_elem_of_In in Hl, Hc.
  apply list_elem_of_fmap in Hl as (p & -> & Hp).
  rewrite Forall_forall in Hk. destruct (Hk p Hp) as (Hkey & Hidx & Hsent).
  unfold paragraph_candidates in Hc. apply elem_of_cons in Hc as [->|Hc]; simpl.
  - split; [rewrite Hkey; now apply int_str | discriminate].
  - destruct (bool_decide (granularity = "sentence")); [|inversion Hc].
    apply list_elem_of_fmap in Hc as ([key s] & -> & Hs). simpl.
    split; [rewrite Hkey; now apply int_str|].
    intros s' E. inversion E; subst. simpl. destruct (Hsent key s Hs) as [-> Hpos].
    now apply int_str.
Qed.

Lemma first_best_check_sound (chunk_text : string) (cs : list Candidate) (k : nat)
    (c : Candidate) :
  cs !! k = Some c → first_best_check chunk_text cs k c = true →
  first_best chunk_text cs k c.
Proof.
  intros Hk H. apply andb_true_iff in H as [Hall Hearly].
  rewrite forallb_forall in Hall, Hearly.
  split; [exact Hk|]. split.
  - intros c' Hc'. apply Qle_bool_iff, Hall. now apply list_elem_of_In.
  - intros j c' Hj Hlook. apply Qnot_le_lt. intros Hle.
    apply Qle_bool_iff in Hle.
    assert (In c' (take k cs)) as Hin.
    { apply list_elem_of_In. eapply list_elem_of_lookup_2.
      rewrite lookup_take_lt by exact Hj. exact Hlook. }
    specialize (Hearly c' Hin). rewrite Hle in Hearly. discriminate.
Qed.

(** C6, as the code has it.  For a document indexed by [process_document]
    and a granularity other than ["document"]: the candidates are the
    paragraphs in index order, each followed at sentence granularity by its
    sentences.  When no candidate has a non-zero overlap with the chunk the
    citation is that of the document.  Otherwise the citation is that of the
    first candidate of highest overlap: the page, the page and paragraph, or
    (at sentence granularity, when that candidate is a sentence) the page,
    paragraph and sentence; when it is a paragraph the paragraph form is
    used. *)
Theorem get_citation_first_best (st : State) (d : Doc.Document) (text : string)
    (document_id chunk_text granularity : string) (data : CitationData) :
  build_index d text = Py.Ok data →
  citation_metadata st !! document_id = Some data →
  granularity ≠ "document" →
  ((∀ c, c ∈ candidates granularity data → (cand_score chunk_text c == 0)%Q) →
     get_citation st document_id chunk_text granularity
     = "Document: " +:+ cd_document_title data)
  ∧ (∀ k c,
       first_best chunk_text (candidates granularity data) k c →
       (0 < cand_score chunk_text c)%Q →
       get_citation st document_id chunk_text granularity
       = citation_text granularity (p_page (cand_paragraph c).2)
           (p_index (cand_paragraph c).2) (s_index <$> (snd <$> cand_sentence c))).
Proof.
  intros Hbuilt Hdata Hg.
  destruct (get_citation_loop st document_id chunk_text granularity data Hdata Hg)
    as [Hnone Hsome].
  split; [exact Hnone|]. intros k c Hfirst Hpos.
  assert (c ∈ candidates granularity data) as Hc
    by (destruct Hfirst as [Hk _]; eapply list_elem_of_lookup_2, Hk).
  destruct (candidate_keys granularity data c (build_index_keyed _ _ _ Hbuilt) Hc)
    as [Hi Hj].
  specialize (Hsome k c _ Hfirst Hpos Hi).
  destruct (cand_sentence c) as [s|]; simpl.
  - apply Hsome, Hj. reflexivity.
  - exact Hsome.
Qed.
End Claim.

Lemma get_citation_first_best_witness :
  EnhancedCitation.get_citation Sample.citation_service "Z" "dogs bark" "sentence"
  = CitationSearch.citation_text "sentence" 1 0 (Some 1)
  ∧ CitationSearch.citation_text "sentence" 1 0 (Some 1) = "Page 1, Paragraph 1, Sentence 2".
Proof.
  split; [|vm_compute; reflexivity].
  refine (proj2 (get_citation_first_best Sample.citation_service (Sample.registered "Z")
                   Sample.animals_text "Z" "dogs bark" "sentence" (Sample.index_of "Z")
                   _ _ _) 2%nat
            {| CitationSearch.cand_paragraph :=
                 ("0", {| EnhancedCitation.p_index := 0; EnhancedCitation.p_page := 1;
                          EnhancedCitation.p_text := "Cats purr. Dogs bark loudly.";
                          EnhancedCitation.p_sentence_count := 2;
                          EnhancedCitation.p_sentences :=
                            [("0", {| EnhancedCitation.s_index := 0;
                                      EnhancedCitation.s_text := "Cats purr." |});
                             ("1", {| EnhancedCitation.s_index := 1;
                                      EnhancedCitation.s_text := "Dogs bark loudly." |})] |});
               CitationSearch.cand_sentence :=
                 Some ("1", {| EnhancedCitation.s_index := 1;
                               EnhancedCitation.s_text := "Dogs bark loudly." |}) |} _ _).
  - vm_compute. reflexivity.
  - vm_compute. reflexivity.
  - discriminate.
  - apply first_best_check_sound; vm_compute; reflexivity.
  - vm_compute. reflexivity.
Defined.

(** C6 as stated fails at sentence granularity: the only sentence of the
    paragraph has overlap 1 with the chunk, the highest there is, and the
    citation returned is the paragraph form, since the sentence does not
    beat its own paragraph. *)
Lemma get_citation_sentence_tie_not_cited :
  (EnhancedCitation._similarity_score "hello world" "hello world." == 1)%Q
  ∧ EnhancedCitation.get_citation Sample.citation_service "G" "hello world" "sentence"
    = "Page 1, Paragraph 1"
  ∧ CitationSearch.locate_spec (Sample.index_of "G") "hello world" "sentence"
    = "Page 1, Paragraph 1, Sentence 1"
  ∧ EnhancedCitation.get_citation Sample.citation_service "G" "hello world" "sentence"
    ≠ CitationSearch.locate_spec (Sample.index_of "G") "hello world" "sentence".
Proof.
  split; [vm_compute; reflexivity|].
  assert (EnhancedCitation.get_citation Sample.citation_service "G" "hello world" "sentence"
          = "Page 1, Paragraph 1") as H1 by (vm_compute; reflexivity).
  assert (CitationSearch.locate_spec (Sample.index_of "G") "hello world" "sentence"
          = "Page 1, Paragraph 1, Sentence 1") as H2 by (vm_compute; reflexivity).
  split; [exact H1|]. split; [exact H2|]. rewrite H1, H2. discriminate.
Qed.

(** ** Determinism of the citation index *)

Section IndexFacts.
Import EnhancedCitation.

Lemma process_document_result (w : Sys.World) (d : Doc.Document) (s : State) :
  process_document w d s = (false, s)
  ∨ ∃ data, process_document w d s
            = (true, {| citation_metadata := <[Doc.id d := data]> (citation_metadata s) |})
            ∧ ∀ s', process_document w d s'
                    = (true, {| citation_metadata := <[Doc.id d := data]> (citation_metadata s') |}).
Proof.
  unfold process_document.
  destruct (negb (bool_decide (Doc.status d = Some "processed"))); [now left|].
  destruct (Doc.processed_path d) as [| |dir]; [now left | now left|].
  destruct (Sys.files w !! Sys.path_join dir "extracted_text.txt") as [text|]; [|now left].
  destruct (build_index d text) as [data|msg]; [|now left].
  right. exists data. split; [reflexivity|]. intros s'. reflexivity.
Qed.

End IndexFacts.

(** C9. The segmentation is a function of the text alone: identical texts
    give identical paragraph lists, identical sentence lists per paragraph
    and identical indexes.  Indexing a document gives the same outcome and
    the same stored index whatever the service held before, and indexing it
    a second time changes nothing. *)
Theorem citation_index_deterministic (w : Sys.World) (d : Doc.Document)
    (s1 s2 : EnhancedCitation.State) (text1 text2 : string) :
  text1 = text2 →
  (EnhancedCitation._split_into_paragraphs text1
   = EnhancedCitation._split_into_paragraphs text2
   ∧ map EnhancedCitation._split_into_sentences (EnhancedCitation._split_into_paragraphs text1)
     = map EnhancedCitation._split_into_sentences (EnhancedCitation._split_into_paragraphs text2)
   ∧ EnhancedCitation.build_index d text1 = EnhancedCitation.build_index d text2)
  ∧ ((EnhancedCitation.process_document w d s1).1 = (EnhancedCitation.process_document w d s2).1
     ∧ ((EnhancedCitation.process_document w d s1).1 = true →
        EnhancedCitation.citation_metadata (EnhancedCitation.process_document w d s1).2
          !! Doc.id d
        = EnhancedCitation.citation_metadata (EnhancedCitation.process_document w d s2).2
            !! Doc.id d))
  ∧ EnhancedCitation.process_document w d (EnhancedCitation.process_document w d s1).2
    = EnhancedCitation.process_document w d s1.
Proof.
  intros ->. split; [auto|].
  destruct (process_document_result w d s1) as [Hfail|(data & Hok & Hany)].
  - assert (EnhancedCitation.process_document w d s2 = (false, s2)) as Hfail2.
    { destruct (process_document_result w d s2) as [H|(data & _ & Hany)]; [exact H|].
      rewrite Hany in Hfail. discriminate. }
    rewrite Hfail, Hfail2. simpl. rewrite Hfail. split; [split|]; [reflexivity| |reflexivity].
    discriminate.
  - rewrite Hok, (Hany s2). simpl. rewrite !lookup_insert_eq.
    split; [split; reflexivity|].
    rewrite Hany. simpl. now rewrite insert_insert_eq.
Qed.

Lemma citation_index_deterministic_witness :
  EnhancedCitation._split_into_paragraphs Sample.animals_text
  = EnhancedCitation._split_into_paragraphs Sample.animals_text
  ∧ EnhancedCitation.process_document
      (DocumentProcessor.world (Endpoints.document_processor Sample.citation_app))
      (Sample.registered "Z")
      (EnhancedCitation.process_document
         (DocumentProcessor.world (Endpoints.document_processor Sample.citation_app))
         (Sample.registered "Z") Sample.citation_service).2
    = EnhancedCitation.process_document
        (DocumentProcessor.world (Endpoints.document_processor Sample.citation_app))
        (Sample.registered "Z") Sample.citation_service.
Proof.
  destruct (citation_index_deterministic
              (DocumentProcessor.world (Endpoints.document_processor Sample.citation_app))
              (Sample.registered "Z") Sample.citation_service Sample.citation_service
              Sample.animals_text Sample.animals_text eq_refl) as [[H _] [_ H']].
  exact (conj H H').
Defined.

(** * Further properties of the code *)

(** ** Stripping and segmentation *)

Section StripFacts.
Import Derived.

Lemma rstrip_idem (s : string) : Py.rstrip (Py.rstrip s) = Py.rstrip s.
Proof.
  induction s as [|c r IH]; [reflexivity|].
  cbn [Py.rstrip]. destruct (Py.rstrip r) as [|c' t] eqn:E.
  - destruct (Py.isspace c) eqn:Ec; [reflexivity|].
    cbn [Py.rstrip]. rewrite Ec. reflexivity.
  - cbn [Py.rstrip] in IH |- *.
    destruct (Py.rstrip t) as [|c'' t'] eqn:Et.
    + destruct (Py.isspace c') eqn:Ec'; [discriminate|]. rewrite IH. reflexivity.
    + rewrite IH. reflexivity.
Qed.

Lemma lstrip_no_leading (s : string) : no_leading_space (Py.lstrip s).
Proof.
  induction s as [|c r IH]; [exact I|].
  cbn [Py.lstrip]. destruct (Py.isspace c) eqn:E; [exact IH|exact E].
Qed.

Lemma lstrip_fixed (s : string) : no_leading_space s → Py.lstrip s = s.
Proof. destruct s as [|c r]; [reflexivity|]. cbn. intros ->. reflexivity. Qed.

Lemma rstrip_no_leading (s : string) : no_leading_space s → no_leading_space (Py.rstrip s).
Proof.
  destruct s as [|c r]; [intros; exact I|]. cbn [no_leading_space Py.rstrip]. intros E.
  destruct (Py.rstrip r); [rewrite E|]; exact E.
Qed.

Lemma strip_idem (s : string) : Py.strip (Py.strip s) = Py.strip s.
Proof.
  unfold Py.strip.
  rewrite (lstrip_fixed (Py.rstrip (Py.lstrip s))).
  - apply rstrip_idem.
  - apply rstrip_no_leading, lstrip_no_leading.
Qed.

Lemma strip_nonempty_elem (pieces : list string) (p : string) :
  p ∈ EnhancedCitation.strip_nonempty pieces → Py.truthy p = true ∧ Py.strip p = p.
Proof.
  unfold EnhancedCitation.strip_nonempty. rewrite list_elem_of_omap.
  intros (q & _ & Hq). destruct (Py.truthy (Py.strip q)) eqn:E; [|discriminate].
  injection Hq as <-. split; [exact E|apply strip_idem].
Qed.

End StripFacts.

Section IndexComplete.
Import EnhancedCitation Derived.

Lemma split_into_paragraphs_stripped (text p : string) :
  p ∈ _split_into_paragraphs text → Py.truthy p = true ∧ Py.strip p = p.
Proof. apply strip_nonempty_elem. Qed.

Lemma split_into_sentences_stripped (paragraph s : string) :
  s ∈ _split_into_sentences paragraph → Py.truthy s = true ∧ Py.strip s = s.
Proof. apply strip_nonempty_elem. Qed.

(** X3. The segments of [_split_into_paragraphs] and of
    [_split_into_sentences] are never empty and carry no white space at
    either end: stripping one again changes nothing. *)
Theorem segments_are_stripped (text p : string) :
  p ∈ _split_into_paragraphs text ∨ p ∈ _split_into_sentences text →
  p ≠ "" ∧ Py.strip p = p.
Proof.
  intros H.
  assert (Py.truthy p = true ∧ Py.strip p = p) as [Ht Hs]
    by (destruct H as [H|H]; eapply strip_nonempty_elem, H).
  split; [|exact Hs]. intros ->. discriminate Ht.
Qed.

Lemma sentence_entries_all_go (g : nat → nat) (sentences : list string) :
  Forall (λ s, Py.truthy (Py.strip s) = true) sentences →
  omap (λ js : nat * string,
          if Py.truthy (Py.strip js.2)
          then Some (Py.str (Z.of_nat js.1), {| s_index := Z.of_nat js.1; s_text := js.2 |})
          else None)
       (imap (λ j s, (g j, s)) sentences)
  = imap (λ j s, sentence_at (g j) s) sentences.
Proof.
  intros H. revert g. induction H as [|s l Hs _ IH]; intros g; [reflexivity|].
  rewrite !imap_cons. cbn [omap list_omap fst snd]. rewrite Hs. f_equal.
  apply (IH (g ∘ S)).
Qed.

Lemma sentence_entries_all (paragraph : string) :
  sentence_entries (_split_into_sentences paragraph)
  = imap sentence_at (_split_into_sentences paragraph).
Proof.
  unfold sentence_entries. apply (sentence_entries_all_go (λ j, j)).
  apply Forall_forall. intros s Hs.
  destruct (split_into_sentences_stripped _ _ Hs) as [Ht Hst]. rewrite Hst. exact Ht.
Qed.


Lemma imap_sentence_at_texts (g : nat → nat) (l : list string) :
  map (λ s : string * Sentence, s_text s.2) (imap (λ j s, sentence_at (g j) s) l) = l.
Proof.
  revert g. induction l as [|x l IH]; intros g; [reflexivity|].
  rewrite imap_cons. cbn [map sentence_at snd s_text]. f_equal. apply (IH (g ∘ S)).
Qed.

Lemma paragraph_entry_stored (d : Doc.Document) (total : Z) (i : nat) (paragraph : string)
    (r : option (string * Paragraph)) :
  Py.truthy (Py.strip paragraph) = true →
  paragraph_entry d total i paragraph = Py.Ok r →
  ∃ e, r = Some e ∧ e.1 = Py.str (Z.of_nat i) ∧ p_index e.2 = Z.of_nat i
       ∧ p_text e.2 = paragraph
       ∧ p_sentence_count e.2 = Z.of_nat (length (p_sentences e.2))
       ∧ map (λ s : string * Sentence, s_text s.2) (p_sentences e.2)
         = _split_into_sentences paragraph.
Proof.
  intros Ht. unfold paragraph_entry. rewrite Ht. cbn [negb].
  destruct (resolve_page d total (Z.of_nat i) paragraph) as [page|msg]; [|discriminate].
  cbn [Py.bind]. intros [= <-]. eexists. split; [reflexivity|].
  cbn [fst snd p_index p_text p_sentence_count p_sentences].
  rewrite sentence_entries_all, length_imap.
  repeat split. apply (imap_sentence_at_texts (λ j, j)).
Qed.

Lemma paragraph_entries_stored (d : Doc.Document) (total : Z) (rest : list string) :
  Forall (λ p, Py.truthy (Py.strip p) = true) rest →
  ∀ (i : nat) (entries : list (string * Paragraph)),
    paragraph_entries d total i rest = Py.Ok entries →
    length entries = length rest
    ∧ ∀ j e, entries !! j = Some e →
        e.1 = Py.str (Z.of_nat (i + j)) ∧ p_index e.2 = Z.of_nat (i + j)
        ∧ rest !! j = Some (p_text e.2)
        ∧ p_sentence_count e.2 = Z.of_nat (length (p_sentences e.2))
        ∧ map (λ s : string * Sentence, s_text s.2) (p_sentences e.2)
          = _split_into_sentences (p_text e.2).
Proof.
  induction 1 as [|p rest Hp _ IH]; intros i entries.
  - intros [= <-]. split; [reflexivity|]. intros j e. rewrite lookup_nil. discriminate.
  - cbn [paragraph_entries].
    destruct (paragraph_entry d total i p) as [r|msg] eqn:E; [|discriminate].
    destruct (paragraph_entry_stored _ _ _ _ _ Hp E) as (e0 & -> & Hk & Hi & Ht & Hc & Hs).
    cbn [Py.bind].
    destruct (paragraph_entries d total (S i) rest) as [more|msg] eqn:E'; [|discriminate].
    cbn [Py.bind]. intros [= <-].
    destruct (IH _ _ E') as [Hlen Hall]. split; [cbn; congruence|].
    intros [|j] e; cbn [lookup list_lookup].
    + intros [= <-]. rewrite Nat.add_0_r, Ht. repeat split; assumption.
    + intros He. destruct (Hall _ _ He) as (? & ? & ? & ? & ?).
      rewrite <- Nat.add_succ_comm. repeat split; assumption.
Qed.

(** X4. The index that [process_document] builds keeps every paragraph of
    the segmentation and every sentence of each paragraph: the guards that
    skip blank segments never fire.  The entry at position [i] has the key
    [str(i)], the index [i] and the text of paragraph [i];
    [paragraph_count] is the number of entries and [sentence_count] the
    number of stored sentences, which are the sentences of the paragraph in
    order. *)
Theorem build_index_keeps_every_paragraph (d : Doc.Document) (text : string)
    (data : CitationData) :
  build_index d text = Py.Ok data →
  let paragraphs := _split_into_paragraphs text in
  cd_paragraph_count data = Z.of_nat (length (cd_paragraphs data))
  ∧ length (cd_paragraphs data) = length paragraphs
  ∧ ∀ i e, cd_paragraphs data !! i = Some e →
      e.1 = Py.str (Z.of_nat i) ∧ p_index e.2 = Z.of_nat i
      ∧ paragraphs !! i = Some (p_text e.2)
      ∧ p_sentence_count e.2 = Z.of_nat (length (p_sentences e.2))
      ∧ map (λ s : string * Sentence, s_text s.2) (p_sentences e.2)
        = _split_into_sentences (p_text e.2).
Proof.
  intros H paragraphs. unfold build_index in H. fold paragraphs in H.
  destruct (paragraph_entries d (Z.of_nat (length paragraphs)) 0 paragraphs)
    as [entries|msg] eqn:E; [|discriminate].
  cbn [Py.bind] in H. injection H as <-. cbn [cd_paragraph_count cd_paragraphs].
  assert (Forall (λ p, Py.truthy (Py.strip p) = true) paragraphs) as Hall.
  { apply Forall_forall. intros p Hp.
    destruct (split_into_paragraphs_stripped _ _ Hp) as [Ht Hs]. rewrite Hs. exact Ht. }
  destruct (paragraph_entries_stored _ _ _ Hall _ _ E) as [Hlen Hes].
  split; [congruence|]. split; [exact Hlen|]. intros i e He. exact (Hes _ _ He).
Qed.

Lemma resolve_page_known (d : Doc.Document) (total i pc : Z) (paragraph : string) :
  Doc.page_count d = Some pc → ∃ n, resolve_page d total i paragraph = Py.Ok n.
Proof.
  intros H. unfold resolve_page. rewrite H.
  destruct (_extract_page_number paragraph) as [n|]; [destruct (n =? 0)|]; eauto.
Qed.

Lemma paragraph_entries_known (d : Doc.Document) (total pc : Z) (rest : list string) (i : nat) :
  Doc.page_count d = Some pc → ∃ entries, paragraph_entries d total i rest = Py.Ok entries.
Proof.
  intros H. revert i. induction rest as [|p rest IH]; intros i; [eexists; reflexivity|].
  cbn [paragraph_entries]. unfold paragraph_entry.
  destruct (negb (Py.truthy (Py.strip p))).
  - cbn [Py.bind]. destruct (IH (S i)) as [more ->]. eexists; reflexivity.
  - destruct (resolve_page_known d total (Z.of_nat i) pc p H) as [n ->].
    cbn [Py.bind]. destruct (IH (S i)) as [more ->]. eexists; reflexivity.
Qed.

Lemma build_index_known (d : Doc.Document) (text : string) (pc : Z) :
  Doc.page_count d = Some pc → ∃ data, build_index d text = Py.Ok data.
Proof.
  intros H. unfold build_index.
  destruct (paragraph_entries_known d (Z.of_nat (length (_split_into_paragraphs text))) pc
              (_split_into_paragraphs text) 0 H) as [entries ->].
  eexists; reflexivity.
Qed.

End IndexComplete.

Lemma segments_are_stripped_witness :
  "Birds sing." ≠ "" ∧ Py.strip "Birds sing." = "Birds sing.".
Proof.
  apply (segments_are_stripped Sample.animals_text "Birds sing.").
  left. apply list_elem_of_In. vm_compute. right. left. reflexivity.
Defined.

Lemma build_index_keeps_every_paragraph_witness :
  EnhancedCitation.cd_paragraph_count (Sample.index_of "Z")
  = Z.of_nat (length (EnhancedCitation.cd_paragraphs (Sample.index_of "Z")))
  ∧ length (EnhancedCitation.cd_paragraphs (Sample.index_of "Z"))
    = length (EnhancedCitation._split_into_paragraphs Sample.animals_text).
Proof.
  destruct (build_index_keeps_every_paragraph (Sample.registered "Z") Sample.animals_text
              (Sample.index_of "Z")) as (H1 & H2 & _).
  - vm_compute. reflexivity.
  - exact (conj H1 H2).
Defined.

(** ** The overlap score *)

Section SimilarityFacts.
Import EnhancedCitation Derived.

Lemma word_set_NoDup (text : string) : NoDup (word_set text).
Proof. apply NoDup_remove_dups. Qed.

Lemma common_words_elem (text1 text2 w : string) :
  w ∈ common_words text1 text2 ↔ w ∈ word_set text1 ∧ w ∈ word_set text2.
Proof.
  unfold common_words. rewrite !list_elem_of_In, filter_In, bool_decide_eq_true.
  rewrite !list_elem_of_In. reflexivity.
Qed.

Lemma all_words_elem (text1 text2 w : string) :
  w ∈ all_words text1 text2 ↔ w ∈ word_set text1 ∨ w ∈ word_set text2.
Proof. unfold all_words. rewrite elem_of_remove_dups, elem_of_app. reflexivity. Qed.

Lemma common_words_NoDup (text1 text2 : string) : NoDup (common_words text1 text2).
Proof.
  unfold common_words. apply NoDup_ListNoDup, List.NoDup_filter, NoDup_ListNoDup, word_set_NoDup.
Qed.

Lemma all_words_NoDup (text1 text2 : string) : NoDup (all_words text1 text2).
Proof. apply NoDup_remove_dups. Qed.

Lemma common_words_sym (text1 text2 : string) :
  length (common_words text1 text2) = length (common_words text2 text1).
Proof.
  apply Permutation_length, NoDup_Permutation; try apply common_words_NoDup.
  intros w. rewrite !common_words_elem. tauto.
Qed.

Lemma all_words_sym (text1 text2 : string) :
  length (all_words text1 text2) = length (all_words text2 text1).
Proof.
  apply Permutation_length, NoDup_Permutation; try apply all_words_NoDup.
  intros w. rewrite !all_words_elem. tauto.
Qed.

Lemma common_le_all (text1 text2 : string) :
  (length (common_words text1 text2) <= length (all_words text1 text2))%nat.
Proof.
  apply submseteq_length, NoDup_submseteq; [apply common_words_NoDup|].
  intros w. rewrite common_words_elem, all_words_elem. tauto.
Qed.

Lemma word_set_le_all (text1 text2 : string) :
  (length (word_set text1) <= length (all_words text1 text2))%nat.
Proof.
  apply submseteq_length, NoDup_submseteq; [apply word_set_NoDup|].
  intros w. rewrite all_words_elem. tauto.
Qed.

(** The score as a quotient of the two counts. *)
Lemma similarity_score_counts (text1 text2 : string) :
  word_set text1 ≠ [] → word_set text2 ≠ [] →
  _similarity_score text1 text2
  = Z.of_nat (length (common_words text1 text2))
    # Pos.of_nat (length (all_words text1 text2)).
Proof.
  intros H1 H2. unfold _similarity_score.
  pose proof (word_set_le_all text1 text2) as Hle.
  fold (common_words text1 text2). fold (all_words text1 text2).
  destruct (word_set text1) as [|w1 l1] eqn:E1; [congruence|].
  destruct (word_set text2) as [|w2 l2] eqn:E2; [congruence|].
  cbn [length] in Hle.
  destruct (0 <? length (all_words text1 text2))%nat eqn:E; [reflexivity|].
  apply Nat.ltb_ge in E. lia.
Qed.

Lemma similarity_score_empty (text1 text2 : string) :
  word_set text1 = [] ∨ word_set text2 = [] → _similarity_score text1 text2 = 0%Q.
Proof.
  unfold _similarity_score. intros [-> | ->]; [reflexivity|].
  destruct (word_set text1); reflexivity.
Qed.

(** X1. [_similarity_score] is symmetric in its two texts and lies between
    0 and 1. *)
Theorem similarity_score_symmetric_bounded (text1 text2 : string) :
  _similarity_score text1 text2 = _similarity_score text2 text1
  ∧ (0 <= _similarity_score text1 text2 <= 1)%Q.
Proof.
  destruct (decide (word_set text1 = [])) as [E1|E1];
    [rewrite !similarity_score_empty by auto; split; [reflexivity|split; discriminate]|].
  destruct (decide (word_set text2 = [])) as [E2|E2];
    [rewrite !similarity_score_empty by auto; split; [reflexivity|split; discriminate]|].
  rewrite !similarity_score_counts by assumption.
  rewrite (common_words_sym text2 text1), (all_words_sym text2 text1).
  split; [reflexivity|].
  pose proof (common_le_all text1 text2) as Hle.
  pose proof (word_set_le_all text1 text2) as Hpos.
  assert (0 < length (word_set text1))%nat as Hw
    by (destruct (word_set text1); [congruence|cbn; lia]).
  unfold Qle. cbn [Qnum Qden].
  rewrite !Z.mul_1_r, Z.mul_1_l.
  split; [lia|].
  assert (Z.pos (Pos.of_nat (length (all_words text1 text2)))
          = Z.of_nat (length (all_words text1 text2))) as ->.
  { rewrite <- positive_nat_Z, Nat2Pos.id by lia. reflexivity. }
  lia.
Qed.

Lemma similarity_score_zero_iff (text1 text2 : string) :
  (_similarity_score text1 text2 == 0)%Q
  ↔ ∀ w, w ∈ word_set text1 → w ∈ word_set text2 → False.
Proof.
  destruct (decide (word_set text1 = [])) as [E1|E1].
  { rewrite similarity_score_empty by auto. split; [|reflexivity].
    intros _ w. rewrite E1. intros H%elem_of_nil. destruct H. }
  destruct (decide (word_set text2 = [])) as [E2|E2].
  { rewrite similarity_score_empty by auto. split; [|reflexivity].
    intros _ w _. rewrite E2. intros H%elem_of_nil. destruct H. }
  rewrite similarity_score_counts by assumption.
  unfold Qeq. cbn [Qnum Qden]. rewrite Z.mul_1_r, Z.mul_0_l.
  split.
  - intros H w H1 H2.
    assert (w ∈ common_words text1 text2) as Hw by (apply common_words_elem; auto).
    destruct (common_words text1 text2); [apply elem_of_nil in Hw; exact Hw|cbn in H; lia].
  - intros H. destruct (common_words text1 text2) as [|w l] eqn:E; [reflexivity|].
    exfalso. assert (w ∈ common_words text1 text2) as Hw by (rewrite E; left).
    apply common_words_elem in Hw. destruct Hw. eauto.
Qed.

Lemma similarity_score_one_iff (text1 text2 : string) :
  (_similarity_score text1 text2 == 1)%Q
  ↔ word_set text1 ≠ [] ∧ ∀ w, w ∈ word_set text1 ↔ w ∈ word_set text2.
Proof.
  destruct (decide (word_set text1 = [])) as [E1|E1].
  { rewrite similarity_score_empty by auto. split; [discriminate|]. intros [H _]. contradiction. }
  destruct (decide (word_set text2 = [])) as [E2|E2].
  { rewrite similarity_score_empty by auto. split; [discriminate|].
    intros [_ H]. destruct (word_set text1) as [|w l]; [contradiction|].
    assert (w ∈ word_set text2) as Hw by (apply H; left).
    rewrite E2 in Hw. apply elem_of_nil in Hw. contradiction. }
  rewrite similarity_score_counts by assumption.
  pose proof (common_le_all text1 text2) as Hle.
  pose proof (word_set_le_all text1 text2) as Hpos.
  assert (0 < length (word_set text1))%nat as Hw
    by (destruct (word_set text1); [congruence|cbn; lia]).
  unfold Qeq. cbn [Qnum Qden]. rewrite Z.mul_1_r, Z.mul_1_l.
  assert (Z.pos (Pos.of_nat (length (all_words text1 text2)))
          = Z.of_nat (length (all_words text1 text2))) as ->.
  { rewrite <- positive_nat_Z, Nat2Pos.id by lia. reflexivity. }
  split.
  - intros H. split; [assumption|].
    assert (all_words text1 text2 ≡ₚ common_words text1 text2) as HP.
    { symmetry. apply submseteq_length_Permutation; [|lia].
      apply NoDup_submseteq; [apply common_words_NoDup|].
      intros w. rewrite common_words_elem, all_words_elem. tauto. }
    intros w. split; intros Hin.
    + assert (w ∈ all_words text1 text2) as H' by (apply all_words_elem; auto).
      rewrite HP in H'. apply common_words_elem in H'. tauto.
    + assert (w ∈ all_words text1 text2) as H' by (apply all_words_elem; auto).
      rewrite HP in H'. apply common_words_elem in H'. tauto.
  - intros [_ H]. f_equal. apply Permutation_length, NoDup_Permutation;
      [apply common_words_NoDup|apply all_words_NoDup|].
    intros w. rewrite common_words_elem, all_words_elem. rewrite <- H. tauto.
Qed.

(** X2. The extremes of [_similarity_score]: the score is 0 exactly when
    the two texts have no word in common (in particular when one of them
    has no word at all), and 1 exactly when they have the same words and at
    least one. *)
Theorem similarity_score_extremes (text1 text2 : string) :
  ((_similarity_score text1 text2 == 0)%Q
   ↔ ∀ w, w ∈ word_set text1 → w ∈ word_set text2 → False)
  ∧ ((_similarity_score text1 text2 == 1)%Q
     ↔ word_set text1 ≠ [] ∧ ∀ w, w ∈ word_set text1 ↔ w ∈ word_set text2).
Proof.
  split; [apply similarity_score_zero_iff|apply similarity_score_one_iff].
Qed.

End SimilarityFacts.

(** ** Page markers *)

Section MarkerFacts.
Import EnhancedCitation.

Lemma str_all_digits (n : Z) : 0 <= n → Py.all_digits (Py.str n) = true.
Proof.
  intros Hn. unfold Py.str.
  destruct n as [|p|p]; [reflexivity| |lia].
  cbn [Z.to_int NilEmpty.string_of_int]. apply string_of_uint_digits.
Qed.

Lemma str_truthy (n : Z) : 0 <= n → Py.truthy (Py.str n) = true.
Proof.
  intros Hn. pose proof (int_str n Hn) as H.
  destruct (Py.str n); [discriminate H|reflexivity].
Qed.

Lemma append_nil_l (s : string) : "" +:+ s = s.
Proof. reflexivity. Qed.

Lemma append_cons (c : ascii) (s t : string) : String c s +:+ t = String c (s +:+ t).
Proof. reflexivity. Qed.

Lemma take_digits_app (d rest : string) :
  Py.all_digits d = true →
  match rest with String c _ => Py.isdigit c = false | EmptyString => True end →
  take_digits (d +:+ rest) = (d, rest).
Proof.
  intros Hd Hrest. induction d as [|c d IH].
  - destruct rest as [|c r]; [reflexivity|].
    rewrite append_nil_l. cbn [take_digits]. rewrite Hrest. reflexivity.
  - cbn [Py.all_digits] in Hd. apply andb_true_iff in Hd as [Hc Hd].
    rewrite append_cons. cbn [take_digits]. rewrite Hc, (IH Hd). reflexivity.
Qed.

Lemma substring_all (s : string) : String.substring 0 (String.length s) s = s.
Proof. induction s as [|c s IH]; [reflexivity|]. cbn. rewrite IH. reflexivity. Qed.

Lemma marker_at_entry (d rest : string) :
  Py.all_digits d = true → Py.truthy d = true →
  marker_at ("--- Page " +:+ d +:+ " ---" +:+ rest)
  = Some (d, (9 + String.length d + 4)%nat).
Proof.
  intros Hd Ht. unfold marker_at, drop_prefix.
  rewrite !append_cons, append_nil_l. cbn [String.prefix String.length].
  repeat (destruct (ascii_dec _ _) as [_|n]; [|exfalso; apply n; reflexivity]).
  cbn [Nat.sub String.substring mbind option_bind].
  rewrite Nat.sub_0_r, substring_all.
  assert (∀ s, String.prefix "" s = true) as Hp by (intros []; reflexivity).
  rewrite Hp. cbn [mbind option_bind].
  rewrite (take_digits_app d _ Hd) by reflexivity.
  rewrite Ht. cbn [String.prefix].
  repeat (destruct (ascii_dec _ _) as [_|n]; [|exfalso; apply n; reflexivity]).
  rewrite Hp. reflexivity.
Qed.

(** The marker line the OCR fallback writes for a page is read back by
    [_extract_page_number]. *)
Lemma extract_page_entry (n : Z) (rest : string) :
  0 <= n →
  _extract_page_number ("--- Page " +:+ Py.str n +:+ " ---" +:+ rest) = Some n.
Proof.
  intros Hn.
  pose proof (marker_at_entry (Py.str n) rest (str_all_digits n Hn) (str_truthy n Hn)) as H.
  remember ("--- Page " +:+ Py.str n +:+ " ---" +:+ rest) as text.
  destruct text as [|c r]; cbn [_extract_page_number]; rewrite H; apply int_str, Hn.
Qed.


Lemma append_assoc (a b c : string) : (a +:+ b) +:+ c = a +:+ b +:+ c.
Proof. induction a as [|x a IH]; [reflexivity|]. rewrite !append_cons, IH. reflexivity. Qed.

Lemma digit_not_marker_char (c : ascii) :
  Py.isdigit c = true → c ≠ "-"%char ∧ c ≠ " "%char ∧ Ascii.eqb c "010" = false.
Proof.
  destruct c as [[] [] [] [] [] [] [] []]; vm_compute; intros H; try discriminate H;
    repeat split; discriminate.
Qed.

Lemma split_char_marker_line (d rest : string) :
  Py.all_digits d = true →
  Py.split_char "010" (d +:+ " ---" +:+ DocumentProcessor.nl +:+ rest)
  = (d +:+ " ---") :: Py.split_char "010" rest.
Proof.
  intros Hd. induction d as [|c d IH].
  - reflexivity.
  - cbn [Py.all_digits] in Hd. apply andb_true_iff in Hd as [Hc Hd].
    change (Py.split_char "010" (String c (d +:+ " ---" +:+ DocumentProcessor.nl +:+ rest))
            = String c (d +:+ " ---") :: Py.split_char "010" rest).
    cbn [Py.split_char].
    destruct (digit_not_marker_char c Hc) as (_ & _ & ->). rewrite (IH Hd). reflexivity.
Qed.

Lemma replace_prefix_digits (d : string) :
  Py.all_digits d = true →
  Py.replace_go "--- Page " "" 0 (d +:+ " ---") = d +:+ " ---".
Proof.
  intros Hd. induction d as [|c d IH].
  - reflexivity.
  - cbn [Py.all_digits] in Hd. apply andb_true_iff in Hd as [Hc Hd].
    change (Py.replace_go "--- Page " "" 0 (String c (d +:+ " ---")) = String c (d +:+ " ---")).
    cbn [Py.replace_go String.prefix].
    destruct (digit_not_marker_char c Hc) as (Hm & _ & _).
    destruct (ascii_dec "-" c) as [E|_]; [congruence|]. rewrite (IH Hd). reflexivity.
Qed.

Lemma replace_suffix_digits (d : string) :
  Py.all_digits d = true →
  Py.replace_go " ---" "" 0 (d +:+ " ---") = d.
Proof.
  intros Hd. induction d as [|c d IH].
  - reflexivity.
  - cbn [Py.all_digits] in Hd. apply andb_true_iff in Hd as [Hc Hd].
    change (Py.replace_go " ---" "" 0 (String c (d +:+ " ---")) = String c d).
    cbn [Py.replace_go String.prefix].
    destruct (digit_not_marker_char c Hc) as (_ & Hs & _).
    destruct (ascii_dec " " c) as [E|_]; [congruence|]. rewrite (IH Hd). reflexivity.
Qed.

Lemma marker_prefix_chars (x : string) :
  "--- Page " +:+ x
  = String "-" (String "-" (String "-" (String " " (String "P" (String "a"
      (String "g" (String "e" (String " " x)))))))).
Proof. reflexivity. Qed.

Lemma marker_page_entry (n : Z) (page_text more : string) :
  0 <= n →
  VectorDatabase.marker_page
    (Py.split_char "010" (DocumentProcessor.page_entry n page_text +:+ more))
  = Some n.
Proof.
  intros Hn. unfold DocumentProcessor.page_entry.
  rewrite !append_assoc, marker_prefix_chars.
  pose proof (split_char_marker_line (Py.str n) (page_text +:+ DocumentProcessor.nl +:+ more)
                (str_all_digits n Hn)) as H.
  cbn [Py.split_char Ascii.eqb Bool.eqb].
  rewrite H. cbn [VectorDatabase.marker_page].
  unfold Py.startswith. cbn [String.prefix].
  repeat (destruct (ascii_dec _ _) as [_|ne]; [|exfalso; apply ne; reflexivity]).
  assert (∀ s, String.prefix "" s = true) as Hp by (intros []; reflexivity).
  rewrite Hp. unfold Py.replace. cbn [Py.replace_go String.prefix String.length Nat.pred].
  repeat (destruct (ascii_dec _ _) as [_|ne]; [|exfalso; apply ne; reflexivity]).
  rewrite Hp. rewrite append_nil_l.
  rewrite (replace_prefix_digits _ (str_all_digits n Hn)).
  rewrite (replace_suffix_digits _ (str_all_digits n Hn)).
  rewrite (int_str n Hn). reflexivity.
Qed.

Lemma string_length_app (a b : string) :
  String.length (a +:+ b) = (String.length a + String.length b)%nat.
Proof. induction a as [|c a IH]; [reflexivity|]. rewrite append_cons. cbn. now rewrite IH. Qed.

Lemma append_nil_r (s : string) : s +:+ "" = s.
Proof. induction s as [|c s IH]; [reflexivity|]. rewrite append_cons, IH. reflexivity. Qed.

Lemma wrap_inside (u r : string) :
  u ≠ "" →
  wrap_markers_go (String.length u) (u +:+ r) = u +:+ nl +:+ wrap_markers_go 0 r.
Proof.
  induction u as [|c u IH]; [congruence|]. intros _.
  rewrite append_cons. cbn [String.length wrap_markers_go]. f_equal.
  destruct u as [|c' u].
  - reflexivity.
  - rewrite IH by discriminate. reflexivity.
Qed.

(** The substitution of [_split_into_paragraphs] on a text that starts with
    a marker line. *)
Lemma wrap_markers_head (d rest : string) :
  Py.all_digits d = true → Py.truthy d = true →
  wrap_markers ("--- Page " +:+ d +:+ " ---" +:+ nl +:+ rest)
  = nl +:+ ("--- Page " +:+ d +:+ " ---") +:+ nl +:+ nl +:+ wrap_markers_go 0 rest.
Proof.
  intros Hd Ht. unfold wrap_markers.
  pose proof (marker_at_entry d (nl +:+ rest) Hd Ht) as Hm.
  set (tail := "-- Page " +:+ d +:+ " ---").
  assert ("--- Page " +:+ d +:+ " ---" +:+ nl +:+ rest = String "-" (tail +:+ nl +:+ rest)) as E.
  { unfold tail. rewrite !append_assoc. reflexivity. }
  rewrite E in Hm |- *. cbn [wrap_markers_go]. rewrite Hm.
  assert (9 + String.length d + 4 = S (String.length tail))%nat as ->.
  { unfold tail. rewrite !string_length_app. cbn [String.length]. lia. }
  assert (tail ≠ "") as Hne by (unfold tail; discriminate).
  assert (close_marker (String.length tail) = "") as ->.
  { destruct tail; [congruence|reflexivity]. }
  rewrite append_nil_l, (wrap_inside tail (nl +:+ rest) Hne).
  assert (wrap_markers_go 0 (nl +:+ rest) = nl +:+ wrap_markers_go 0 rest) as -> by reflexivity.
  assert ("--- Page " +:+ d +:+ " ---" = String "-" tail) as -> by reflexivity.
  rewrite !append_cons. reflexivity.
Qed.

Lemma re_split_go_nonempty (m : option ascii → string → option nat) (s : string) :
  ∀ prev k, re_split_go m prev k s ≠ [].
Proof.
  induction s as [|c r IH]; intros prev k; [discriminate|].
  cbn [re_split_go]. destruct k as [|k]; [|apply IH].
  destruct (m prev (String c r)) as [[|j]|]; try discriminate.
  - destruct (re_split_go m (Some c) 0 r); discriminate.
  - destruct (re_split_go m (Some c) 0 r); discriminate.
Qed.

Lemma re_split_go_prev (p1 p2 : option ascii) (k : nat) (s : string) :
  re_split_go blank_line_at p1 k s = re_split_go blank_line_at p2 k s.
Proof. destruct s as [|c r]; [reflexivity|]. destruct k; reflexivity. Qed.

(** Characters other than the newline are copied to the current piece. *)
Lemma re_split_plain (u s : string) (prev : option ascii) :
  Derived.no_newline u = true →
  ∃ p ps, re_split_go blank_line_at None 0 s = p :: ps
          ∧ re_split_go blank_line_at prev 0 (u +:+ s) = (u +:+ p) :: ps.
Proof.
  revert prev. induction u as [|c u IH]; intros prev Hu.
  - destruct (re_split_go blank_line_at None 0 s) as [|p ps] eqn:E;
      [destruct (re_split_go_nonempty _ _ _ _ E)|].
    exists p, ps. split; [reflexivity|].
    rewrite !append_nil_l, (re_split_go_prev prev None). exact E.
  - cbn [Derived.no_newline] in Hu. apply andb_true_iff in Hu as [Hc Hu].
    apply negb_true_iff in Hc.
    destruct (IH (Some c) Hu) as (p & ps & Hs & Hrun).
    exists p, ps. split; [exact Hs|].
    rewrite !append_cons. cbn [re_split_go blank_line_at]. rewrite Hc, Hrun. reflexivity.
Qed.

Lemma last_newline_end_gt (s : string) :
  ∀ n m, last_newline_end n s = Some m → (n < m)%nat.
Proof.
  induction s as [|c r IH]; intros n m; [discriminate|].
  cbn [last_newline_end]. destruct (Py.isspace c); [|discriminate].
  destruct (last_newline_end (S n) r) as [m'|] eqn:E.
  - intros [= <-]. apply IH in E. lia.
  - destruct (Ascii.eqb c "010"); [|discriminate]. intros [= <-]. lia.
Qed.

Lemma rstrip_last (u : string) (c : ascii) :
  Py.isspace c = false → Py.rstrip (u +:+ String c "") = u +:+ String c "".
Proof.
  intros Hc. induction u as [|a u IH].
  - rewrite append_nil_l. cbn [Py.rstrip]. rewrite Hc. reflexivity.
  - rewrite append_cons. cbn [Py.rstrip]. rewrite IH.
    destruct u; reflexivity.
Qed.

Lemma no_newline_digits (d : string) : Py.all_digits d = true → Derived.no_newline d = true.
Proof.
  induction d as [|c d IH]; [reflexivity|]. cbn [Py.all_digits Derived.no_newline].
  intros H. apply andb_true_iff in H as [Hc Hd].
  destruct (digit_not_marker_char c Hc) as (_ & _ & ->). cbn. apply IH, Hd.
Qed.

Lemma no_newline_app (a b : string) :
  Derived.no_newline a = true → Derived.no_newline b = true → Derived.no_newline (a +:+ b) = true.
Proof.
  intros Ha Hb. induction a as [|c a IH]; [exact Hb|].
  rewrite append_cons. cbn [Derived.no_newline] in Ha |- *.
  apply andb_true_iff in Ha as [Hc Ha]. rewrite Hc, (IH Ha). reflexivity.
Qed.

(** A text that starts with a marker line followed by a newline: the marker
    is cut out as the first paragraph. *)
Lemma split_into_paragraphs_marker_head (d rest : string) :
  Py.all_digits d = true → Py.truthy d = true →
  ∃ more, _split_into_paragraphs ("--- Page " +:+ d +:+ " ---" +:+ nl +:+ rest)
          = ("--- Page " +:+ d +:+ " ---") :: more.
Proof.
  intros Hd Ht. unfold _split_into_paragraphs. cbv zeta.
  rewrite (wrap_markers_head d rest Hd Ht).
  set (marker := "--- Page " +:+ d +:+ " ---").
  set (wrapped_rest := wrap_markers_go 0 rest).
  assert (Derived.no_newline marker = true) as Hplain.
  { unfold marker. apply no_newline_app; [reflexivity|].
    apply no_newline_app; [apply no_newline_digits, Hd|reflexivity]. }
  assert (∃ tail, marker = String "-" tail) as [tail Hhead] by (eexists; reflexivity).
  destruct (re_split_plain marker (nl +:+ nl +:+ wrapped_rest) (Some "010"%char) Hplain)
    as (p & ps & Hp & Hrun).
  assert (p = "") as ->.
  { change (nl +:+ nl +:+ wrapped_rest) with (String "010" (String "010" wrapped_rest)) in Hp.
    cbn [re_split_go blank_line_at] in Hp.
    change (Ascii.eqb "010" "010") with true in Hp. cbn [last_newline_end] in Hp.
    change (Py.isspace "010") with true in Hp.
    change (Ascii.eqb "010" "010") with true in Hp.
    destruct (last_newline_end 2 wrapped_rest) as [m|] eqn:E.
    - apply last_newline_end_gt in E. destruct m as [|m]; [lia|]. injection Hp as <- _.
      reflexivity.
    - injection Hp as <- _. reflexivity. }
  rewrite append_nil_r in Hrun.
  assert (re_split blank_line_at (nl +:+ marker +:+ nl +:+ nl +:+ wrapped_rest)
          = String "010" marker :: ps) as ->.
  { unfold re_split.
    change (nl +:+ marker +:+ nl +:+ nl +:+ wrapped_rest)
      with (String "010" (marker +:+ nl +:+ nl +:+ wrapped_rest)).
    cbn [re_split_go blank_line_at]. change (Ascii.eqb "010" "010") with true.
    rewrite Hrun.
    assert (last_newline_end 1 (marker +:+ nl +:+ nl +:+ wrapped_rest) = None) as ->.
    { rewrite Hhead, append_cons. reflexivity. }
    reflexivity. }
  exists (strip_nonempty ps). unfold strip_nonempty. cbn [omap list_omap].
  assert (Py.strip (String "010" marker) = marker) as ->.
  { unfold Py.strip. cbn [Py.lstrip]. change (Py.isspace "010") with true. cbv iota.
    rewrite Hhead. cbn [Py.lstrip]. change (Py.isspace "-") with false. cbv iota.
    rewrite <- Hhead. unfold marker.
    change ("--- Page " +:+ d +:+ " ---") with ("--- Page " +:+ d +:+ (" --" +:+ String "-" "")).
    rewrite <- !append_assoc. apply rstrip_last. reflexivity. }
  rewrite Hhead. cbn [Py.truthy]. reflexivity.
Qed.

(** X5. The entry [--- Page n ---] and the text of page [n] that the OCR
    fallback writes are read back by the two indexers in different ways.
    The citation service cuts the marker line out as a paragraph of its own:
    for a text that starts with the entry it is the first paragraph, and it
    is resolved to page [n] whatever the page count and the position.  The
    vector service stores a chunk that starts with the entry with page
    [n]. *)
Theorem ocr_page_marker_read_back (d : Doc.Document) (n total i : Z) (j : nat)
    (page_text more : string) :
  1 <= n →
  (∃ rest, _split_into_paragraphs (DocumentProcessor.page_entry n page_text +:+ more)
           = Derived.marker_line n :: rest)
  ∧ resolve_page d total i (Derived.marker_line n) = Py.Ok n
  ∧ VectorDatabase.md_page
      (VectorDatabase.metadata
         (VectorDatabase.make_chunk d total j
            (DocumentProcessor.page_entry n page_text +:+ more)))
    = Some n.
Proof.
  intros Hn. split; [|split].
  - unfold DocumentProcessor.page_entry, Derived.marker_line. rewrite !append_assoc.
    apply (split_into_paragraphs_marker_head (Py.str n)
             (page_text +:+ DocumentProcessor.nl +:+ more));
      [apply str_all_digits|apply str_truthy]; lia.
  - unfold resolve_page.
    assert (_extract_page_number (Derived.marker_line n) = Some n) as ->.
    { apply (extract_page_entry n ""). lia. }
    destruct (Z.eqb_spec n 0); [lia|reflexivity].
  - unfold VectorDatabase.make_chunk. cbn [VectorDatabase.metadata VectorDatabase.md_page].
    unfold VectorDatabase.page_info. rewrite marker_page_entry by lia.
    unfold VectorDatabase.or_one. destruct (Z.eqb_spec n 0); [lia|reflexivity].
Qed.

End MarkerFacts.

Lemma ocr_page_marker_read_back_witness :
  (∃ rest, EnhancedCitation._split_into_paragraphs
             (DocumentProcessor.page_entry 2 "Alpha." +:+ "")
           = Derived.marker_line 2 :: rest)
  ∧ EnhancedCitation.resolve_page Sample.scan_document 6 3 (Derived.marker_line 2) = Py.Ok 2
  ∧ VectorDatabase.md_page
      (VectorDatabase.metadata
         (VectorDatabase.make_chunk Sample.scan_document 6 3
            (DocumentProcessor.page_entry 2 "Alpha." +:+ "")))
    = Some 2.
Proof.
  apply (ocr_page_marker_read_back Sample.scan_document 2 6 3 3 "Alpha." ""). lia.
Defined.

(** ** The vector collection *)

Section VectorStoreFacts.
Import Doc VectorDatabase Derived.

Lemma omap_imap_total {A B C} (F : B → option C) (g : nat → A → B) (h : nat → A → C)
    (l : list A) :
  (∀ i x, l !! i = Some x → F (g i x) = Some (h i x)) →
  omap F (imap g l) = imap h l.
Proof.
  revert g h. induction l as [|x l IH]; intros g h H; [reflexivity|].
  rewrite !imap_cons. cbn [omap list_omap]. rewrite (H 0%nat x eq_refl).
  f_equal. apply IH. intros i y Hy. apply (H (S i) y Hy).
Qed.

Lemma map_imap {A B C} (g : B → C) (f : nat → A → B) (l : list A) :
  map g (imap f l) = imap (λ i x, g (f i x)) l.
Proof.
  revert f. induction l as [|x l IH]; intros f; [reflexivity|].
  rewrite !imap_cons. cbn [map]. f_equal. apply IH.
Qed.

Section Service.
Variable split_text : string → list string.
Variable embed : string → list Q.

Lemma db_add_documents_Ok (db : list Entry) (docs : list LangchainDocument) :
  docs ≠ [] →
  db_add_documents embed db docs
  = Py.Ok (db ++ map (λ c, {| entry_doc := c; entry_embedding := embed (page_content c) |})
                   docs).
Proof. destruct docs; [congruence|reflexivity]. Qed.

(** The state after a successful [add_document]. *)
Lemma add_document_state (w : Sys.World) (d : Document) (s s' : State) :
  add_document split_text embed w d s = (true, s') →
  ∃ dir text,
    status d = Some "processed" ∧ processed_path d = PyStr dir
    ∧ Sys.files w !! Sys.path_join dir "extracted_text.txt" = Some text
    ∧ split_text text ≠ []
    ∧ vector_db s' =
        vector_db s ++
        imap (stored_entry embed d (Z.of_nat (length (split_text text)))) (split_text text)
    ∧ chunk_metadata s' =
        <[id d := imap (λ i _, chunk_id_of d i) (split_text text)]> (chunk_metadata s).
Proof.
  unfold add_document. intros H.
  destruct (bool_decide (status d = Some "processed")) eqn:Hst; cbn [negb] in H; [|congruence].
  apply bool_decide_eq_true in Hst.
  destruct (processed_path d) as [| |dir]; try congruence.
  destruct (Sys.files w !! Sys.path_join dir "extracted_text.txt") as [text|] eqn:Hf;
    [|congruence].
  exists dir, text.
  assert (split_text text ≠ []) as Hne.
  { intros E. unfold db_add_documents, chunks_of in H. rewrite E in H. discriminate H. }
  assert (chunks_of split_text d text ≠ []) as Hdocs.
  { unfold chunks_of. destruct (split_text text); [congruence|discriminate]. }
  rewrite (db_add_documents_Ok _ _ Hdocs) in H.
  injection H as <-. cbn [vector_db chunk_metadata].
  unfold chunks_of. rewrite map_imap.
  rewrite (omap_imap_total _ _ (λ i _, chunk_id_of d i)) by reflexivity.
  repeat split; auto.
Qed.

(** A document without chunks is not added: the collection refuses the
    empty batch. *)
Lemma add_document_no_chunks (w : Sys.World) (d : Document) (dir text : string) (s : State) :
  processed_path d = PyStr dir →
  Sys.files w !! Sys.path_join dir "extracted_text.txt" = Some text →
  split_text text = [] →
  add_document split_text embed w d s = (false, s).
Proof.
  intros Hp Hf Hsplit. unfold add_document. rewrite Hp, Hf.
  destruct (negb _); [reflexivity|].
  unfold db_add_documents, chunks_of. rewrite Hsplit. reflexivity.
Qed.

Lemma add_document_chunks (w : Sys.World) (d : Document) (dir text : string) (s : State) :
  status d = Some "processed" →
  processed_path d = PyStr dir →
  Sys.files w !! Sys.path_join dir "extracted_text.txt" = Some text →
  split_text text ≠ [] →
  (add_document split_text embed w d s).1 = true.
Proof.
  intros Hst Hp Hf Hsplit. unfold add_document. rewrite Hp, Hf.
  rewrite bool_decide_eq_true_2 by exact Hst. cbn [negb].
  unfold db_add_documents, chunks_of.
  destruct (split_text text) as [|c chunks]; [congruence|reflexivity].
Qed.

End Service.

Lemma embeddings_of_raises (db : list Entry) (chunk_ids : list string) :
  chunk_ids ≠ [] → ∃ e, embeddings_of db chunk_ids = Py.Raise e.
Proof. destruct chunk_ids as [|c l]; [congruence|]. intros _. eexists. reflexivity. Qed.

Lemma get_document_embeddings_nil (s : State) (document_id : string) :
  get_document_embeddings s document_id = [].
Proof.
  unfold get_document_embeddings.
  destruct (default [] (chunk_metadata s !! document_id)) as [|c l] eqn:E; [reflexivity|].
  destruct (embeddings_of_raises (vector_db s) (c :: l)) as [e ->]; [discriminate|reflexivity].
Qed.

Lemma delete_chunks_raises (db : list Entry) (chunk_ids : list string) :
  chunk_ids ≠ [] → ∃ e, delete_chunks db chunk_ids = (Py.Raise e, db).
Proof. destruct chunk_ids as [|c l]; [congruence|]. intros _. eexists. reflexivity. Qed.

Section Stored.
Variable split_text : string → list string.
Variable embed : string → list Q.



End Stored.

End VectorStoreFacts.


(** ** Processing a document *)

Section ProcessFacts.
Import Sys Doc DocumentProcessor Derived.
Variable tools : Tools.

Lemma write_file_Ok (p text : string) (w w' : World) :
  write_file p text w = (Py.Ok (), w') →
  files w' = <[p := text]> (files w) ∧ dirs w' = dirs w ∧ locked w' = locked w.
Proof.
  unfold write_file. cbn. destruct (bool_decide (p ∈ locked w)); [discriminate|].
  intros [= <-]. auto.
Qed.

(** What a run of the [try] block that reaches [return True] has done. *)
Lemma process_body_true (document : Document) (fp : field) (st st' : State) :
  process_body tools document fp st = (Py.Ok true, st') →
  ∃ p text pc w1 w2,
    fp = PyStr p
    ∧ makedirs (processed_dir_of document) (world st) = (Py.Ok (), w1)
    ∧ extraction tools (Py.lower (file_type document)) p (processed_dir_of document) w1
      = (Py.Ok (text, pc), w2)
    ∧ write_file (text_file_of document) text w2 = (Py.Ok (), world st')
    ∧ documents st'
      = <[id document := set_processed document (processed_dir_of document) pc
                           (now tools) (Py.len text)]> (documents st).
Proof.
  unfold process_body. intros H.
  apply bind_Ok in H as ([] & s1 & H1 & H).
  apply bind_Ok in H as (p & s2 & H2 & H).
  apply bind_Ok in H as ([text pc] & s3 & H3 & H).
  apply bind_Ok in H as ([] & s4 & H4 & H).
  apply bind_Ok in H as ([] & s5 & H5 & H).
  apply bind_Ok in H as ([] & s6 & H6 & H).
  apply io_inv in H1 as (w1 & H1 & ->).
  assert (fp = PyStr p ∧ s2 = set_world w1 st) as [-> ->].
  { destruct fp; try discriminate H2. injection H2 as <- <-. auto. }
  apply io_inv in H3 as (w2 & H3 & ->).
  apply io_inv in H4 as (w3 & H4 & ->).
  unfold store_document in H5. injection H5 as <-.
  match type of H6 with
  | _save_documents ?x = _ => destruct (save_documents_run x) as (s' & Hs & Hd & Hw)
  end.
  rewrite Hs in H6. injection H6 as <-. injection H as <-.
  exists p, text, pc, w1, w2. split; [reflexivity|]. split; [exact H1|].
  split; [exact H3|]. rewrite Hw, Hd. cbn. split; [exact H4|reflexivity].
Qed.


Lemma process_document_true_inv (document : Document) (st st' : State) :
  process_document tools document st = (Py.Ok true, st') →
  process_body tools document (file_path document) st = (Py.Ok true, st').
Proof.
  intros H. unfold process_document in H.
  assert (try_except (process_body tools document (file_path document))
            (process_failed document) st = (Py.Ok true, st')) as H'.
  { destruct (file_path document); [discriminate H|exact H|exact H]. }
  clear H. unfold try_except in H'.
  destruct (process_body tools document (file_path document) st) as [[b|e] s1] eqn:Hb.
  - exact H'.
  - destruct (process_failed_run document e s1) as (s2 & Hrun & _). rewrite Hrun in H'.
    discriminate H'.
Qed.

(** X9. A document for which [process_document] returned [True] can be
    indexed: the registry holds it with status ["processed"] and its
    processed directory, the extracted text is on disk in that directory
    and [text_length] is its length; [process_document] of the citation
    service returns [True] for the registered document, and [add_document]
    of the vector service returns [True] exactly when the splitter finds at
    least one chunk in the text (the collection refuses an empty batch, so
    an empty extracted text is processed but not added). *)
Theorem processed_document_is_indexable (document : Document) (st st' : State)
    (split_text : string → list string) (embed : string → list Q)
    (vs : VectorDatabase.State) (cs : EnhancedCitation.State) :
  process_document tools document st = (Py.Ok true, st') →
  ∃ recorded text,
    get_document (id document) st' = Some recorded
    ∧ status recorded = Some "processed"
    ∧ processed_path recorded = PyStr (path_join config.PROCESSED_DIR (id document))
    ∧ files (world st')
        !! path_join (path_join config.PROCESSED_DIR (id document)) "extracted_text.txt"
      = Some text
    ∧ text_length recorded = Some (Py.len text)
    ∧ ((VectorDatabase.add_document split_text embed (world st') recorded vs).1 = true
       ↔ split_text text ≠ [])
    ∧ (EnhancedCitation.process_document (world st') recorded cs).1 = true.
Proof.
  intros H. apply process_document_true_inv, process_body_true in H
    as (p & text & pc & w1 & w2 & _ & _ & _ & Hw & Hd).
  apply write_file_Ok in Hw as (Hf & _).
  assert (files (world st') !! text_file_of document = Some text) as Hfile
    by (rewrite Hf; apply lookup_insert_eq).
  exists (set_processed document (processed_dir_of document) pc (now tools) (Py.len text)), text.
  split; [unfold get_document; rewrite Hd; apply lookup_insert_eq|].
  split; [reflexivity|]. split; [reflexivity|]. split; [exact Hfile|].
  split; [reflexivity|]. split.
  - set (recorded := set_processed document (processed_dir_of document) pc (now tools)
                         (Py.len text)).
    split.
    + intros Hadd Hsplit.
      rewrite (add_document_no_chunks split_text embed (world st') recorded
                 (processed_dir_of document) text vs eq_refl Hfile Hsplit) in Hadd.
      discriminate Hadd.
    + intros Hsplit.
      apply (add_document_chunks split_text embed (world st') recorded
               (processed_dir_of document) text vs eq_refl eq_refl Hfile Hsplit).
  - unfold EnhancedCitation.process_document. cbn [status processed_path set_processed].
    rewrite bool_decide_eq_true_2 by reflexivity. cbn [negb].
    fold (processed_dir_of document). fold (text_file_of document).
    rewrite Hfile.
    destruct (build_index_known
                (set_processed document (processed_dir_of document) pc (now tools) (Py.len text))
                text pc eq_refl) as [data ->].
    reflexivity.
Qed.


Lemma makedirs_run (p : string) (w : World) :
  p ∉ locked w →
  ∃ w', makedirs p w = (Py.Ok (), w') ∧ files w' = files w ∧ locked w' = locked w.
Proof.
  intros H. unfold makedirs. cbn. rewrite bool_decide_eq_false_2 by exact H.
  eexists. split; [reflexivity|]. auto.
Qed.

Lemma write_file_run (p text : string) (w : World) :
  p ∉ locked w →
  ∃ w', write_file p text w = (Py.Ok (), w') ∧ files w' = <[p := text]> (files w).
Proof.
  intros H. unfold write_file. cbn. rewrite bool_decide_eq_false_2 by exact H.
  eexists. split; reflexivity.
Qed.

(** The run of [process_document] on a plain-text document. *)
Lemma text_document_run (document : Document) (p content : string) (st : State) :
  file_path document = PyStr p →
  Py.lower (file_type document)
    ∉ ["pdf"; "png"; "jpg"; "jpeg"; "tiff"; "bmp"; "doc"; "docx"] →
  files (world st) !! p = Some content →
  path_join config.PROCESSED_DIR (id document) ∉ locked (world st) →
  path_join (path_join config.PROCESSED_DIR (id document)) "extracted_text.txt"
    ∉ locked (world st) →
  ∃ st',
    process_document tools document st = (Py.Ok true, st')
    ∧ get_document (id document) st'
      = Some (set_processed document (path_join config.PROCESSED_DIR (id document))
                (Z.max 1 (Py.len content / 3000)) (now tools) (Py.len content))
    ∧ files (world st')
        !! path_join (path_join config.PROCESSED_DIR (id document)) "extracted_text.txt"
      = Some content.
Proof.
  intros Hfp Hft Hfile Hdir Htext.
  destruct (makedirs_run _ _ Hdir) as (w1 & Hmk & Hf1 & Hl1).
  assert (_process_text p (processed_dir_of document) w1
          = (Py.Ok (content, Py.maxZ 1 (Py.len content / 3000)), w1)) as Hread.
  { unfold _process_text. erewrite bind_run_Ok; [reflexivity|].
    unfold read_file. rewrite Hf1, Hfile. reflexivity. }
  destruct (write_file_run (text_file_of document) content w1) as (w2 & Hwr & Hf2).
  { rewrite Hl1. exact Htext. }
  set (recorded := set_processed document (processed_dir_of document)
                     (Py.maxZ 1 (Py.len content / 3000)) (now tools) (Py.len content)).
  destruct (save_documents_run
              (set_documents (<[id document := recorded]> (documents st))
                 (set_world w2 (set_world w1 (set_world w1 st)))))
    as (st' & Hsave & Hd & Hw).
  exists st'.
  assert (process_body tools document (PyStr p) st = (Py.Ok true, st')) as Hbody.
  { unfold process_body.
    erewrite bind_run_Ok by (apply io_run; exact Hmk).
    erewrite bind_run_Ok by reflexivity.
    erewrite bind_run_Ok.
    2:{ apply io_run. cbn [world set_world].
        rewrite bool_decide_eq_false_2 by (intros E; apply Hft; rewrite E; left).
        unfold in_list.
        rewrite !bool_decide_eq_false_2;
          [exact Hread|intros E; apply Hft; apply list_elem_of_In in E;
                       apply list_elem_of_In; cbn in E |- *; tauto..]. }
    cbv beta iota zeta. erewrite bind_run_Ok by (apply io_run; exact Hwr).
    erewrite bind_run_Ok by reflexivity.
    erewrite bind_run_Ok by exact Hsave. reflexivity. }
  split.
  - unfold process_document. rewrite Hfp. apply try_except_Ok. exact Hbody.
  - rewrite <- maxZ_max. fold (processed_dir_of document). fold recorded.
    split.
    + unfold get_document. rewrite Hd. apply lookup_insert_eq.
    + rewrite Hw. cbn [world set_world set_documents]. rewrite Hf2. apply lookup_insert_eq.
Qed.

(** X10. A document that is neither a PDF, an image nor a Word file is
    read as plain text.  When its file exists, holds ASCII text without
    carriage returns (which the text-mode read returns as it is), and its
    processed directory and text file can be written, [process_document]
    returns [True], the registry holds the document as processed with
    [text_length] the length of the file and
    [page_count = max(1, len // 3000)], and the extracted text on disk is
    the content of the file. *)
Theorem text_document_processed (document : Document) (p content : string) (st : State) :
  file_path document = PyStr p →
  Py.lower (file_type document)
    ∉ ["pdf"; "png"; "jpg"; "jpeg"; "tiff"; "bmp"; "doc"; "docx"] →
  files (world st) !! p = Some content →
  plain_text content = true →
  path_join config.PROCESSED_DIR (id document) ∉ locked (world st) →
  path_join (path_join config.PROCESSED_DIR (id document)) "extracted_text.txt"
    ∉ locked (world st) →
  ∃ st',
    process_document tools document st = (Py.Ok true, st')
    ∧ get_document (id document) st'
      = Some (set_processed document (path_join config.PROCESSED_DIR (id document))
                (Z.max 1 (Py.len content / 3000)) (now tools) (Py.len content))
    ∧ files (world st')
        !! path_join (path_join config.PROCESSED_DIR (id document)) "extracted_text.txt"
      = Some content.
Proof. intros Hfp Hft Hfile _. apply (text_document_run document p); assumption. Qed.

End ProcessFacts.

Lemma processed_document_is_indexable_witness :
  ∃ recorded text,
    DocumentProcessor.get_document "d" Sample.marker_processed = Some recorded
    ∧ Doc.status recorded = Some "processed"
    ∧ Doc.processed_path recorded = Doc.PyStr (Sys.path_join config.PROCESSED_DIR "d")
    ∧ Sys.files (DocumentProcessor.world Sample.marker_processed)
        !! Sys.path_join (Sys.path_join config.PROCESSED_DIR "d") "extracted_text.txt"
      = Some text
    ∧ Doc.text_length recorded = Some (Py.len text)
    ∧ ((VectorDatabase.add_document Sample.one_chunk Sample.no_embedding
          (DocumentProcessor.world Sample.marker_processed) recorded Sample.empty_service).1
       = true ↔ Sample.one_chunk text ≠ [])
    ∧ (EnhancedCitation.process_document (DocumentProcessor.world Sample.marker_processed)
         recorded {| EnhancedCitation.citation_metadata := ∅ |}).1 = true.
Proof.
  apply (processed_document_is_indexable Sample.no_tools (Sample.uploaded "d" "txt")
           (Sample.processor_with "d.txt" Sample.marker_text) Sample.marker_processed).
  vm_compute. reflexivity.
Defined.

Lemma text_document_processed_witness :
  ∃ st',
    DocumentProcessor.process_document Sample.no_tools (Sample.uploaded "d" "txt")
      (Sample.processor_with "d.txt" Sample.marker_text) = (Py.Ok true, st')
    ∧ DocumentProcessor.get_document "d" st'
      = Some (Doc.set_processed (Sample.uploaded "d" "txt")
                (Sys.path_join config.PROCESSED_DIR "d")
                (Z.max 1 (Py.len Sample.marker_text / 3000)) "2024-01-01T00:00:00"
                (Py.len Sample.marker_text))
    ∧ Sys.files (DocumentProcessor.world st')
        !! Sys.path_join (Sys.path_join config.PROCESSED_DIR "d") "extracted_text.txt"
      = Some Sample.marker_text.
Proof.
  apply (text_document_processed Sample.no_tools (Sample.uploaded "d" "txt")
           (Sys.path_join config.UPLOAD_DIR "d.txt") Sample.marker_text
           (Sample.processor_with "d.txt" Sample.marker_text)).
  - reflexivity.
  - intros H. apply list_elem_of_In in H. cbn in H. intuition discriminate.
  - vm_compute. reflexivity.
  - reflexivity.
  - apply not_elem_of_empty.
  - apply not_elem_of_empty.
Defined.

Section ImageFacts.
Import Sys Doc DocumentProcessor Derived.
Variable tools : Tools.

Lemma process_image_Ok (file_path output_dir text : string) (pc : Z) (w w' : World) :
  _process_image tools file_path output_dir w = (Py.Ok (text, pc), w') →
  pc = 1 ∧ w' = w
  ∧ ∃ image, image_open tools file_path = Py.Ok image
             ∧ image_to_string tools image = Py.Ok text.
Proof.
  unfold _process_image. intros H.
  apply bind_Ok in H as (image & w1 & H1 & H).
  apply bind_Ok in H as (t & w2 & H2 & H).
  unfold lift in H1. injection H1 as H1 <-.
  change (bool_decide (config.OCR_ENGINE = "tesseract")) with true in H2.
  unfold lift in H2. injection H2 as H2 <-.
  injection H as <- <- <-. split; [reflexivity|]. split; [reflexivity|]. eauto.
Qed.

(** X11. A processed image always has [page_count = 1]: when
    [process_document] returns [True] for a document of type png, jpg,
    jpeg, tiff or bmp, the image was opened, the extracted text on disk is
    what the OCR engine read from it, [text_length] is its length and the
    page count is 1. *)
Theorem image_document_single_page (document : Document) (st st' : State) :
  process_document tools document st = (Py.Ok true, st') →
  Py.lower (file_type document) ∈ ["png"; "jpg"; "jpeg"; "tiff"; "bmp"] →
  ∃ recorded p image text,
    get_document (id document) st' = Some recorded
    ∧ page_count recorded = Some 1
    ∧ file_path document = PyStr p
    ∧ image_open tools p = Py.Ok image
    ∧ image_to_string tools image = Py.Ok text
    ∧ text_length recorded = Some (Py.len text)
    ∧ files (world st')
        !! path_join (path_join config.PROCESSED_DIR (id document)) "extracted_text.txt"
      = Some text.
Proof.
  intros H Hft. apply process_document_true_inv, process_body_true in H
    as (p & text & pc & w1 & w2 & Hfp & _ & Hex & Hw & Hd).
  unfold extraction in Hex.
  rewrite bool_decide_eq_false_2 in Hex.
  2:{ intros E. rewrite E in Hft. apply list_elem_of_In in Hft. cbn in Hft.
      intuition discriminate. }
  unfold in_list in Hex. rewrite bool_decide_eq_true_2 in Hex by exact Hft.
  apply process_image_Ok in Hex as (-> & -> & image & Hopen & Hocr).
  apply write_file_Ok in Hw as (Hf & _).
  eexists _, p, image, text. split; [unfold get_document; rewrite Hd; apply lookup_insert_eq|].
  split; [reflexivity|]. split; [exact Hfp|]. split; [exact Hopen|]. split; [exact Hocr|].
  split; [reflexivity|]. rewrite Hf. apply lookup_insert_eq.
Qed.

End ImageFacts.

Lemma image_document_single_page_witness :
  ∃ recorded p image text,
    DocumentProcessor.get_document "d2" Sample.image_processed = Some recorded
    ∧ Doc.page_count recorded = Some 1
    ∧ Doc.file_path (Sample.uploaded "d2" "png") = Doc.PyStr p
    ∧ Doc.image_open Sample.image_tools p = Py.Ok image
    ∧ Doc.image_to_string Sample.image_tools image = Py.Ok text
    ∧ Doc.text_length recorded = Some (Py.len text)
    ∧ Sys.files (DocumentProcessor.world Sample.image_processed)
        !! Sys.path_join (Sys.path_join config.PROCESSED_DIR "d2") "extracted_text.txt"
      = Some text.
Proof.
  apply (image_document_single_page Sample.image_tools (Sample.uploaded "d2" "png")
           (Sample.processor_with "d2.png" "PNG") Sample.image_processed).
  - vm_compute. reflexivity.
  - left.
Defined.

(** ** Deleting a document *)

Section DeleteFileFacts.
Import Sys Doc DocumentProcessor.

Lemma bind_Raise {S A B} (m : ST S A) (k : A → ST S B) (s s' : S) (e : string) :
  (m ≫= k) s = (Py.Raise e, s') →
  m s = (Py.Raise e, s') ∨ ∃ a s1, m s = (Py.Ok a, s1) ∧ k a s1 = (Py.Raise e, s').
Proof.
  intros H. destruct (bind_inv _ _ _ _ _ H) as [(a & s1 & H1 & H2)|(e' & H1 & [= <-])]; eauto.
Qed.

(** [delete_if_exists] leaves everything but the file system alone, and
    says what it did to the files. *)
Lemma remove_if_exists_run (f : field) (w w' : World) (r : Py.result unit) :
  delete_if_exists f remove w = (r, w') →
  dirs w' = dirs w
  ∧ (∀ q, f ≠ PyStr q → files w' !! q = files w !! q)
  ∧ (r = Py.Ok () → ∀ p, f = PyStr p → files w' !! p = None).
Proof.
  unfold delete_if_exists. destruct f as [| |p].
  - intros [= <- <-]. repeat split; congruence.
  - intros [= <- <-]. repeat split; congruence.
  - unfold bind, exists_field, path_exists.
    destruct (bool_decide (is_Some (files w !! p)) || bool_decide (p ∈ dirs w)) eqn:E.
    + unfold remove. cbn. destruct (bool_decide (p ∈ locked w)).
      * intros [= <- <-]. cbn. repeat split; congruence.
      * destruct (files w !! p) as [content|] eqn:Hp.
        -- intros [= <- <-]. cbn. split; [reflexivity|]. split.
           ++ intros q Hq. apply lookup_delete_ne. congruence.
           ++ intros _ p' [= <-]. apply lookup_delete_eq.
        -- intros [= <- <-]. cbn. repeat split; congruence.
    + intros [= <- <-]. apply orb_false_iff in E as [E _].
      apply bool_decide_eq_false in E. split; [reflexivity|]. split; [reflexivity|].
      intros _ p' [= <-]. destruct (files w !! p); [exfalso; apply E; eauto|reflexivity].
Qed.

Lemma rmtree_if_exists_run (f : field) (w w' : World) (r : Py.result unit) :
  delete_if_exists f rmtree w = (r, w') →
  (∀ q, (∀ dir, f = PyStr dir → under dir q = false) → (files w' !! q) = (files w !! q))
  ∧ (∀ q, files w !! q = None → files w' !! q = None)
  ∧ (r = Py.Ok () → ∀ dir, f = PyStr dir →
       (dir ∉ dirs w')
       ∧ (dir ∈ dirs w → ∀ q, under dir q = true → files w' !! q = None)).
Proof.
  unfold delete_if_exists. destruct f as [| |p].
  - intros [= <- <-]. repeat split; congruence.
  - intros [= <- <-]. repeat split; congruence.
  - unfold bind, exists_field, path_exists.
    destruct (bool_decide (is_Some (files w !! p)) || bool_decide (p ∈ dirs w)) eqn:E.
    + unfold rmtree. cbn. destruct (bool_decide (p ∈ locked w)).
      * intros [= <- <-]. cbn. repeat split; congruence.
      * destruct (bool_decide (p ∈ dirs w)) eqn:Hd.
        -- intros [= <- <-]. cbn. split; [|split].
           ++ intros q Hq. destruct (files w !! q) as [c|] eqn:Hc.
              ** apply map_lookup_filter_Some. split; [exact Hc|].
                 change (Is_true (negb (under p q))).
                 rewrite (Hq p eq_refl). exact I.
              ** apply map_lookup_filter_None. left. exact Hc.
           ++ intros q Hq. apply map_lookup_filter_None. left. exact Hq.
           ++ intros _ dir [= <-]. split.
              ** rewrite elem_of_filter. intros [[Hne _] _]. congruence.
              ** intros _ q Hq. apply map_lookup_filter_None. right.
                 intros c _. change (¬ Is_true (negb (under p q))).
                 rewrite Hq. cbn. auto.
        -- intros [= <- <-]. cbn. repeat split; congruence.
    + intros [= <- <-]. apply orb_false_iff in E as [_ E].
      apply bool_decide_eq_false in E. split; [reflexivity|]. split; [auto|].
      intros _ dir [= <-]. split; [exact E|]. intros Hin. contradiction.
Qed.


(** The two file deletions of [delete_document] and what follows them. *)
Lemma delete_document_run (document_id : string) (document : Document) (st : State) :
  documents st !! document_id = Some document →
  ∃ r1 w1,
    delete_if_exists (file_path document) remove (world st) = (r1, w1)
    ∧ match r1 with
      | Py.Raise _ => delete_document document_id st = (Py.Ok false, set_world w1 st)
      | Py.Ok _ =>
          ∃ r2 w2,
            delete_if_exists (processed_path document) rmtree w1 = (r2, w2)
            ∧ match r2 with
              | Py.Raise _ =>
                  delete_document document_id st
                  = (Py.Ok false, set_world w2 (set_world w1 st))
              | Py.Ok _ =>
                  ∃ st', delete_document document_id st = (Py.Ok true, st')
                         ∧ documents st' = delete document_id (documents st)
                         ∧ world st' = w2
              end
      end.
Proof.
  intros Hdoc. unfold delete_document. rewrite Hdoc.
  destruct (delete_if_exists (file_path document) remove (world st)) as [r1 w1] eqn:H1.
  exists r1, w1. split; [reflexivity|].
  destruct r1 as [[]|e1].
  - destruct (delete_if_exists (processed_path document) rmtree w1) as [r2 w2] eqn:H2.
    exists r2, w2. split; [reflexivity|].
    destruct r2 as [[]|e2].
    + destruct (save_documents_run
                  (set_documents (delete document_id (documents (set_world w2 (set_world w1 st))))
                     (set_world w2 (set_world w1 st)))) as (st' & Hs & Hd & Hw).
      exists st'. split; [|split; [exact Hd|exact Hw]].
      apply try_except_Ok.
      erewrite bind_run_Ok by (apply io_run; exact H1).
      erewrite bind_run_Ok by (apply io_run; exact H2).
      erewrite bind_run_Ok by reflexivity.
      erewrite bind_run_Ok by exact Hs. reflexivity.
    + erewrite try_except_Raise; [reflexivity|].
      erewrite bind_run_Ok by (apply io_run; exact H1).
      erewrite bind_run_Raise by (apply io_run; exact H2). reflexivity.
  - erewrite try_except_Raise; [reflexivity|].
    erewrite bind_run_Raise by (apply io_run; exact H1). reflexivity.
Qed.

(** X12. After a [delete_document] that returned [True] for a document
    whose uploaded file is not the metadata file of the registry, the
    uploaded file is no longer a file and the processed directory is no
    longer a directory; when the directory was there, no file under it is
    left; and a file that is neither the uploaded file, nor under the
    processed directory, nor the metadata file (which the call rewrites) is
    as it was. *)
Theorem delete_document_removes_files (document_id : string) (document : Document)
    (st st' : State) :
  documents st !! document_id = Some document →
  file_path document ≠ PyStr metadata_file →
  delete_document document_id st = (Py.Ok true, st') →
  (∀ p, file_path document = PyStr p → files (world st') !! p = None)
  ∧ (∀ dir, processed_path document = PyStr dir →
       (dir ∉ dirs (world st'))
       ∧ (dir ∈ dirs (world st) → ∀ q, under dir q = true → files (world st') !! q = None))
  ∧ (∀ q, file_path document ≠ PyStr q →
          (∀ dir, processed_path document = PyStr dir → under dir q = false) →
          q ≠ metadata_file →
          files (world st') !! q = files (world st) !! q).
Proof.
  intros Hdoc _ H.
  destruct (delete_document_run document_id document st Hdoc) as (r1 & w1 & H1 & Hrest).
  destruct r1 as [[]|e1]; [|rewrite Hrest in H; discriminate H].
  destruct Hrest as (r2 & w2 & H2 & Hrest).
  destruct r2 as [[]|e2]; [|rewrite Hrest in H; discriminate H].
  destruct Hrest as (st2 & Hrun & _ & Hw). rewrite Hrun in H. injection H as <-.
  rewrite Hw.
  destruct (remove_if_exists_run _ _ _ _ H1) as (Hd1 & Hkeep1 & Hgone1).
  destruct (rmtree_if_exists_run _ _ _ _ H2) as (Hkeep2 & Hnone2 & Hgone2).
  split; [|split].
  - intros p Hp. apply Hnone2, (Hgone1 eq_refl p Hp).
  - intros dir Hdir. destruct (Hgone2 eq_refl dir Hdir) as [Hnot Hunder].
    split; [exact Hnot|]. intros Hin. apply Hunder. rewrite Hd1. exact Hin.
  - intros q Hq Hout _. rewrite (Hkeep2 q Hout). apply Hkeep1, Hq.
Qed.

(** X13. [delete_document] never raises: every call returns [True] or
    [False]; and a call that returns [False] leaves the registry and its
    saved copy as they were. *)
Theorem delete_document_failure_keeps_registry (document_id : string) (st : State) :
  ∃ b st', delete_document document_id st = (Py.Ok b, st')
           ∧ (b = false → documents st' = documents st ∧ saved st' = saved st).
Proof.
  destruct (documents st !! document_id) as [document|] eqn:Hdoc.
  - destruct (delete_document_run document_id document st Hdoc) as (r1 & w1 & H1 & Hrest).
    destruct r1 as [[]|e1]; [|exists false; eexists; split; [exact Hrest|auto]].
    destruct Hrest as (r2 & w2 & H2 & Hrest).
    destruct r2 as [[]|e2]; [|exists false; eexists; split; [exact Hrest|auto]].
    destruct Hrest as (st2 & Hrun & _). exists true, st2. split; [exact Hrun|discriminate].
  - exists false, st. split; [|auto]. unfold delete_document. rewrite Hdoc. reflexivity.
Qed.

(** X14. A registered document whose [processed_path] is [None], as the
    upload route sets it and as the error handler of [process_document]
    leaves it, cannot be deleted: [os.path.exists(None)] raises, so
    [delete_document] returns [False] and the registry keeps the document;
    yet the uploaded file is removed when it was there and could be
    removed.  The [DELETE] route answers 404 and [GET] still returns the
    document. *)
Theorem unprocessed_document_not_deletable (document_id : string) (document : Document)
    (st : State) :
  documents st !! document_id = Some document →
  processed_path document = PyNone →
  ∃ st', delete_document document_id st = (Py.Ok false, st')
         ∧ documents st' = documents st
         ∧ (∀ p, file_path document = PyStr p → is_Some (files (world st) !! p) →
                 p ∉ locked (world st) → files (world st') !! p = None)
         ∧ ∀ a, Endpoints.document_processor a = st →
             (Endpoints.delete_document document_id a).1
             = Endpoints.HTTPException 404 "Document not found"
             ∧ Endpoints.get_document document_id (Endpoints.delete_document document_id a).2
               = Endpoints.Response document.
Proof.
  intros Hdoc Hpp.
  assert (∀ st', delete_document document_id st = (Py.Ok false, st') →
                 documents st' = documents st →
                 ∀ a, Endpoints.document_processor a = st →
                   (Endpoints.delete_document document_id a).1
                   = Endpoints.HTTPException 404 "Document not found"
                   ∧ Endpoints.get_document document_id
                       (Endpoints.delete_document document_id a).2
                     = Endpoints.Response document) as Hroute.
  { intros st' Hrun Hdocs a Ha. unfold Endpoints.delete_document. rewrite Ha, Hrun.
    cbn [fst snd]. split; [reflexivity|].
    unfold Endpoints.get_document, get_document. cbn [Endpoints.document_processor
      Endpoints.set_processor]. rewrite Hdocs, Hdoc. reflexivity. }
  destruct (delete_document_run document_id document st Hdoc) as (r1 & w1 & H1 & Hrest).
  destruct r1 as [[]|e1].
  - destruct Hrest as (r2 & w2 & H2 & Hrest). rewrite Hpp in H2.
    injection H2 as <- <-. eexists. split; [exact Hrest|]. split; [reflexivity|].
    split; [|apply (Hroute _ Hrest eq_refl)].
    intros p Hp _ _. cbn [world set_world].
    destruct (remove_if_exists_run _ _ _ _ H1) as (_ & _ & Hgone). exact (Hgone eq_refl p Hp).
  - eexists. split; [exact Hrest|]. split; [reflexivity|].
    split; [|apply (Hroute _ Hrest eq_refl)].
    intros p Hp [content Hfile] Hlock. exfalso.
    rewrite Hp in H1. unfold delete_if_exists, bind, exists_field, path_exists in H1.
    rewrite Hfile in H1. rewrite bool_decide_eq_true_2 in H1 by eauto. cbn [orb] in H1.
    unfold remove in H1. cbn in H1. rewrite bool_decide_eq_false_2 in H1 by exact Hlock.
    rewrite Hfile in H1. discriminate H1.
Qed.

End DeleteFileFacts.

Lemma delete_document_removes_files_witness :
  Sys.files (DocumentProcessor.world
               (DocumentProcessor.delete_document "d" Sample.marker_processed).2)
    !! Sys.path_join config.UPLOAD_DIR "d.txt" = None
  ∧ Sys.path_join config.PROCESSED_DIR "d"
    ∉ Sys.dirs (DocumentProcessor.world
                  (DocumentProcessor.delete_document "d" Sample.marker_processed).2).
Proof.
  destruct (delete_document_removes_files "d" Sample.marker_document Sample.marker_processed
              (DocumentProcessor.delete_document "d" Sample.marker_processed).2)
    as (Hfile & Hdir & _).
  - vm_compute. reflexivity.
  - vm_compute. discriminate.
  - vm_compute. reflexivity.
  - split.
    + apply Hfile. vm_compute. reflexivity.
    + apply (Hdir (Sys.path_join config.PROCESSED_DIR "d")). vm_compute. reflexivity.
Defined.

Lemma delete_document_failure_keeps_registry_witness :
  ∃ b st',
    DocumentProcessor.delete_document "d2" Sample.failed_processed = (Py.Ok b, st')
    ∧ (b = false →
       DocumentProcessor.documents st' = DocumentProcessor.documents Sample.failed_processed
       ∧ DocumentProcessor.saved st' = DocumentProcessor.saved Sample.failed_processed).
Proof.
  apply (delete_document_failure_keeps_registry "d2" Sample.failed_processed).
Defined.

Lemma unprocessed_document_not_deletable_witness :
  ∃ st',
    DocumentProcessor.delete_document "d2" Sample.failed_processed = (Py.Ok false, st')
    ∧ DocumentProcessor.documents st' = DocumentProcessor.documents Sample.failed_processed.
Proof.
  destruct (unprocessed_document_not_deletable "d2" Sample.failed_document
              Sample.failed_processed) as (st' & H1 & H2 & _).
  - vm_compute. reflexivity.
  - vm_compute. reflexivity.
  - exists st'. exact (conj H1 H2).
Defined.

(** ** Persistence of the registry *)

Section Persistence.
Import Sys Doc DocumentProcessor Derived.
Variable tools : Tools.

Lemma save_documents_saved (s s' : State) (r : Py.result unit) :
  _save_documents s = (r, s') →
  r = Py.Ok () ∧ world s' = world s ∧ documents s' = documents s
  ∧ (metadata_file ∈ locked (world s) → saved s' = saved s)
  ∧ (metadata_file ∉ locked (world s) → saved s' = documents s).
Proof.
  unfold _save_documents. destruct (bool_decide (metadata_file ∈ locked (world s))) eqn:E.
  - apply bool_decide_eq_true in E. intros [= <- <-]. repeat split; auto. contradiction.
  - apply bool_decide_eq_false in E. intros [= <- <-]. cbn. repeat split; auto. contradiction.
Qed.

Lemma process_body_raise_saved (document : Document) (fp : field) (st s1 : State) (e : string) :
  process_body tools document fp st = (Py.Raise e, s1) → saved s1 = saved st.
Proof.
  unfold process_body. intros H.
  apply bind_Raise in H as [H|([] & s2 & H1 & H)].
  { apply io_inv in H as (w & _ & ->). reflexivity. }
  apply io_inv in H1 as (w1 & _ & ->).
  apply bind_Raise in H as [H|(p & s3 & H2 & H)].
  { destruct fp; inversion H; reflexivity. }
  assert (s3 = set_world w1 st) as -> by (destruct fp; inversion H2; reflexivity).
  apply bind_Raise in H as [H|([text pc] & s4 & H3 & H)].
  { apply io_inv in H as (w & _ & ->). reflexivity. }
  apply io_inv in H3 as (w2 & _ & ->).
  apply bind_Raise in H as [H|([] & s5 & H4 & H)].
  { apply io_inv in H as (w & _ & ->). reflexivity. }
  apply bind_Raise in H as [H|([] & s6 & H5 & H)]; [discriminate H|].
  apply bind_Raise in H as [H|([] & s7 & H6 & H)]; [|discriminate H].
  apply save_documents_saved in H as [H _]. discriminate H.
Qed.

(** The last step of a [process_document] that returns: the registry is
    saved from a state that holds the document. *)
Lemma process_document_saves (document : Document) (st st' : State) (b : bool) :
  process_document tools document st = (Py.Ok b, st') →
  ∃ x, _save_documents x = (Py.Ok (), st') ∧ saved x = saved st
       ∧ is_Some (documents x !! id document).
Proof.
  intros H. destruct b.
  - apply process_document_true_inv in H. unfold process_body in H.
    apply bind_Ok in H as ([] & s1 & H1 & H).
    apply bind_Ok in H as (p & s2 & H2 & H).
    apply bind_Ok in H as ([text pc] & s3 & H3 & H).
    apply bind_Ok in H as ([] & s4 & H4 & H).
    apply bind_Ok in H as ([] & s5 & H5 & H).
    apply bind_Ok in H as ([] & s6 & H6 & H).
    apply io_inv in H1 as (w1 & _ & ->).
    assert (s2 = set_world w1 st) as ->
      by (destruct (file_path document); inversion H2; reflexivity).
    apply io_inv in H3 as (w2 & _ & ->). apply io_inv in H4 as (w3 & _ & ->).
    unfold store_document in H5. injection H5 as <-. injection H as <-.
    eexists. split; [exact H6|]. split; [reflexivity|].
    cbn [documents set_documents]. rewrite lookup_insert_eq. eauto.
  - destruct (process_document_false_inv _ _ _ _ H) as (e & s1 & Hb).
    assert (process_failed document e s1 = (Py.Ok false, st')) as Hf.
    { unfold process_document in H. destruct (file_path document);
        [discriminate H| |]; erewrite try_except_Raise in H by exact Hb; exact H. }
    unfold process_failed in Hf.
    apply bind_Ok in Hf as ([] & s2 & H1 & Hf).
    apply bind_Ok in Hf as ([] & s3 & H2 & Hf).
    unfold store_document in H1. injection H1 as <-. injection Hf as <-.
    eexists. split; [exact H2|]. split.
    + cbn [saved set_documents]. apply (process_body_raise_saved _ _ _ _ _ Hb).
    + cbn [documents set_documents id set_error]. rewrite lookup_insert_eq. eauto.
Qed.

Lemma delete_document_saves (document_id : string) (st st' : State) :
  delete_document document_id st = (Py.Ok true, st') →
  ∃ x, _save_documents x = (Py.Ok (), st') ∧ saved x = saved st.
Proof.
  unfold delete_document.
  destruct (documents st !! document_id) as [document|]; [|discriminate].
  unfold try_except.
  match goal with
  | |- context [let (_, _) := ?m st in _] => destruct (m st) as [[a|e] s1] eqn:Hb
  end; [|discriminate].
  intros [= -> <-].
  apply bind_Ok in Hb as ([] & s2 & H1 & Hb).
  apply bind_Ok in Hb as ([] & s3 & H2 & Hb).
  apply bind_Ok in Hb as ([] & s4 & H3 & Hb).
  apply bind_Ok in Hb as ([] & s5 & H4 & Hb).
  apply io_inv in H1 as (w1 & _ & ->). apply io_inv in H2 as (w2 & _ & ->).
  unfold forget_document in H3. injection H3 as <-. injection Hb as <-.
  eexists. split; [exact H4|reflexivity].
Qed.

(** X24. What is persisted.  When [process_document] returns, the document
    is in the registry.  When [process_document] returns, or
    [delete_document] returns [True], and the metadata file can be written,
    the saved copy of the registry is the registry; when the file cannot be
    written the failure is only logged: the call returns as if nothing had
    happened and the saved copy is the one from before the call. *)
Theorem registry_persistence (document : Document) (document_id : string)
    (st st' : State) :
  (∀ b, process_document tools document st = (Py.Ok b, st') →
        is_Some (get_document (id document) st') ∧ persisted st st')
  ∧ (delete_document document_id st = (Py.Ok true, st') → persisted st st').
Proof.
  assert (∀ x, _save_documents x = (Py.Ok (), st') → saved x = saved st → persisted st st')
    as Hsave.
  { intros x Hx Hsaved.
    destruct (save_documents_saved _ _ _ Hx) as (_ & Hw & Hd & Hlocked & Hfree).
    unfold persisted. rewrite Hw, Hd, <- Hsaved. auto. }
  split.
  - intros b H. destruct (process_document_saves _ _ _ _ H) as (x & Hx & Hsaved & Hdoc).
    split; [|exact (Hsave x Hx Hsaved)].
    destruct (save_documents_saved _ _ _ Hx) as (_ & _ & Hd & _).
    unfold get_document. rewrite Hd. exact Hdoc.
  - intros H. destruct (delete_document_saves _ _ _ H) as (x & Hx & Hsaved).
    exact (Hsave x Hx Hsaved).
Qed.

End Persistence.

Lemma registry_persistence_witness :
  is_Some (DocumentProcessor.get_document "d" Sample.marker_processed)
  ∧ Derived.persisted (Sample.processor_with "d.txt" Sample.marker_text) Sample.marker_processed.
Proof.
  apply (proj1 (registry_persistence Sample.no_tools (Sample.uploaded "d" "txt") "d"
                  (Sample.processor_with "d.txt" Sample.marker_text) Sample.marker_processed)
           true).
  vm_compute. reflexivity.
Defined.

(** ** The registry as the routes see it *)

Section RegistryInvariant.
Import Sys Doc DocumentProcessor Derived.
Variable tools : Tools.

Lemma process_body_raise (document : Document) (fp : field) (st s1 : State) (e : string) :
  process_body tools document fp st = (Py.Raise e, s1) → documents s1 = documents st.
Proof.
  unfold process_body. intros H.
  apply bind_Raise in H as [H|([] & s2 & H1 & H)].
  { apply io_inv in H as (w & _ & ->). reflexivity. }
  apply io_inv in H1 as (w1 & _ & ->).
  apply bind_Raise in H as [H|(p & s3 & H2 & H)].
  { destruct fp; inversion H; reflexivity. }
  assert (s3 = set_world w1 st) as -> by (destruct fp; inversion H2; reflexivity).
  apply bind_Raise in H as [H|([text pc] & s4 & H3 & H)].
  { apply io_inv in H as (w & _ & ->). reflexivity. }
  apply io_inv in H3 as (w2 & _ & ->).
  apply bind_Raise in H as [H|([] & s5 & H4 & H)].
  { apply io_inv in H as (w & _ & ->). reflexivity. }
  apply bind_Raise in H as [H|([] & s6 & H5 & H)]; [discriminate H|].
  apply bind_Raise in H as [H|([] & s7 & H6 & H)]; [|discriminate H].
  match type of H with
  | _save_documents ?x = _ => destruct (save_documents_run x) as (s' & Hs & _)
  end.
  rewrite Hs in H. discriminate H.
Qed.

(** The registry after [process_document]: unchanged when the call raises,
    otherwise the document is stored as processed or as in error. *)
Lemma process_document_registry (document : Document) (st st' : State) (r : Py.result bool) :
  process_document tools document st = (r, st') →
  documents st' = documents st
  ∨ ∃ d, documents st' = <[id document := d]> (documents st)
         ∧ (status d = Some "processed" ∨ status d = Some "error").
Proof.
  intros H. destruct r as [[]|e].
  - right. apply process_document_true_inv, process_body_true in H
      as (p & text & pc & w1 & w2 & _ & _ & _ & _ & Hd).
    eexists. split; [exact Hd|]. left. reflexivity.
  - right. destruct (process_document_false_inv _ _ _ _ H) as (e & s1 & Hb).
    destruct (process_failed_run document e s1) as (s2 & Hrun & Hd & _).
    assert (st' = s2) as ->.
    { unfold process_document in H. destruct (file_path document);
        [discriminate H| |]; erewrite try_except_Raise in H by exact Hb; congruence. }
    exists (set_error document e). rewrite Hd, (process_body_raise _ _ _ _ _ Hb).
    split; [reflexivity|]. right. reflexivity.
  - left. unfold process_document in H.
    destruct (file_path document) eqn:Hfp; [injection H as _ <-; reflexivity| |].
    all: exfalso; unfold try_except in H;
      destruct (process_body tools document _ st) as [[b|e'] s1]; [discriminate H|];
      destruct (process_failed_run document e' s1) as (s2 & Hrun & _);
      rewrite Hrun in H; discriminate H.
Qed.

Lemma settled_insert (st : State) (doc_id : string) (d : Document) :
  settled st → status d = Some "processed" ∨ status d = Some "error" →
  ∀ st', documents st' = <[doc_id := d]> (documents st) → settled st'.
Proof.
  intros Hs Hd st' E k d' Hk. rewrite E in Hk.
  destruct (decide (doc_id = k)) as [->|Hne].
  - rewrite lookup_insert_eq in Hk. injection Hk as <-. exact Hd.
  - rewrite lookup_insert_ne in Hk by exact Hne. eapply Hs, Hk.
Qed.

(** X15. A document enters the registry only when its processing has
    ended.  When every registered document is processed or in error, this
    is still so after an upload (which registers nothing), after a
    background task, and after a delete: [GET] never shows the status
    ["processing"]. *)
Theorem registry_never_processing (a : Endpoints.App)
    (doc_id timestamp upload_time filename content : string) (title tags : option string)
    (document_id : string) :
  settled (Endpoints.document_processor a) →
  settled (Endpoints.document_processor
             (Endpoints.upload_document doc_id timestamp upload_time filename content
                title tags a).2)
  ∧ settled (Endpoints.document_processor (Endpoints.run_background_task tools a))
  ∧ settled (Endpoints.document_processor (Endpoints.delete_document document_id a).2).
Proof.
  intros Hs. split; [|split].
  - unfold Endpoints.upload_document.
    destruct (negb _); [exact Hs|].
    destruct (write_file _ _ _) as [[[]|e] w]; exact Hs.
  - unfold Endpoints.run_background_task.
    destruct (Endpoints.background_tasks a) as [|document rest]; [exact Hs|].
    destruct (process_document tools document (Endpoints.document_processor a))
      as [r p] eqn:Hp. cbn [Endpoints.document_processor].
    destruct (process_document_registry _ _ _ _ Hp) as [E|(d & E & Hd)].
    + intros k d' Hk. rewrite E in Hk. eapply Hs, Hk.
    + exact (settled_insert (Endpoints.document_processor a) (id document) d Hs Hd p E).
  - unfold Endpoints.delete_document.
    destruct (delete_document document_id (Endpoints.document_processor a)) as [r p] eqn:Hd.
    assert (settled p) as Hp.
    { destruct (documents (Endpoints.document_processor a) !! document_id) as [document|] eqn:Hdoc.
      - destruct (delete_document_run document_id document _ Hdoc) as (r1 & w1 & _ & Hrest).
        destruct r1 as [[]|e1].
        + destruct Hrest as (r2 & w2 & _ & Hrest). destruct r2 as [[]|e2].
          * destruct Hrest as (st2 & Hrun & Hdocs & _). rewrite Hrun in Hd.
            injection Hd as _ <-. intros k d' Hk. rewrite Hdocs in Hk.
            apply lookup_delete_Some in Hk as [_ Hk]. eapply Hs, Hk.
          * rewrite Hrest in Hd. injection Hd as _ <-. exact Hs.
        + rewrite Hrest in Hd. injection Hd as _ <-. exact Hs.
      - unfold delete_document in Hd. rewrite Hdoc in Hd. injection Hd as _ <-. exact Hs. }
    destruct r as [[]|e]; exact Hp.
Qed.

End RegistryInvariant.

Lemma registry_never_processing_witness :
  Derived.settled
    (Endpoints.document_processor
       (Endpoints.run_background_task Sample.no_tools
          (Endpoints.upload_document "A" "20240101_000000" "2024-01-01T00:00:00" "a.txt"
             "shared topic from a" None None Sample.fresh_app).2)).
Proof.
  apply (registry_never_processing Sample.no_tools
           (Endpoints.upload_document "A" "20240101_000000" "2024-01-01T00:00:00" "a.txt"
              "shared topic from a" None None Sample.fresh_app).2
           "B" "20240101_000001" "2024-01-01T00:00:01" "b.txt" "shared topic from b"
           None None "A").
  apply (registry_never_processing Sample.no_tools Sample.fresh_app
           "A" "20240101_000000" "2024-01-01T00:00:00" "a.txt" "shared topic from a"
           None None "A").
  intros doc_id d H. cbn in H. rewrite lookup_empty in H. discriminate H.
Defined.

Section UploadFacts.
Import Sys Doc DocumentProcessor Derived.
Variable tools : Tools.


End UploadFacts.


(** ** Listing the registry *)

Section ListingFacts.
Import Doc Listing.

Lemma filter_all {A} (p : A → bool) (l : list A) :
  (∀ x, x ∈ l → p x = true) → List.filter p l = l.
Proof.
  induction l as [|x l IH]; intros H; [reflexivity|]. cbn [List.filter].
  rewrite (H x) by left. f_equal. apply IH. intros y Hy. apply H. now right.
Qed.

Lemma slice_subset {A} (l : list A) (start stop : Z) (x : A) :
  x ∈ slice l start stop → x ∈ l.
Proof.
  unfold slice. intros H. apply list_elem_of_lookup in H as (i & Hi).
  apply lookup_take_Some in Hi as [Hi _]. rewrite lookup_drop in Hi.
  eapply list_elem_of_lookup_2, Hi.
Qed.

Lemma slice_from (A : Type) (l : list A) (skip limit : Z) :
  0 <= skip → 0 <= limit →
  slice l skip (skip + limit) = take (Z.to_nat limit) (drop (Z.to_nat skip) l).
Proof.
  intros Hs Hl. unfold slice, slice_bound. rewrite !minZ_min.
  destruct (Z.ltb_spec skip 0); [lia|]. destruct (Z.ltb_spec (skip + limit) 0); [lia|].
  destruct (Z.le_gt_cases (Z.of_nat (length l)) skip) as [Hout|Hin].
  - rewrite !Z.min_r by lia. rewrite Z.sub_diag. change (Z.to_nat 0) with 0%nat. cbn [take].
    assert (length l ≤ Z.to_nat skip)%nat as Hn by lia.
    rewrite (drop_ge l (Z.to_nat skip) Hn). rewrite take_nil, take_0. reflexivity.
  - rewrite (Z.min_l skip) by lia.
    destruct (Z.le_gt_cases (skip + limit) (Z.of_nat (length l))) as [Hfit|Hover].
    + rewrite (Z.min_l (skip + limit)) by lia. f_equal. lia.
    + rewrite (Z.min_r (skip + limit)) by lia.
      rewrite !take_ge; [reflexivity|rewrite length_drop; lia..].
Qed.

Lemma slice_length {A} (l : list A) (skip limit : Z) :
  0 <= limit → Z.of_nat (length (slice l skip (skip + limit))) <= limit.
Proof.
  intros Hl. unfold slice, slice_bound. rewrite length_take, length_drop, !minZ_min, !maxZ_max.
  destruct (Z.ltb_spec skip 0); destruct (Z.ltb_spec (skip + limit) 0); lia.
Qed.

Lemma list_documents_matches (registry : list (string * Document)) (skip limit : Z)
    (status tag : option string) (doc : Document) :
  doc ∈ list_documents registry skip limit status tag →
  doc ∈ map snd registry
  ∧ (∀ s, status = Some s → s ≠ "" → Doc.status doc = Some s)
  ∧ (∀ t, tag = Some t → t ≠ "" → t ∈ tags doc).
Proof.
  unfold list_documents. intros H%slice_subset.
  apply list_elem_of_In, filter_In in H as [Hin Hok]. apply list_elem_of_In in Hin.
  apply andb_true_iff in Hok as [Hs Ht]. apply negb_true_iff in Hs, Ht.
  split; [exact Hin|]. split.
  - intros s -> Hne. cbn [status_rejects] in Hs.
    destruct s; [congruence|]. cbn [Py.truthy andb] in Hs.
    apply negb_false_iff, bool_decide_eq_true in Hs. exact Hs.
  - intros t -> Hne. cbn [tag_rejects] in Ht.
    destruct t; [congruence|]. cbn [Py.truthy andb] in Ht.
    apply negb_false_iff, bool_decide_eq_true in Ht. exact Ht.
Qed.

(** X17. [GET /documents/] with a limit that is not negative: the [total]
    it reports is the size of the page returned, at most [limit], whatever
    [skip] is; every document of the page is a registered one, has the
    requested status when a non-empty status is given, and carries the
    requested tag when a non-empty tag is given. *)
Theorem list_documents_page (registry : list (string * Document)) (skip limit : Z)
    (status tag : option string) :
  0 <= limit →
  total (list_endpoint registry skip limit status tag) <= limit
  ∧ ∀ doc, doc ∈ listed_documents (list_endpoint registry skip limit status tag) →
      doc ∈ map snd registry
      ∧ (∀ s, status = Some s → s ≠ "" → Doc.status doc = Some s)
      ∧ (∀ t, tag = Some t → t ≠ "" → t ∈ tags doc).
Proof.
  intros Hl. unfold list_endpoint. cbn [total listed_documents]. split.
  - unfold list_documents. apply slice_length, Hl.
  - intros doc. apply list_documents_matches.
Qed.

(** X18. Consecutive pages of [list_documents] join up: for offsets and
    limits that are not negative, the page of [a] documents from [skip]
    followed by the page of [b] documents from [skip + a] is the page of
    [a + b] documents from [skip]; no document is lost or repeated between
    pages. *)
Theorem list_documents_pages_join (registry : list (string * Document)) (skip a b : Z)
    (status tag : option string) :
  0 <= skip → 0 <= a → 0 <= b →
  list_documents registry skip a status tag ++ list_documents registry (skip + a) b status tag
  = list_documents registry skip (a + b) status tag.
Proof.
  intros Hs Ha Hb. unfold list_documents.
  rewrite !slice_from by lia.
  set (docs := List.filter _ _).
  rewrite (Z2Nat.inj_add skip a), (Z2Nat.inj_add a b) by lia.
  rewrite <- (drop_drop docs (Z.to_nat a) (Z.to_nat skip)).
  apply take_take_drop.
Qed.

(** X25. [list_documents()] with its default arguments, as
    [ThemeProcessor.identify_themes] calls it, returns the first 100
    registered documents in registration order: a theme run that names no
    documents analyses those and no others, whatever the size of the
    registry. *)
Theorem default_listing_first_hundred (registry : list (string * Document)) :
  list_documents registry 0 100 None None = take 100 (map snd registry)
  ∧ Themes.analysed_ids registry None = map id (list_documents registry 0 100 None None)
  ∧ (length (Themes.analysed_ids registry None) <= 100)%nat.
Proof.
  assert (list_documents registry 0 100 None None = take 100 (map snd registry)) as H.
  { unfold list_documents. rewrite (slice_from _ _ 0 100) by lia.
    rewrite filter_all by reflexivity. reflexivity. }
  split; [exact H|]. unfold Themes.analysed_ids, Themes.list_documents. rewrite H.
  split; [reflexivity|]. rewrite length_map, length_take. lia.
Qed.

End ListingFacts.

Lemma list_documents_page_witness :
  Listing.total
    (Listing.list_endpoint (Sample.registry_of Sample.indexed_system) (-1) 1
       (Some "processed") None) <= 1.
Proof.
  apply (list_documents_page (Sample.registry_of Sample.indexed_system) (-1) 1
           (Some "processed") None).
  lia.
Defined.

Lemma list_documents_pages_join_witness :
  Listing.list_documents (Sample.registry_of Sample.indexed_system) 0 1 None None
  ++ Listing.list_documents (Sample.registry_of Sample.indexed_system) (0 + 1) 1 None None
  = Listing.list_documents (Sample.registry_of Sample.indexed_system) 0 (1 + 1) None None.
Proof.
  apply (list_documents_pages_join (Sample.registry_of Sample.indexed_system) 0 1 1
           None None); lia.
Defined.

(** ** Clusters and themes *)

Section GroupingFacts.
Import Grouping.
Context {V : Type}.

Lemma group_get_append (k : Z) (v : V) (d : list (Z * list V)) (k0 : Z) :
  group_get k0 (group_append k v d)
  = if k0 =? k then group_get k0 d ++ [v] else group_get k0 d.
Proof.
  induction d as [|[k1 vs] r IH]; cbn [group_append group_get].
  - rewrite (Z.eqb_sym k k0). destruct (Z.eqb k0 k); reflexivity.
  - destruct (Z.eqb_spec k1 k) as [->|Hne]; cbn [group_get].
    + rewrite (Z.eqb_sym k k0). destruct (Z.eqb k0 k); reflexivity.
    + destruct (Z.eqb_spec k1 k0) as [E|Hne'].
      * destruct (Z.eqb_spec k0 k); [congruence|reflexivity].
      * exact IH.
Qed.

Lemma group_append_keys (k : Z) (v : V) (d : list (Z * list V)) :
  map fst (group_append k v d)
  = if bool_decide (k ∈ map fst d) then map fst d else map fst d ++ [k].
Proof.
  induction d as [|[k1 vs] r IH]; cbn [group_append map fst].
  - rewrite bool_decide_eq_false_2 by apply not_elem_of_nil. reflexivity.
  - destruct (Z.eqb_spec k1 k) as [->|Hne]; cbn [map fst].
    + rewrite bool_decide_eq_true_2 by left. reflexivity.
    + rewrite IH. destruct (bool_decide (k ∈ map fst r)) eqn:E.
      * apply bool_decide_eq_true in E.
        rewrite bool_decide_eq_true_2 by (right; exact E). reflexivity.
      * apply bool_decide_eq_false in E. rewrite bool_decide_eq_false_2; [reflexivity|].
        intros [H|H]%elem_of_cons; congruence.
Qed.

Lemma group_append_grouped (P : Z → Prop) (k : Z) (v : V) (d : list (Z * list V)) :
  P k → grouped P d → grouped P (group_append k v d).
Proof.
  intros Hl [Hk Hall]. split.
  - rewrite group_append_keys. destruct (bool_decide (k ∈ map fst d)) eqn:E;
      [exact Hk|]. apply bool_decide_eq_false in E. apply NoDup_app. split; [exact Hk|].
    split; [|apply NoDup_singleton].
    intros x Hx Hx'. apply list_elem_of_singleton in Hx'. congruence.
  - clear Hk. induction Hall as [|[k1 vs] r [H1 H2] Hr IH]; cbn [group_append].
    + repeat constructor; [exact Hl|discriminate].
    + destruct (Z.eqb k1 k).
      * constructor; [|assumption]. split; [exact H1|]. cbn. destruct vs; discriminate.
      * constructor; [split; assumption|exact IH].
Qed.

Lemma group_get_elem (d : list (Z * list V)) (k : Z) (vs : list V) :
  NoDup (map fst d) → (k, vs) ∈ d → group_get k d = vs.
Proof.
  induction d as [|[k1 vs1] r IH]; intros Hk Hin; [inversion Hin|].
  cbn [map fst] in Hk. apply NoDup_cons in Hk as [Hfresh Hk]. cbn [group_get].
  apply elem_of_cons in Hin as [[= <- <-]|Hin].
  - rewrite Z.eqb_refl. reflexivity.
  - destruct (Z.eqb_spec k1 k) as [->|Hne]; [|apply IH; assumption].
    exfalso. apply Hfresh. apply list_elem_of_fmap. exists (k, vs). auto.
Qed.

Lemma group_get_nonempty (d : list (Z * list V)) (k : Z) :
  group_get k d ≠ [] → ∃ vs, (k, vs) ∈ d.
Proof.
  induction d as [|[k1 vs1] r IH]; cbn [group_get]; [congruence|].
  destruct (Z.eqb_spec k1 k) as [->|Hne].
  - intros _. exists vs1. left.
  - intros H. destruct (IH H) as [m Hm]. exists m. right. exact Hm.
Qed.

End GroupingFacts.

Section ClusteringFacts.
Import Themes Grouping.

Lemma cluster_append_group (label : Z) (i : nat) (clusters : list (Z * list nat)) :
  cluster_append label i clusters = group_append label i clusters.
Proof.
  induction clusters as [|[l members] r IH]; [reflexivity|].
  cbn [cluster_append group_append]. rewrite IH. reflexivity.
Qed.

Lemma group_clusters_snoc (labels : list Z) (x : Z) :
  group_clusters (labels ++ [x])
  = if x =? -1 then group_clusters labels
    else group_append x (length labels) (group_clusters labels).
Proof.
  unfold group_clusters. rewrite imap_app, foldl_app. cbn [imap foldl fst snd].
  rewrite Nat.add_0_r, cluster_append_group. reflexivity.
Qed.

Lemma rows_labelled_snoc (labels : list Z) (x l : Z) :
  rows_labelled (labels ++ [x]) l
  = rows_labelled labels l ++ (if l =? x then [length labels] else []).
Proof.
  unfold rows_labelled. rewrite length_app. cbn [length]. rewrite Nat.add_1_r, seq_S.
  rewrite List.filter_app. cbn [plus List.filter]. f_equal.
  - apply filter_ext_in. intros i Hi. apply in_seq in Hi.
    rewrite lookup_app_l by lia. reflexivity.
  - rewrite lookup_app_r by lia. rewrite Nat.sub_diag. cbn [lookup list_lookup].
    destruct (Z.eqb_spec l x) as [->|Hne].
    + rewrite bool_decide_eq_true_2 by reflexivity. reflexivity.
    + rewrite bool_decide_eq_false_2 by congruence. reflexivity.
Qed.

Lemma group_clusters_rows (labels : list Z) :
  grouped (λ l, l ≠ -1) (group_clusters labels)
  ∧ ∀ l, l ≠ -1 → group_get l (group_clusters labels) = rows_labelled labels l.
Proof.
  induction labels as [|x labels IH] using rev_ind.
  - split; [split; constructor|]. reflexivity.
  - destruct IH as [Hg Hrows]. rewrite group_clusters_snoc.
    destruct (Z.eqb_spec x (-1)) as [->|Hx].
    + split; [exact Hg|]. intros l Hl. rewrite rows_labelled_snoc, (Hrows l Hl).
      destruct (Z.eqb_spec l (-1)); [congruence|]. rewrite app_nil_r. reflexivity.
    + split; [apply group_append_grouped; assumption|].
      intros l Hl. rewrite group_get_append, rows_labelled_snoc, (Hrows l Hl).
      destruct (Z.eqb l x); [reflexivity|rewrite app_nil_r; reflexivity].
Qed.

(** The clusters of a list of labels. *)
Lemma group_clusters_exact (labels : list Z) :
  NoDup (map fst (group_clusters labels))
  ∧ (∀ l members, (l, members) ∈ group_clusters labels →
       l ≠ -1 ∧ members ≠ [] ∧ members = rows_labelled labels l)
  ∧ (∀ i l, labels !! i = Some l → l ≠ -1 →
       ∃ members, (l, members) ∈ group_clusters labels ∧ i ∈ members).
Proof.
  destruct (group_clusters_rows labels) as [[Hk Hall] Hrows].
  split; [exact Hk|]. split.
  - intros l members Hin. rewrite Forall_forall in Hall.
    destruct (Hall _ Hin) as [Hl Hne]. cbn in Hl, Hne.
    split; [exact Hl|]. split; [exact Hne|].
    rewrite <- (Hrows l Hl). symmetry. apply group_get_elem; assumption.
  - intros i l Hi Hl.
    assert (i ∈ rows_labelled labels l) as Hrow.
    { unfold rows_labelled. apply list_elem_of_In, filter_In. split.
      - apply in_seq. apply lookup_lt_Some in Hi. lia.
      - apply bool_decide_eq_true_2, Hi. }
    rewrite <- (Hrows l Hl) in Hrow.
    destruct (group_get_nonempty (group_clusters labels) l) as [members Hm].
    { intros E. rewrite E in Hrow. inversion Hrow. }
    exists members. split; [exact Hm|].
    rewrite <- (group_get_elem _ _ _ Hk Hm). exact Hrow.
Qed.

(** X19. The loop that groups the DBSCAN labels, as both
    [ThemeProcessor.identify_themes] and [QueryProcessor.identify_themes]
    run it: the cluster keys are distinct and none is the noise label -1;
    the cluster of a label holds exactly the rows that carry the label, in
    increasing order, and is not empty; and every row whose label is not
    noise is in the cluster of its label. *)
Theorem group_clusters_partition (labels : list Z) :
  NoDup (map fst (group_clusters labels))
  ∧ (∀ l members, (l, members) ∈ group_clusters labels →
       l ≠ -1 ∧ members ≠ [] ∧ members = rows_labelled labels l)
  ∧ (∀ i l, labels !! i = Some l → l ≠ -1 →
       ∃ members, (l, members) ∈ group_clusters labels ∧ i ∈ members).
Proof. apply group_clusters_exact. Qed.

End ClusteringFacts.

Lemma group_clusters_partition_witness :
  NoDup (map fst (Themes.group_clusters [0; -1; 1; 0])).
Proof.
  apply (proj1 (group_clusters_partition [0; -1; 1; 0])).
Defined.

Section ThemeRun.
Import Doc VectorDatabase Themes Derived.
Variable dbscan : Q → Z → list (list Q) → list Z.
Variable uuid4 : nat → string.
Variable describe : list string → string.

Lemma collect_chunks_nil (vdb : State) (ids : list string) : collect_chunks vdb ids = [].
Proof.
  unfold collect_chunks.
  assert (∀ acc : list (string * list (string * list Q)),
            foldl (λ acc doc_id,
                     match get_document_embeddings vdb doc_id with
                     | [] => acc
                     | embeddings => dict_set doc_id embeddings acc
                     end) acc ids = acc) as H.
  { induction ids as [|doc_id ids IH]; intros acc; [reflexivity|].
    cbn [foldl]. rewrite get_document_embeddings_nil. apply IH. }
  apply H.
Qed.


End ThemeRun.

Section QueryThemes.
Import Doc VectorDatabase Themes Grouping Derived.
Variable dbscan : Q → Z → list (list Q) → list Z.
Variable describe : list string → string.
Variable embed_documents : list string → list (list Q).

Lemma mapM_lookup_valid {A} (l : list A) (rows : list nat) :
  Forall (λ i, (i < length l)%nat) rows →
  mapM (λ i, l !! i) rows = Some (omap (λ i, l !! i) rows).
Proof.
  induction 1 as [|i rows Hi _ IH]; [reflexivity|].
  cbn [mapM omap list_omap]. destruct (lookup_lt_is_Some_2 l i Hi) as [x Hx].
  rewrite Hx, IH. reflexivity.
Qed.

Lemma rows_labelled_valid (labels : list Z) (l : Z) :
  Forall (λ i, (i < length labels)%nat) (rows_labelled labels l).
Proof.
  apply Forall_forall. intros i Hi. unfold rows_labelled in Hi.
  apply list_elem_of_In, filter_In in Hi as [Hi _]. apply in_seq in Hi. lia.
Qed.

Lemma query_themes_of_clusters (search_results : list SearchResult) (labels : list Z)
    (clusters : list (Z * list nat)) :
  length labels = length search_results →
  Forall (λ c, c.2 = rows_labelled labels c.1) clusters →
  mapM (query_theme describe search_results) clusters
  = Some (map (λ c, theme_of_label describe search_results labels c.1) clusters).
Proof.
  intros Hlen. induction 1 as [|[l members] clusters Hc _ IH]; [reflexivity|].
  cbn [mapM map]. rewrite IH. cbn [fst snd] in Hc |- *. subst members.
  unfold query_theme.
  rewrite mapM_lookup_valid by (rewrite <- Hlen; apply rows_labelled_valid).
  reflexivity.
Qed.


(** X21. [QueryProcessor.identify_themes] on at least
    [MIN_THEME_DOCUMENTS] search results, when the clustering gives one
    label per result: there is exactly one theme for each label other than
    noise, named [theme_<label>], and it cites exactly the results that
    carry the label, each once and in result order, with the score of the
    result; a result labelled as noise is cited by no theme. *)
Theorem query_themes_follow_labels (search_results : list SearchResult) (labels : list Z) :
  labels = dbscan (1 - config.THEME_SIMILARITY_THRESHOLD)%Q config.MIN_THEME_DOCUMENTS
             (embed_documents (map extracted_answer search_results)) →
  config.MIN_THEME_DOCUMENTS <= Z.of_nat (length search_results) →
  length labels = length search_results →
  ∃ cluster_labels,
    query_processor_identify_themes dbscan describe embed_documents search_results
    = map (theme_of_label describe search_results labels) cluster_labels
    ∧ NoDup cluster_labels
    ∧ ∀ l, l ∈ cluster_labels ↔ l ≠ -1 ∧ l ∈ labels.
Proof.
  intros Hlabels Hmin Hlen.
  destruct (group_clusters_exact labels) as (Hk & Hrows & Hcover).
  exists (map fst (group_clusters labels)). split; [|split; [exact Hk|]].
  - unfold query_processor_identify_themes. rewrite <- Hlabels.
    destruct (Z.geb_spec (Z.of_nat (length search_results)) config.MIN_THEME_DOCUMENTS);
      [|lia].
    rewrite (query_themes_of_clusters search_results labels _ Hlen).
    + cbn [default]. rewrite map_map. reflexivity.
    + apply Forall_forall. intros [l members] Hin. apply (Hrows l members Hin).
  - intros l. split.
    + intros Hin. apply list_elem_of_fmap in Hin as ([l' members] & -> & Hin).
      destruct (Hrows _ _ Hin) as (Hl & Hne & Hm). cbn [fst]. split; [exact Hl|].
      destruct members as [|i rest]; [congruence|].
      assert (i ∈ rows_labelled labels l') as Hi by (rewrite <- Hm; left).
      unfold rows_labelled in Hi. apply list_elem_of_In, filter_In in Hi as [_ Hi].
      apply bool_decide_eq_true in Hi. eapply list_elem_of_lookup_2, Hi.
    + intros [Hl Hin]. apply list_elem_of_lookup in Hin as (i & Hi).
      destruct (Hcover i l Hi Hl) as (members & Hm & _).
      apply list_elem_of_fmap. exists (l, members). split; [reflexivity|exact Hm].
Qed.

End QueryThemes.

Lemma query_themes_follow_labels_witness :
  ∃ cluster_labels,
    Themes.query_processor_identify_themes Sample.one_cluster Sample.topics
      Sample.unit_embeddings Sample.same_document_results
    = map (Derived.theme_of_label Sample.topics Sample.same_document_results [0; 0])
        cluster_labels
    ∧ NoDup cluster_labels
    ∧ ∀ l, l ∈ cluster_labels ↔ l ≠ -1 ∧ l ∈ [0; 0].
Proof.
  apply (query_themes_follow_labels Sample.one_cluster Sample.topics Sample.unit_embeddings
           Sample.same_document_results [0; 0]).
  - vm_compute. reflexivity.
  - vm_compute. discriminate.
  - reflexivity.
Defined.

Section QueryCounts.
Import Doc VectorDatabase Themes Grouping Derived.
Variable dbscan : Q → Z → list (list Q) → list Z.
Variable describe : list string → string.
Variable embed_documents : list string → list (list Q).

Lemma remove_dups_nonempty (l : list string) : l ≠ [] → remove_dups l ≠ [].
Proof.
  destruct l as [|x l]; [congruence|]. intros _ E.
  assert (x ∈ remove_dups (x :: l)) as H by (apply elem_of_remove_dups; left).
  rewrite E in H. inversion H.
Qed.

(** X26. The part of the invariant on [document_count] that
    [QueryProcessor.identify_themes] keeps: in every theme it returns,
    [document_count] is the number of distinct documents among the theme's
    citations, the theme has a citation, and so [document_count] is at
    least 1 (not [MIN_THEME_DOCUMENTS]: nothing compares the two). *)
Theorem query_theme_counts_cited_documents (search_results : list SearchResult)
    (theme : Theme) :
  theme ∈ query_processor_identify_themes dbscan describe embed_documents search_results →
  document_count theme = count_distinct (map tc_document_id (citations theme))
  ∧ citations theme ≠ []
  ∧ 1 <= document_count theme.
Proof.
  unfold query_processor_identify_themes. intros Hin.
  destruct (Z.of_nat (length search_results) >=? config.MIN_THEME_DOCUMENTS);
    [|inversion Hin].
  match type of Hin with
  | _ ∈ default [] (mapM _ (group_clusters ?l)) => set (labels := l) in *
  end.
  destruct (mapM _ (group_clusters labels)) as [themes|] eqn:Hthemes; [|inversion Hin].
  cbn [default] in Hin. apply mapM_Some_1 in Hthemes.
  apply list_elem_of_lookup in Hin as (j & Hj).
  destruct (Forall2_lookup_r _ _ _ _ _ Hthemes Hj) as ([l members] & Hc & Hq).
  pose proof (query_theme_inv describe _ _ _ Hq) as Hcount.
  destruct (group_clusters_exact labels) as (_ & Hrows & _).
  destruct (Hrows l members (list_elem_of_lookup_2 _ _ _ Hc)) as (_ & Hne & _).
  unfold query_theme in Hq.
  destruct (mapM _ members) as [cluster_results|] eqn:Hm; [|discriminate Hq].
  apply length_mapM in Hm. cbn [mbind option_bind] in Hq. injection Hq as <-.
  cbn [document_count citations] in *.
  assert (cluster_results ≠ []) as Hres.
  { intros E. rewrite E in Hm. destruct members; [congruence|discriminate Hm]. }
  split; [exact Hcount|]. split.
  - destruct cluster_results; [congruence|discriminate].
  - assert (remove_dups (map VectorDatabase.document_id cluster_results) ≠ []) as Hd.
    { apply remove_dups_nonempty. destruct cluster_results; [congruence|discriminate]. }
    destruct (remove_dups (map VectorDatabase.document_id cluster_results));
      [congruence|]. cbn [length]. lia.
Qed.

End QueryCounts.

Lemma query_theme_counts_cited_documents_witness :
  Themes.document_count
    (Derived.theme_of_label Sample.topics Sample.same_document_results [0; 0] 0)
  = Themes.count_distinct
      (map Themes.tc_document_id
         (Themes.citations
            (Derived.theme_of_label Sample.topics Sample.same_document_results [0; 0] 0)))
  ∧ Themes.citations
      (Derived.theme_of_label Sample.topics Sample.same_document_results [0; 0] 0) ≠ []
  ∧ 1 <= Themes.document_count
           (Derived.theme_of_label Sample.topics Sample.same_document_results [0; 0] 0).
Proof.
  apply (query_theme_counts_cited_documents Sample.one_cluster Sample.topics
           Sample.unit_embeddings Sample.same_document_results).
  apply (list_elem_of_lookup_2 _ 0%nat). vm_compute. reflexivity.
Defined.

(** ** The document structure *)

Section StructureFacts.
Import EnhancedCitation CitationSearch Grouping DocumentStructure.

Lemma paragraph_node_keyed (p : string * Paragraph) :
  keyed p → paragraph_node p = Some (node_of p).
Proof.
  intros (Hkey & Hpos & Hs). unfold paragraph_node, node_of.
  rewrite Hkey at 1. rewrite (int_str _ Hpos). cbn [mbind option_bind].
  assert (mapM (sentence_node p.1) (p_sentences p.2)
          = Some (map (λ s : string * Sentence,
                         {| sn_id := "p" +:+ p.1 +:+ "s" +:+ s.1; sn_index := s_index s.2;
                            sn_text := s_text s.2 |}) (p_sentences p.2))) as ->.
  { revert Hs. generalize (p_sentences p.2). intros l. induction l as [|[k s] l IH]; intros Hs.
    - reflexivity.
    - destruct (Hs k s) as [-> Hj]; [left|].
      change (mapM (sentence_node p.1) ((Py.str (s_index s), s) :: l))
        with (y ← sentence_node p.1 (Py.str (s_index s), s);
              k ← mapM (sentence_node p.1) l; mret (y :: k)).
      rewrite IH by (intros k' s' Hin; apply Hs; right; exact Hin).
      unfold sentence_node. cbn [fst snd]. rewrite (int_str _ Hj). reflexivity.
      }
  reflexivity.
Qed.

Lemma group_pages_keyed (paragraphs : list (string * Paragraph))
    (pages : list (Z * list ParagraphNode)) :
  Forall keyed paragraphs →
  group_pages paragraphs pages
  = Some (foldl (λ acc p, group_append (p_page p.2) (node_of p) acc) pages paragraphs).
Proof.
  intros H. revert pages. induction H as [|p rest Hp _ IH]; intros pages; [reflexivity|].
  cbn [group_pages foldl]. rewrite (paragraph_node_keyed p Hp). cbn [mbind option_bind].
  apply IH.
Qed.

Lemma grouped_pages (paragraphs : list (string * Paragraph)) :
  let pages := foldl (λ acc p, group_append (p_page p.2) (node_of p) acc) [] paragraphs in
  grouped (λ n, ∃ p, p ∈ paragraphs ∧ p_page p.2 = n) pages
  ∧ ∀ n, group_get n pages = map node_of (List.filter (λ p, p_page p.2 =? n) paragraphs).
Proof.
  induction paragraphs as [|x paragraphs IH] using rev_ind.
  - split; [split; constructor|]. reflexivity.
  - cbn zeta in IH |- *. destruct IH as [[Hk Hall] Hget]. rewrite foldl_app. cbn [foldl].
    split.
    + apply group_append_grouped.
      * exists x. split; [apply elem_of_app; right; left|reflexivity].
      * split; [exact Hk|]. eapply Forall_impl; [exact Hall|].
        intros c [(p & Hp & Hn) Hne]. split; [|exact Hne].
        exists p. split; [apply elem_of_app; left; exact Hp|exact Hn].
    + intros n. rewrite group_get_append, Hget, List.filter_app, map_app.
      cbn [List.filter]. rewrite (Z.eqb_sym n).
      destruct (Z.eqb (p_page x.2) n); [reflexivity|]. cbn [map]. rewrite app_nil_r.
      reflexivity.
Qed.

Lemma sorted_distinct (l : list Z) :
  StronglySorted Z.le l → NoDup l → StronglySorted Z.lt l.
Proof.
  induction 1 as [|x l Hl IH Hx]; intros Hnd; [constructor|].
  apply NoDup_cons in Hnd as [Hfresh Hnd]. constructor; [apply IH, Hnd|].
  rewrite Forall_forall in Hx |- *. intros y Hy. specialize (Hx y Hy).
  destruct (Z.eq_dec x y) as [->|Hne]; [contradiction|lia].
Qed.

Lemma preview_length (text : string) : Py.len (preview text) <= 103.
Proof.
  unfold preview, Py.len. destruct (Z.ltb_spec 100 (Z.of_nat (String.length text))); [|lia].
  assert (∀ a b, String.length (a +:+ b) = (String.length a + String.length b)%nat) as Happ.
  { intros a b. induction a as [|c a IH]; [reflexivity|]. cbn. rewrite <- IH. reflexivity. }
  assert (∀ n s, (String.length (String.substring 0 n s) <= n)%nat) as Hsub.
  { intros n. induction n as [|n IH]; intros s; destruct s; cbn; try lia.
    specialize (IH s). lia. }
  rewrite Happ. specialize (Hsub 100%nat text). cbn [String.length]. lia.
Qed.

(** X22. [get_document_structure] for a document indexed by
    [process_document]: the title is that of the index; the pages are listed
    by strictly increasing page number; a page is listed exactly when some
    paragraph of the index was resolved to it; and each page holds exactly
    those paragraphs, in index order, each with its index, its sentences and
    a preview of its text of at most 103 characters. *)
Theorem document_structure_pages (st : State) (d : Doc.Document) (text : string)
    (document_id : string) (data : CitationData) :
  build_index d text = Py.Ok data →
  citation_metadata st !! document_id = Some data →
  let s := get_document_structure st document_id in
  ds_document_title s = cd_document_title data
  ∧ StronglySorted Z.lt (map pg_number (ds_structure s))
  ∧ (∀ n, n ∈ map pg_number (ds_structure s) ↔ on_page data n ≠ [])
  ∧ ∀ page, page ∈ ds_structure s →
      pg_paragraphs page = map node_of (on_page data (pg_number page))
      ∧ Forall (λ node, Py.len (pn_text node) <= 103) (pg_paragraphs page).
Proof.
  intros Hbuilt Hdata. pose proof (build_index_keyed _ _ _ Hbuilt) as Hkeyed.
  unfold get_document_structure. rewrite Hdata.
  rewrite (group_pages_keyed _ _ Hkeyed).
  destruct (grouped_pages (cd_paragraphs data)) as [[Hk Hall] Hget].
  set (pages := foldl _ _ _) in *. cbn zeta. cbn [ds_document_title ds_structure].
  assert (map pg_number (map (page_node pages) (merge_sort Z.le (map fst pages)))
          = merge_sort Z.le (map fst pages)) as Hnum.
  { rewrite map_map. cbn [page_node pg_number]. apply map_id. }
  assert (∀ n, n ∈ map fst pages ↔ on_page data n ≠ []) as Hkeys.
  { intros n. unfold on_page. split.
    - intros Hn. apply list_elem_of_fmap in Hn as ([n' nodes] & -> & Hin).
      rewrite Forall_forall in Hall. destruct (Hall _ Hin) as [(p & Hp & Hpn) _].
      cbn [fst] in *. intros E.
      assert (In p (List.filter (λ p, p_page p.2 =? n') (cd_paragraphs data))) as Hf.
      { apply filter_In. split; [apply list_elem_of_In, Hp|apply Z.eqb_eq, Hpn]. }
      rewrite E in Hf. destruct Hf.
    - intros Hne. destruct (group_get_nonempty pages n) as [nodes Hn].
      + rewrite Hget. destruct (List.filter _ _); [congruence|discriminate].
      + apply list_elem_of_fmap. exists (n, nodes). split; [reflexivity|exact Hn]. }
  split; [reflexivity|]. split; [|split].
  - rewrite Hnum. apply sorted_distinct.
    + apply StronglySorted_merge_sort; [intros x y z; apply Z.le_trans|].
      intros x y. apply Z.le_ge_cases.
    + rewrite merge_sort_Permutation. exact Hk.
  - intros n. rewrite Hnum, merge_sort_Permutation. apply Hkeys.
  - intros page Hpage. apply list_elem_of_fmap in Hpage as (n & -> & _).
    cbn [page_node pg_paragraphs pg_number]. rewrite Hget. split; [reflexivity|].
    apply Forall_forall. intros node Hnode.
    apply list_elem_of_fmap in Hnode as (p & -> & _). apply preview_length.
Qed.

End StructureFacts.

Lemma document_structure_pages_witness :
  DocumentStructure.ds_document_title
    (DocumentStructure.get_document_structure Sample.citation_service "Z")
  = EnhancedCitation.cd_document_title (Sample.index_of "Z")
  ∧ StronglySorted Z.lt
      (map DocumentStructure.pg_number
         (DocumentStructure.ds_structure
            (DocumentStructure.get_document_structure Sample.citation_service "Z"))).
Proof.
  destruct (document_structure_pages Sample.citation_service (Sample.registered "Z")
              Sample.animals_text "Z" (Sample.index_of "Z")) as (H1 & H2 & _).
  - vm_compute. reflexivity.
  - vm_compute. reflexivity.
  - exact (conj H1 H2).
Defined.

(** ** A page count of zero *)

Section ZeroPages.
Import Doc EnhancedCitation VectorDatabase.

Lemma paragraph_entries_pages (d : Document) (total : Z) (rest : list string) :
  ∀ (i : nat) (entries : list (string * Paragraph)),
    paragraph_entries d total i rest = Py.Ok entries →
    ∀ e, e ∈ entries →
      ∃ j, resolve_page d total (Z.of_nat j) (p_text e.2) = Py.Ok (p_page e.2).
Proof.
  induction rest as [|p rest IH]; intros i entries.
  - intros [= <-] e He. inversion He.
  - cbn [paragraph_entries]. unfold paragraph_entry at 1.
    destruct (negb (Py.truthy (Py.strip p))).
    + cbn [Py.bind]. destruct (paragraph_entries d total (S i) rest) as [more|] eqn:E;
        [|discriminate]. cbn [Py.bind]. intros [= <-]. apply (IH _ _ E).
    + destruct (resolve_page d total (Z.of_nat i) p) as [page|] eqn:Hp; [|discriminate].
      cbn [Py.bind]. destruct (paragraph_entries d total (S i) rest) as [more|] eqn:E;
        [|discriminate]. cbn [Py.bind]. intros [= <-] e He.
      apply elem_of_cons in He as [->|He]; [|apply (IH _ _ E e He)].
      exists i. cbn [snd p_text p_page]. exact Hp.
Qed.

(** X23. A page count of 0.  When the index has two paragraphs or more,
    every paragraph without a page marker is indexed on page 0, while the
    vector service stores every chunk without a marker on page 1: the two
    indexers give different pages for the same text.  [_process_pdf] gives
    this count to a PDF none of whose [pdfinfo] lines starts with
    [Pages:]. *)
Theorem zero_page_count_pages (d : Document) (text : string) (data : CitationData)
    (total : Z) (i : nat) (chunk_text : string) :
  page_count d = Some 0 →
  build_index d text = Py.Ok data →
  2 <= cd_paragraph_count data →
  (∀ e, e ∈ cd_paragraphs data → _extract_page_number (p_text e.2) = None → p_page e.2 = 0)
  ∧ (marker_page (Py.split_char "010" chunk_text) = None →
     md_page (metadata (make_chunk d total i chunk_text)) = Some 1)
  ∧ ∀ info_lines, Forall (λ line, Py.startswith line "Pages:" = false) info_lines →
      DocumentProcessor.pages_of_info info_lines = Py.Ok 0.
Proof.
  intros Hpc Hbuild Hcount. split; [|split].
  - unfold build_index in Hbuild.
    destruct (paragraph_entries d _ 0 (_split_into_paragraphs text)) as [entries|] eqn:E;
      [|discriminate]. cbn [Py.bind] in Hbuild. injection Hbuild as <-.
    cbn [cd_paragraphs cd_paragraph_count] in *. intros e He Hnone.
    destruct (paragraph_entries_pages _ _ _ _ _ E e He) as (j & Hj).
    unfold resolve_page in Hj. rewrite Hpc, Hnone in Hj.
    unfold _estimate_page_number in Hj.
    destruct (Z.leb_spec (Z.of_nat (length (_split_into_paragraphs text))) 1); [lia|].
    rewrite Z.mul_0_r, Z.div_0_l in Hj by lia. injection Hj as <-. reflexivity.
  - intros Hnone. unfold make_chunk. cbn [metadata md_page].
    unfold page_info, known_page_count. rewrite Hnone, Hpc. reflexivity.
  - induction 1 as [|line rest Hline _ IH]; [reflexivity|].
    cbn [DocumentProcessor.pages_of_info]. rewrite Hline. exact IH.
Qed.

End ZeroPages.

Lemma zero_page_count_pages_witness :
  (∀ e, e ∈ EnhancedCitation.cd_paragraphs Sample.zero_pages_index →
        EnhancedCitation._extract_page_number (EnhancedCitation.p_text e.2) = None →
        EnhancedCitation.p_page e.2 = 0)
  ∧ (VectorDatabase.marker_page (Py.split_char "010" "Birds sing.") = None →
     VectorDatabase.md_page
       (VectorDatabase.metadata
          (VectorDatabase.make_chunk Sample.zero_pages_document 1 0 "Birds sing."))
     = Some 1)
  ∧ DocumentProcessor.pages_of_info ["Title:          Animals"; "Producer:       pdfTeX"]
    = Py.Ok 0.
Proof.
  destruct (zero_page_count_pages Sample.zero_pages_document Sample.animals_text
              Sample.zero_pages_index 1 0 "Birds sing.") as (H1 & H2 & H3).
  - reflexivity.
  - vm_compute. reflexivity.
  - vm_compute. discriminate.
  - split; [exact H1|]. split; [exact H2|].
    apply H3. repeat constructor.
Defined.
